(** * RFQ extractor: extraction strategies and arbitration

    A shallow embedding of [advanced_extractor.py] and
    [hybrid_name_extractor.py], and of the quote block of
    [smart_extractor_app.py].

    Conventions of the embedding.
    - A Python [float] is an exact rational ([Q]); the literals of the source
      ([0.7], [1.1], [0.453592], ...) are the rationals they denote.  The
      arithmetic is exact where that of the code rounds: a product or a mean
      of the code can differ from the one here in its last place (its
      [0.9 * 0.9 * 1.1] is 0.8910000000000001, its mean of six 0.7 is
      0.7000000000000001), and a numeral beyond the range of a float, infinite
      in the code, is finite here.
    - A Python [str] is the [string] of its UTF-8 bytes: for ASCII text, the
      text itself, character by character.  The literals are those of the
      source files, byte for byte.  The character tests and case mappings are
      those of ASCII; they leave the bytes of other characters alone, so on a
      text with other characters the embedding is an approximation.
    - The external collaborators (the chat-completion client, the entity
      recogniser, [json.loads]) are the fields of a record [Env] that every
      operation that reaches them takes as an argument.
    - A Python exception that leaves a function is the [Raised] outcome. *)

From Stdlib Require Import Bool List String Ascii Arith ZArith QArith Qminmax Qround.
From Stdlib Require Import DecimalString DecimalPos DecimalZ Lia Lqa Sorted Permutation.
Import ListNotations.

Local Open Scope string_scope.
Local Open Scope Q_scope.

(** ** Floats as rationals *)

Module PyFloat.

(** [x < y] and [x <= y] of two floats, as booleans. *)
Definition ltb (x y : Q) : bool := negb (Qle_bool y x).
Definition leb (x y : Q) : bool := Qle_bool x y.

(** Python's [min(x, y)]: [y] when [y < x], else [x]. *)
Definition min (x y : Q) : Q := if ltb y x then y else x.

End PyFloat.

(** ** The result of one extraction strategy *)

Record ExtractionResult := mkResult {
  value : string;
  confidence : Q;
  method : string;
  raw_match : string
}.

(** [ExtractionResult(value=v, confidence=c, method=m)]: [raw_match] keeps
    its default. *)
Definition result (v : string) (c : Q) (m : string) : ExtractionResult :=
  mkResult v c m "".

(** ** Aggregate confidence ([_calculate_overall_confidence]) *)

(** The values of [field_weights], in the order of its keys. *)
Definition field_weights : list (string * Q) :=
  [ ("origin", 0.25); ("destination", 0.25); ("commodity", 0.20);
    ("weight", 0.15); ("urgency", 0.10); ("contact_name", 0.05) ].

(** [field_weights.get(list(field_weights.keys())[i] if i < len(field_weights)
    else 'other', 0.05)]. *)
Definition weight_at (i : nat) : Q :=
  match nth_error field_weights i with
  | Some (_, w) => w
  | None => 0.05
  end.

(** The loop over [enumerate(results)], from index [i] on, threading
    [weighted_score] and [total_weight]. *)
Fixpoint score_loop (i : nat) (results : list ExtractionResult)
    (weighted_score total_weight : Q) : Q * Q :=
  match results with
  | [] => (weighted_score, total_weight)
  | r :: rest =>
      let weight := weight_at i in
      if PyFloat.ltb 0 (confidence r)
      then score_loop (S i) rest
             (weighted_score + confidence r * weight) (total_weight + weight)
      else score_loop (S i) rest weighted_score total_weight
  end.

(** [len([r for r in results[:4] if r.confidence > 0.7])]. *)
Definition critical_count (results : list ExtractionResult) : nat :=
  List.length (filter (fun r => PyFloat.ltb 0.7 (confidence r)) (firstn 4 results)).

Definition _calculate_overall_confidence (results : list ExtractionResult) : Q :=
  match results with
  | [] => 0
  | _ =>
      let '(weighted_score, total_weight) := score_loop 0 results 0 0 in
      let weighted_score :=
        if (3 <=? critical_count results)%nat then weighted_score * 1.1
        else weighted_score in
      if PyFloat.ltb 0 total_weight
      then PyFloat.min (weighted_score / total_weight) 1
      else 0
  end.

(** ** Python strings *)

Module PyStr.

Definition code (c : ascii) : nat := nat_of_ascii c.

Definition in_range (lo hi : nat) (c : ascii) : bool :=
  (lo <=? code c)%nat && (code c <=? hi)%nat.

(** [c.isupper()], [c.islower()] of one character. *)
Definition is_upper (c : ascii) : bool := in_range 65 90 c.
Definition is_lower (c : ascii) : bool := in_range 97 122 c.
Definition is_cased (c : ascii) : bool := is_upper c || is_lower c.

(** [c.isalpha()], [c.isdigit()] and [c.isspace()]. *)
Definition is_alpha (c : ascii) : bool := is_cased c.
Definition is_digit (c : ascii) : bool := in_range 48 57 c.
Definition is_space (c : ascii) : bool := in_range 9 13 c || in_range 28 32 c.
(** [c.isalnum() or c == '_']: what the pattern [\w] matches. *)
Definition is_word (c : ascii) : bool :=
  is_alpha c || is_digit c || (code c =? 95)%nat.

Definition lower_char (c : ascii) : ascii :=
  if is_upper c then ascii_of_nat (code c + 32) else c.
Definition upper_char (c : ascii) : ascii :=
  if is_lower c then ascii_of_nat (code c - 32) else c.

Fixpoint map (f : ascii -> ascii) (s : string) : string :=
  match s with
  | EmptyString => EmptyString
  | String c s' => String (f c) (map f s')
  end.

(** [s.lower()]. *)
Definition lower (s : string) : string := map lower_char s.

(** [s.title()]: a character after a cased one is lowered, any other is
    raised. *)
Fixpoint title_from (previous_is_cased : bool) (s : string) : string :=
  match s with
  | EmptyString => EmptyString
  | String c s' =>
      String (if previous_is_cased then lower_char c else upper_char c)
             (title_from (is_cased c) s')
  end.
Definition title (s : string) : string := title_from false s.

Fixpoint rev_onto (s acc : string) : string :=
  match s with
  | EmptyString => acc
  | String c s' => rev_onto s' (String c acc)
  end.
Definition rev (s : string) : string := rev_onto s EmptyString.

Fixpoint lstrip (s : string) : string :=
  match s with
  | String c s' => if is_space c then lstrip s' else s
  | EmptyString => EmptyString
  end.
(** [s.strip()]. *)
Definition strip (s : string) : string := rev (lstrip (rev (lstrip s))).

Fixpoint startswith (p s : string) : bool :=
  match p, s with
  | EmptyString, _ => true
  | String a p', String b s' => Ascii.eqb a b && startswith p' s'
  | String _ _, EmptyString => false
  end.

(** [sub in s]. *)
Fixpoint contains (sub s : string) : bool :=
  startswith sub s ||
  match s with
  | EmptyString => false
  | String _ s' => contains sub s'
  end.

(** [s.endswith(p)]. *)
Definition endswith (p s : string) : bool := startswith (rev p) (rev s).

(** [any(p(c) for c in s)], [all(...)] and [sum(p(c) for c in s)]. *)
Fixpoint any (p : ascii -> bool) (s : string) : bool :=
  match s with
  | EmptyString => false
  | String c s' => p c || any p s'
  end.
Fixpoint count (p : ascii -> bool) (s : string) : nat :=
  match s with
  | EmptyString => O
  | String c s' => ((if p c then 1 else 0) + count p s')%nat
  end.

(** [s.split()]: the maximal runs of characters that are not white space. *)
Fixpoint split_from (cur : string) (s : string) : list string :=
  match s with
  | EmptyString => match cur with EmptyString => [] | _ => [rev cur] end
  | String c s' =>
      if is_space c
      then match cur with
           | EmptyString => split_from EmptyString s'
           | _ => rev cur :: split_from EmptyString s'
           end
      else split_from (String c cur) s'
  end.
Definition split (s : string) : list string := split_from EmptyString s.

(** [sep.join(parts)]. *)
Fixpoint join (sep : string) (parts : list string) : string :=
  match parts with
  | [] => EmptyString
  | [p] => p
  | p :: rest => p ++ sep ++ join sep rest
  end.

(** [s[a:-b]] for [a <= len(s)]. *)
Definition slice (a b : nat) (s : string) : string :=
  substring a (String.length s - b - a) s.

End PyStr.

(** ** Regular expressions ([re])

    The patterns of the source are kept as the text the source has; [compile]
    reads the syntax they use and [search] / [finditer] match by backtracking,
    alternatives and repetitions tried in the order [re] tries them. *)

Module Re.

Import PyStr.

Record flags := { ignorecase : bool; multiline : bool }.

Definition no_flags : flags := {| ignorecase := false; multiline := false |}.
Definition IGNORECASE : flags := {| ignorecase := true; multiline := false |}.
Definition IGNORECASE_MULTILINE : flags := {| ignorecase := true; multiline := true |}.

(** A member of a character class. *)
Inductive item :=
| IChar (c : ascii)
| IRange (lo hi : ascii)
| ISpace
| IDigit
| IWord.

Inductive regex :=
| Lit (c : ascii)
| Class (negated : bool) (items : list item)
| Eol
| WordB
| Empty
| Cat (r1 r2 : regex)
| Alt (r1 r2 : regex)
| Group (n : nat) (r : regex)
| Rep (lo : nat) (hi : option nat) (greedy : bool) (r : regex)
| Look (r : regex).

(** *** Reading a pattern *)

Definition newline : ascii := ascii_of_nat 10.
Definition carriage_return : ascii := ascii_of_nat 13.
Definition tab : ascii := ascii_of_nat 9.

Definition escape_item (e : ascii) : item :=
  match e with
  | "s"%char => ISpace
  | "d"%char => IDigit
  | "w"%char => IWord
  | "n"%char => IChar newline
  | "r"%char => IChar carriage_return
  | "t"%char => IChar tab
  | _ => IChar e
  end.

(** The members of a class, up to its closing bracket. *)
Fixpoint class_items (s : string) : option (list item * string) :=
  match s with
  | EmptyString => None
  | String "]"%char s' => Some ([], s')
  | String "\"%char (String e s') =>
      match class_items s' with
      | Some (its, s'') => Some (escape_item e :: its, s'')
      | None => None
      end
  | String a (String "-"%char (String b s2) as s1) =>
      if Ascii.eqb b "]"%char
      then match class_items s1 with
           | Some (its, s'') => Some (IChar a :: its, s'')
           | None => None
           end
      else match class_items s2 with
           | Some (its, s'') => Some (IRange a b :: its, s'')
           | None => None
           end
  | String a s' =>
      match class_items s' with
      | Some (its, s'') => Some (IChar a :: its, s'')
      | None => None
      end
  end.

Fixpoint read_nat (acc : nat) (s : string) : nat * string :=
  match s with
  | String c s' =>
      if is_digit c then read_nat (10 * acc + (code c - 48)) s' else (acc, s)
  | EmptyString => (acc, s)
  end.

(** The bounds of [{m}], [{m,}] and [{m,n}], after the opening brace. *)
Definition read_bounds (s : string) : option (nat * option nat * string) :=
  let '(lo, s1) := read_nat 0 s in
  match s1 with
  | String "}"%char s2 => Some (lo, Some lo, s2)
  | String ","%char (String "}"%char s2) => Some (lo, None, s2)
  | String ","%char s2 =>
      let '(hi, s3) := read_nat 0 s2 in
      match s3 with
      | String "}"%char s4 => Some (lo, Some hi, s4)
      | _ => None
      end
  | _ => None
  end.

(** A repetition mark after an atom, and the [?] that makes it lazy. *)
Definition read_quantifier (a : regex) (s : string) : option (regex * string) :=
  let lazy_mark (lo : nat) (hi : option nat) (s' : string) :=
    match s' with
    | String "?"%char s'' => Some (Rep lo hi false a, s'')
    | _ => Some (Rep lo hi true a, s')
    end in
  match s with
  | String "?"%char s' => lazy_mark 0%nat (Some 1%nat) s'
  | String "*"%char s' => lazy_mark 0%nat None s'
  | String "+"%char s' => lazy_mark 1%nat None s'
  | String "{"%char s' =>
      match read_bounds s' with
      | Some (lo, hi, s'') => lazy_mark lo hi s''
      | None => None
      end
  | _ => Some (a, s)
  end.

Definition escape_atom (e : ascii) : option regex :=
  match e with
  | "s"%char => Some (Class false [ISpace])
  | "d"%char => Some (Class false [IDigit])
  | "w"%char => Some (Class false [IWord])
  | "b"%char => Some WordB
  | "n"%char => Some (Lit newline)
  | "r"%char => Some (Lit carriage_return)
  | "t"%char => Some (Lit tab)
  | _ => if is_word e then None else Some (Lit e)
  end.

(** Alternatives, sequences and atoms; [n] is the number of the next
    capturing group. *)
Fixpoint parse_alt (fuel n : nat) (s : string) : option (regex * nat * string) :=
  match fuel with
  | O => None
  | S f =>
      match parse_seq f n s with
      | Some (r1, n1, String "|"%char s1) =>
          match parse_alt f n1 s1 with
          | Some (r2, n2, s2) => Some (Alt r1 r2, n2, s2)
          | None => None
          end
      | other => other
      end
  end
with parse_seq (fuel n : nat) (s : string) : option (regex * nat * string) :=
  match fuel with
  | O => None
  | S f =>
      match s with
      | EmptyString => Some (Empty, n, s)
      | String "|"%char _ => Some (Empty, n, s)
      | String ")"%char _ => Some (Empty, n, s)
      | _ =>
          match parse_atom f n s with
          | Some (a, n1, s1) =>
              match read_quantifier a s1 with
              | Some (q, s2) =>
                  match parse_seq f n1 s2 with
                  | Some (r, n2, s3) => Some (Cat q r, n2, s3)
                  | None => None
                  end
              | None => None
              end
          | None => None
          end
      end
  end
with parse_atom (fuel n : nat) (s : string) : option (regex * nat * string) :=
  match fuel with
  | O => None
  | S f =>
      match s with
      | String "("%char (String "?"%char (String ":"%char s1)) =>
          match parse_alt f n s1 with
          | Some (r, n1, String ")"%char s2) => Some (r, n1, s2)
          | _ => None
          end
      | String "("%char (String "?"%char (String "="%char s1)) =>
          match parse_alt f n s1 with
          | Some (r, n1, String ")"%char s2) => Some (Look r, n1, s2)
          | _ => None
          end
      | String "("%char (String "?"%char _) => None
      | String "("%char s1 =>
          match parse_alt f (S n) s1 with
          | Some (r, n1, String ")"%char s2) => Some (Group n r, n1, s2)
          | _ => None
          end
      | String "["%char (String "^"%char s1) =>
          match class_items s1 with
          | Some (its, s2) => Some (Class true its, n, s2)
          | None => None
          end
      | String "["%char s1 =>
          match class_items s1 with
          | Some (its, s2) => Some (Class false its, n, s2)
          | None => None
          end
      | String "\"%char (String e s1) =>
          match escape_atom e with
          | Some r => Some (r, n, s1)
          | None => None
          end
      | String "$"%char s1 => Some (Eol, n, s1)
      | String "."%char s1 => Some (Class true [IChar newline], n, s1)
      | String c s1 =>
          if existsb (Ascii.eqb c) (list_ascii_of_string "\^*+?{})|")
          then None else Some (Lit c, n, s1)
      | EmptyString => None
      end
  end.

(** [re.compile(pattern)]; [None] for a pattern outside the syntax read
    here. *)
Definition compile (pattern : string) : option regex :=
  match parse_alt (3 * String.length pattern + 3) 1 pattern with
  | Some (r, _, EmptyString) => Some r
  | _ => None
  end.

(** *** Matching *)

(** A place in the subject: the offset, the text from there on, the
    character before it, and the spans of the groups closed so far. *)
Record pos := mkPos {
  offset : nat;
  rest : string;
  prev : option ascii;
  groups : list (nat * (nat * nat))
}.

Definition start_of (subject : string) : pos := mkPos 0 subject None [].

Definition next (st : pos) : option (ascii * pos) :=
  match rest st with
  | EmptyString => None
  | String c s' => Some (c, mkPos (S (offset st)) s' (Some c) (groups st))
  end.

Definition close_group (n from : nat) (st : pos) : pos :=
  mkPos (offset st) (rest st) (prev st) ((n, (from, offset st)) :: groups st).

Definition item_has (it : item) (c : ascii) : bool :=
  match it with
  | IChar x => Ascii.eqb x c
  | IRange lo hi => in_range (code lo) (code hi) c
  | ISpace => is_space c
  | IDigit => is_digit c
  | IWord => is_word c
  end.

(** Under IGNORECASE a character is in a class when it, its lower case or
    its upper case is. *)
Definition class_has (fl : flags) (items : list item) (c : ascii) : bool :=
  existsb (fun it =>
    item_has it c ||
    (ignorecase fl && (item_has it (lower_char c) || item_has it (upper_char c))))
    items.

Definition lit_matches (fl : flags) (c x : ascii) : bool :=
  Ascii.eqb c x || (ignorecase fl && Ascii.eqb (lower_char c) (lower_char x)).

(** [$]: the end of the subject or just before its last newline; under
    MULTILINE, before any newline. *)
Definition at_eol (fl : flags) (st : pos) : bool :=
  match rest st with
  | EmptyString => true
  | String c EmptyString => Ascii.eqb c newline
  | String c _ => multiline fl && Ascii.eqb c newline
  end.

(** [\b]: exactly one of the characters on the two sides is a word
    character. *)
Definition at_boundary (st : pos) : bool :=
  xorb (match prev st with Some c => is_word c | None => false end)
       (match rest st with String c _ => is_word c | EmptyString => false end).

Definition or_else {A} (a b : option A) : option A :=
  match a with Some _ => a | None => b end.

(** [matches fl r st k]: the first way, in the order [re] backtracks, of
    matching [r] at [st] and then having [k] accept the place reached. *)
Fixpoint matches (fl : flags) (r : regex) (st : pos) (k : pos -> option pos)
    {struct r} : option pos :=
  match r with
  | Lit c =>
      match next st with
      | Some (x, st') => if lit_matches fl c x then k st' else None
      | None => None
      end
  | Class negated items =>
      match next st with
      | Some (x, st') => if xorb negated (class_has fl items x) then k st' else None
      | None => None
      end
  | Eol => if at_eol fl st then k st else None
  | WordB => if at_boundary st then k st else None
  | Empty => k st
  | Cat r1 r2 => matches fl r1 st (fun st' => matches fl r2 st' k)
  | Alt r1 r2 => or_else (matches fl r1 st k) (matches fl r2 st k)
  | Group n r1 => matches fl r1 st (fun st' => k (close_group n (offset st) st'))
  | Rep lo hi greedy r1 =>
      (fix loop (fuel lo : nat) (hi : option nat) (st : pos) {struct fuel}
         : option pos :=
         match fuel with
         | O => None
         | S fuel' =>
             let again :=
               match hi with
               | Some O => None
               | _ =>
                   matches fl r1 st (fun st' =>
                     if (lo =? 0)%nat && (offset st' <=? offset st)%nat then None
                     else loop fuel' (Nat.pred lo) (option_map Nat.pred hi) st')
               end in
             match lo with
             | S _ => again
             | O => if greedy then or_else again (k st) else or_else (k st) again
             end
         end) (lo + String.length (rest st) + 1)%nat lo hi st
  | Look r1 =>
      match matches fl r1 st Some with
      | Some _ => k st
      | None => None
      end
  end.

(** A match object: [start()], [end()] and the spans of its groups. *)
Record Match := mkMatch {
  m_start : nat;
  m_end : nat;
  m_groups : list (nat * (nat * nat))
}.

Fixpoint span_of (n : nat) (gs : list (nat * (nat * nat))) : option (nat * nat) :=
  match gs with
  | [] => None
  | (i, sp) :: gs' => if (i =? n)%nat then Some sp else span_of n gs'
  end.

(** [match.group(n)] on the subject the match was found in. *)
Definition group (subject : string) (mt : Match) (n : nat) : string :=
  match n with
  | O => substring (m_start mt) (m_end mt - m_start mt) subject
  | _ =>
      match span_of n (m_groups mt) with
      | Some (a, b) => substring a (b - a) subject
      | None => EmptyString
      end
  end.

(** The leftmost match at or after the place [st]; [fuel] bounds the number
    of places tried. *)
Fixpoint scan (fuel : nat) (fl : flags) (r : regex) (st : pos)
    : option (Match * pos) :=
  match matches fl r st Some with
  | Some st' => Some (mkMatch (offset st) (offset st') (groups st'), st')
  | None =>
      match fuel, next st with
      | S fuel', Some (_, st1) => scan fuel' fl r st1
      | _, _ => None
      end
  end.

Definition search_compiled (fl : flags) (r : regex) (subject : string)
    : option Match :=
  option_map fst (scan (String.length subject) fl r (start_of subject)).

(** The matches left to right, each search resuming where the previous
    match ended (one character further after an empty match). *)
Fixpoint finditer_from (fuel : nat) (fl : flags) (r : regex) (st : pos)
    : list Match :=
  match fuel with
  | O => []
  | S fuel' =>
      match scan (String.length (rest st)) fl r st with
      | None => []
      | Some (mt, st') =>
          let resume := mkPos (offset st') (rest st') (prev st') [] in
          if (m_start mt <? m_end mt)%nat
          then mt :: finditer_from fuel' fl r resume
          else match next resume with
               | Some (_, st1) => mt :: finditer_from fuel' fl r st1
               | None => [mt]
               end
      end
  end.

(** [re.search(pattern, subject, flags)] and
    [list(re.finditer(pattern, subject, flags))]. *)
Definition search (pattern subject : string) (fl : flags) : option Match :=
  match compile pattern with
  | Some r => search_compiled fl r subject
  | None => None
  end.

Definition finditer (pattern subject : string) (fl : flags) : list Match :=
  match compile pattern with
  | Some r => finditer_from (S (String.length subject)) fl r (start_of subject)
  | None => []
  end.

End Re.

(** ** Numbers as text *)

Module PyNum.

Import PyStr.

Fixpoint digits_value (acc : N) (s : string) : option N :=
  match s with
  | EmptyString => Some acc
  | String c s' =>
      if is_digit c
      then digits_value (10 * acc + N.of_nat (code c - 48)) s'
      else None
  end.

Fixpoint split_at_dot (s : string) : string * option string :=
  match s with
  | EmptyString => (EmptyString, None)
  | String c s' =>
      if Ascii.eqb c "."%char then (EmptyString, Some s')
      else let '(a, b) := split_at_dot s' in (String c a, b)
  end.

(** [float(s)] for the numerals the weight patterns capture (digits, then
    possibly a point and digits); [None] is [ValueError]. *)
Definition float (s : string) : option Q :=
  let '(whole, frac) := split_at_dot s in
  match whole, frac with
  | EmptyString, _ => None
  | _, Some EmptyString => None
  | _, None =>
      match digits_value 0 whole with
      | Some n => Some (inject_Z (Z.of_N n))
      | None => None
      end
  | _, Some f =>
      match digits_value 0 whole, digits_value 0 f with
      | Some n, Some d =>
          let scale := Pos.pow 10 (Pos.of_nat (String.length f)) in
          Some (Qmake (Z.of_N n * Z.pos scale + Z.of_N d) scale)
      | _, _ => None
      end
  end.

(** The integer nearest to [x], a tie going to the even one. *)
Definition round_half_even (x : Q) : Z :=
  let n := Qfloor x in
  let twice := (x - inject_Z n) * 2 in
  match Qcompare twice 1 with
  | Lt => n
  | Gt => (n + 1)%Z
  | Eq => if Z.even n then n else (n + 1)%Z
  end.

(** [f"{x:.0f}"]. *)
Definition format_0f (x : Q) : string :=
  NilZero.string_of_int (Z.to_int (round_half_even x)).

End PyNum.

(** [max(items, key=key)]: the first item whose key no other exceeds;
    [None] for the empty list (where Python raises). *)
Fixpoint max_by {A} (key : A -> Q) (items : list A) : option A :=
  match items with
  | [] => None
  | x :: rest =>
      match max_by key rest with
      | Some y => if PyFloat.ltb (key x) (key y) then Some y else Some x
      | None => Some x
      end
  end.

(** [sum(f(x) for x in items)]. *)
Definition sum_of {A} (f : A -> Q) (items : list A) : Q :=
  fold_left (fun acc x => acc + f x) items 0.

(** ** The static tables of [AdvancedRFQExtractor] *)

Record Location := mkLocation {
  city : string;
  country : string;
  type : string;
  port : bool
}.

Definition _build_location_database : list (string * Location) :=
  [ ("valencia", mkLocation "Valencia" "Espa√±a" "city" true);
    ("madrid", mkLocation "Madrid" "Espa√±a" "city" false);
    ("barcelona", mkLocation "Barcelona" "Espa√±a" "city" true);
    ("bilbao", mkLocation "Bilbao" "Espa√±a" "city" true);
    ("sevilla", mkLocation "Sevilla" "Espa√±a" "city" true);
    ("malaga", mkLocation "M√°laga" "Espa√±a" "city" true);
    ("santos", mkLocation "Santos" "Brasil" "port" true);
    ("sao paulo", mkLocation "S√£o Paulo" "Brasil" "city" false);
    ("rio", mkLocation "Rio de Janeiro" "Brasil" "city" true);
    ("rio de janeiro", mkLocation "Rio de Janeiro" "Brasil" "city" true);
    ("hamburg", mkLocation "Hamburg" "Alemania" "port" true);
    ("rotterdam", mkLocation "Rotterdam" "Pa√≠ses Bajos" "port" true);
    ("antwerp", mkLocation "Antwerp" "B√©lgica" "port" true);
    ("genova", mkLocation "G√©nova" "Italia" "port" true);
    ("miami", mkLocation "Miami" "Estados Unidos" "city" true);
    ("new york", mkLocation "Nueva York" "Estados Unidos" "city" true);
    ("los angeles", mkLocation "Los √Ångeles" "Estados Unidos" "city" true) ].

Record Commodity := mkCommodity {
  patterns : list string;
  category : string;
  description : string
}.

Definition _build_commodity_patterns : list Commodity :=
  [ mkCommodity
      ["maquinarias?\s+pesadas?"; "maquinarias?\s+[^\.]*industrial"; "equipos?\s+pesados?"]
      "maquinaria_pesada" "Maquinaria pesada";
    mkCommodity
      ["textiles?"; "ropa"; "telas?"; "algod√≥n"]
      "textiles" "Textiles";
    mkCommodity
      ["repuestos?"; "spare\s+parts?"; "components?"; "piezas?"]
      "repuestos" "Repuestos";
    mkCommodity
      ["electr√≥nicos?"; "electronics?"; "dispositivos?"]
      "electronica" "Electr√≥nicos";
    mkCommodity
      ["alimentos?"; "food"; "comida"]
      "alimentos" "Alimentos" ].

Definition _build_weight_patterns : list string :=
  [ "(\d+(?:\.\d+)?)\s*(?:kg|kilos?|kilogramos?)";
    "(\d+(?:\.\d+)?)\s*(?:ton|tons?|toneladas?)";
    "(\d+(?:\.\d+)?)\s*(?:lb|lbs|pounds?)";
    "total[^\d]*(\d+(?:\.\d+)?)\s*(?:kg|kilos?)";
    "peso[^\d]*(\d+(?:\.\d+)?)\s*(?:kg|kilos?)";
    "(\d+(?:\.\d+)?)\s*t(?:\s|$)" ].

(** The strategies of an extractor are tried in order: [a |> or_else_with f]
    is [a] when it returned a result and the next strategy [f] otherwise. *)
Definition or_else_with {A} (f : unit -> option A) (a : option A) : option A :=
  match a with Some _ => a | None => f tt end.
Definition default {A} (d : A) (a : option A) : A :=
  match a with Some x => x | None => d end.
Notation "a |> f" := (f a) (at level 45, left associativity, only parsing).

(** ** Location resolver ([extract_location]) *)

(** Strategy 1, the loop over [location_db.items()]: the state is
    [(best_match, best_confidence)]. *)
Definition lookup_step (text_lower : string) (best : option string * Q)
    (entry : string * Location) : option string * Q :=
  let '(location_key, location_data) := entry in
  if PyStr.contains location_key text_lower
  then
    let confidence := inject_Z (Z.of_nat (String.length location_key)) / 20 in
    if PyFloat.ltb (snd best) confidence
    then (Some (city location_data ++ ", " ++ country location_data), confidence)
    else best
  else best.

Definition database_lookup (text_lower : string) : option string * Q :=
  fold_left (lookup_step text_lower) _build_location_database (None, 0).

Definition dest_patterns : list string :=
  [ "(?:hasta|al|a)\s+([^\.]+?)(?:\s+|\.)";
    "(?:to|towards?)\s+([^\.]+?)(?:\s+|\.)";
    "destino[^\w]*([^\.]+?)(?:\s+|\.)" ].

Definition origin_patterns : list string :=
  [ "(?:desde|de|from)\s+([^\.]+?)(?:\s+hasta|\s+al|\s+to|\.)";
    "origen[^\w]*([^\.]+?)(?:\s+|\.)" ].

(** Strategy 2: the first pattern of the list that matches gives the
    result. *)
Fixpoint contextual (pats : list string) (text_lower : string)
    : option ExtractionResult :=
  match pats with
  | [] => None
  | pattern :: rest =>
      match Re.search pattern text_lower Re.no_flags with
      | Some mt =>
          let location := PyStr.title (PyStr.strip (Re.group text_lower mt 1)) in
          Some (mkResult location 0.6 "contextual_pattern" (Re.group text_lower mt 0))
      | None => contextual rest text_lower
      end
  end.

(** Strategy 1 as a whole: the result it returns, if it returns. *)
Definition lookup_result (text_lower : string) : option ExtractionResult :=
  let '(best_match, best_confidence) := database_lookup text_lower in
  match best_match with
  | Some best =>
      if negb (String.eqb best "") && PyFloat.ltb 0.3 best_confidence
      then Some (result best (PyFloat.min best_confidence 0.9) "database_lookup")
      else None
  | None => None
  end.

Definition extract_location (text : string) (is_destination : bool)
    : ExtractionResult :=
  let text_lower := PyStr.lower text in
  lookup_result text_lower
  |> or_else_with (fun _ =>
       contextual (if is_destination then dest_patterns else origin_patterns)
         text_lower)
  |> default (result "" 0 "none").

(** ** Commodity classifier ([extract_commodity]) *)

Definition commodity_matches (text_lower : string) (commodity : Commodity) : bool :=
  existsb (fun pattern =>
    match Re.search pattern text_lower Re.no_flags with
    | Some _ => true
    | None => false
    end) (patterns commodity).

Definition extract_commodity (text : string) : ExtractionResult :=
  let text_lower := PyStr.lower text in
  match find (commodity_matches text_lower) _build_commodity_patterns with
  | Some commodity => result (description commodity) 0.8 "pattern_match"
  | None =>
      if existsb (fun word => PyStr.contains word text_lower)
           ["maquina"; "equipo"; "machinery"]
      then result "Maquinaria/Equipos" 0.5 "keyword_fallback"
      else result "" 0 "none"
  end.

(** ** Weight parser ([extract_weight]) *)

(** One entry of the list [weights]. *)
Module Weight.
Record t := make {
  value_kg : Q;
  original : string;
  confidence : Q
}.
End Weight.

(** The body of the loop over the matches of one pattern; [None] when
    [float] raises [ValueError] and the match is skipped. *)
Definition weight_of_match (text_lower : string) (mt : Re.Match) : option Weight.t :=
  match PyNum.float (Re.group text_lower mt 1) with
  | Some value =>
      let unit := PyStr.lower (Re.group text_lower mt 0) in
      let value_kg :=
        if PyStr.contains "ton" unit || PyStr.contains "t " unit
           || PyStr.endswith "t" unit
        then value * 1000
        else if PyStr.contains "lb" unit || PyStr.contains "pound" unit
        then value * 0.453592
        else value in
      Some (Weight.make value_kg (Re.group text_lower mt 0)
              (if PyStr.contains "total" unit || PyStr.contains "peso" unit
               then 0.9 else 0.7))
  | None => None
  end.

(** "Find all weight mentions": every match of every pattern, pattern by
    pattern. *)
Definition collect_weights (text_lower : string) : list Weight.t :=
  flat_map (fun pattern =>
    flat_map (fun mt =>
      match weight_of_match text_lower mt with
      | Some w => [w]
      | None => []
      end) (Re.finditer pattern text_lower Re.no_flags))
    _build_weight_patterns.

Definition format_kg (value_kg : Q) : string :=
  PyNum.format_0f value_kg ++ " kg".

(** The part of [extract_weight] under [if weights:]. *)
Definition reconcile_weights (weights : list Weight.t) : ExtractionResult :=
  let total_weights :=
    filter (fun w => PyFloat.leb 0.9 (Weight.confidence w)) weights in
  match max_by Weight.confidence total_weights with
  | Some best_weight =>
      result (format_kg (Weight.value_kg best_weight))
        (Weight.confidence best_weight) "explicit_total"
  | None =>
      match weights with
      | [best_weight] =>
          result (format_kg (Weight.value_kg best_weight))
            (Weight.confidence best_weight) "single_weight"
      | _ =>
          let significant_weights :=
            filter (fun w => PyFloat.leb 100 (Weight.value_kg w)) weights in
          match max_by Weight.value_kg significant_weights with
          | Some best_weight =>
              result (format_kg (Weight.value_kg best_weight)) 0.8 "largest_weight"
          | None =>
              let total_kg := sum_of Weight.value_kg weights in
              let avg_confidence :=
                sum_of Weight.confidence weights
                / inject_Z (Z.of_nat (List.length weights)) in
              result (format_kg total_kg) avg_confidence "small_weights_sum"
          end
      end
  end.

Definition extract_weight (text : string) : ExtractionResult :=
  let text_lower := PyStr.lower text in
  match collect_weights text_lower with
  | [] => result "" 0 "none"
  | weights => reconcile_weights weights
  end.

(** ** Urgency classifier ([extract_urgency]) *)

Definition urgent_indicators : list (string * Q) :=
  [ ("muy urgente", 0.95); ("urgente", 0.85); ("urgent", 0.85); ("asap", 0.9);
    ("rapido", 0.7); ("fast", 0.7); ("priority", 0.8); ("expedite", 0.8) ].

Definition extract_urgency (text : string) : ExtractionResult :=
  let text_lower := PyStr.lower text in
  match find (fun ic => PyStr.contains (fst ic) text_lower) urgent_indicators with
  | Some (_, confidence) => result "urgent" confidence "keyword_match"
  | None => result "normal" 0.8 "default"
  end.

(** ** Contact handle (the second half of [extract_contact_info]) *)

Definition contact_patterns : list (string * Q) :=
  [ ("(\+\d{1,3}\s+\d{3}\s+\d{3}\s+\d{3})", 0.9);
    ("([a-zA-Z0-9._%+-]+@[a-zA-Z0-9.-]+\.[a-zA-Z]{2,})", 0.9);
    ("WhatsApp[:\s]*(\+?\d[\d\s]+)", 0.85);
    ("Tel[:\s]*(\+?\d[\d\s\-]+)", 0.8) ].

Fixpoint first_contact (pats : list (string * Q)) (text : string)
    : ExtractionResult :=
  match pats with
  | [] => result "" 0 "none"
  | (pattern, confidence) :: rest =>
      match Re.search pattern text Re.no_flags with
      | Some mt => result (Re.group text mt 1) confidence "regex_pattern"
      | None => first_contact rest text
      end
  end.

Definition extract_contact (text : string) : ExtractionResult :=
  first_contact contact_patterns text.

(** ** External collaborators *)

(** A value that [json.loads] can return. *)
#[warnings="-register-all"]
Inductive PyValue :=
| PyNone
| PyBool (b : bool)
| PyNumber (x : Q)
| PyStr (s : string)
| PyList (items : list PyValue)
| PyDict (entries : list (string * PyValue)).

(** The truth value Python gives a value in [if v:]. *)
Definition truthy (v : PyValue) : bool :=
  match v with
  | PyNone => false
  | PyBool b => b
  | PyNumber x => negb (Qeq_bool x 0)
  | PyStr s => negb (String.eqb s "")
  | PyList items => match items with [] => false | _ => true end
  | PyDict entries => match entries with [] => false | _ => true end
  end.

(** [d.get(key)]. *)
Fixpoint get (key : string) (entries : list (string * PyValue)) : PyValue :=
  match entries with
  | [] => PyNone
  | (k, v) :: rest => if String.eqb k key then v else get key rest
  end.

(** A potential name found by regex or NER. *)
Module NameCandidate.
Record t := make {
  text : string;
  confidence : Q;
  method : string;
  zone_type : string;
  context : string
}.
End NameCandidate.

(** What a prompt is built from: the e-mail text for the field extraction
    prompt of [extract_with_openai], the candidates listed (at most five) for
    the selection prompt of [llm_validate_candidates].  The rest of either
    prompt is fixed text. *)
Inductive Prompt :=
| ExtractionPrompt (text : string)
| SelectionPrompt (candidates : list NameCandidate.t).

(** [client.chat.completions.create(...).choices[0].message.content]: the
    call, or reading its answer, raises, or there is a content. *)
Inductive Completion :=
| CallRaises
| Content (content : string).

(** A span the entity recogniser tags: [ent.text] and [ent.label_]. *)
Record Entity := mkEntity {
  ent_text : string;
  label_ : string
}.

Record Env := mkEnv {
  (** [self.openai_client]: [None] without an API key. *)
  openai_client : option (Prompt -> Completion);
  (** [self.nlp]: [None] when no spaCy model loads; [nlp(text).ents], or
      [None] when the call raises. *)
  nlp : option (string -> option (list Entity));
  (** [json.loads]; [None] is [JSONDecodeError]. *)
  json_loads : string -> option PyValue
}.

(** What a call gives its caller. *)
Inductive Outcome (A : Type) :=
| Returned (a : A)
| Raised (exception : string).
Arguments Returned {A} a.
Arguments Raised {A} exception.

(** ** Name pipeline ([HybridNameExtractor]) *)

Module Zone.
Record t := make {
  text : string;
  type : string;
  confidence : Q;
  start : nat;
  stop : nat
}.
End Zone.

(** [zone_patterns]: pattern, type, confidence. *)
Definition zone_patterns : list (string * string * Q) :=
  [ ("(saludos[^\n]*(?:\n[^\n]*){0,3})", "signature_saludos", 0.9);
    ("(atentamente[^\n]*(?:\n[^\n]*){0,3})", "signature_atentamente", 0.9);
    ("(gracias[^\n]*(?:\n[^\n]*){0,3})", "signature_gracias", 0.8);
    ("(cordialmente[^\n]*(?:\n[^\n]*){0,3})", "signature_cordialmente", 0.9);
    ("(contacto?[:\s]+[^\n.]{5,50})", "contact_instruction", 0.8);
    ("(favor\s+de\s+contactar[^\n.]{5,50})", "contact_request", 0.8);
    ("(comunicarse\s+con[^\n.]{5,50})", "contact_request", 0.8);
    ("(llamar\s+a[^\n.]{5,50})", "contact_request", 0.7);
    ("(dirigirse\s+a[^\n.]{5,50})", "contact_request", 0.7);
    ("(soy\s+[^\n.]{3,30})", "self_introduction", 0.7);
    ("(me\s+llamo\s+[^\n.]{3,30})", "self_introduction", 0.8);
    ("(mi\s+nombre\s+es\s+[^\n.]{3,30})", "self_introduction", 0.8);
    ("([A-ZÁÉÍÓÚÑÜ][a-záéíóúñü\s]{5,40}\s+(?:se\s+encargará|manejará|atenderá))",
     "delegation", 0.6);
    ("(\n[A-ZÁÉÍÓÚÑÜ][a-záéíóúñü\s]{5,40}\n(?:[^\n]*(?:tel|email|whatsapp|phone)[^\n]*\n?){1,3})",
     "email_signature", 0.6) ].

Definition zones_of_pattern (text : string) (pattern_info : string * string * Q)
    : list Zone.t :=
  let '(pattern, type, confidence) := pattern_info in
  flat_map (fun mt =>
    let zone_text := PyStr.strip (Re.group text mt 1) in
    if negb (String.eqb zone_text "") && (3 <? String.length zone_text)%nat
    then [Zone.make zone_text type confidence (Re.m_start mt) (Re.m_end mt)]
    else [])
    (Re.finditer pattern text Re.IGNORECASE_MULTILINE).

(** The key [(x['confidence'], x['start'])] of [a] is less than that of
    [b]. *)
Definition zone_key_lt (a b : Zone.t) : bool :=
  PyFloat.ltb (Zone.confidence a) (Zone.confidence b)
  || (Qeq_bool (Zone.confidence a) (Zone.confidence b)
      && (Zone.start a <? Zone.start b)%nat).

(** [zones.sort(key=..., reverse=True)]: descending, zones of equal key in
    the order they had. *)
Fixpoint insert_zone (z : Zone.t) (sorted : list Zone.t) : list Zone.t :=
  match sorted with
  | [] => [z]
  | y :: rest =>
      if zone_key_lt z y then y :: insert_zone z rest else z :: sorted
  end.
Definition sort_zones (zones : list Zone.t) : list Zone.t :=
  fold_right insert_zone [] zones.

Definition detect_name_zones (text : string) : list Zone.t :=
  sort_zones (flat_map (zones_of_pattern text) zone_patterns).

(** The [exclude_words] of [_is_valid_name_candidate]. *)
Definition candidate_exclude_words : list string :=
  [ "días"; "kg"; "euro"; "precio"; "toneladas"; "total"; "aproximadamente";
    "presupuesto"; "cotización"; "maquinas"; "envio"; "urgente"; "seguro";
    "fabrica"; "cliente"; "esperando"; "whatsapp"; "tel"; "email"; "company";
    "empresa"; "logistics"; "transporte"; "valencia"; "madrid"; "barcelona";
    "santos"; "brasil"; "spain"; "españa"; "mañana"; "hoy"; "ayer";
    "gracias"; "saludos"; "atentamente"; "contacto"; "favor"; "llamar";
    "phone"; "móvil"; "celular" ].

(** [s[0].isupper()] for a non-empty [s]. *)
Definition first_is_upper (s : string) : bool :=
  match s with
  | String c _ => PyStr.is_upper c
  | EmptyString => false
  end.

Definition _is_valid_name_candidate (name : string) : bool :=
  if String.eqb name "" || (String.length name <? 3)%nat
     || (60 <? String.length name)%nat
  then false
  else
    let name_lower := PyStr.lower name in
    if existsb (fun word => PyStr.contains word name_lower) candidate_exclude_words
    then false
    else
      let letter_count := PyStr.count PyStr.is_alpha name in
      if PyFloat.ltb (inject_Z (Z.of_nat letter_count))
           (inject_Z (Z.of_nat (String.length name)) * 0.8)
      then false
      else if negb (first_is_upper name) then false
      else
        let words := PyStr.split name in
        if (List.length words <? 1)%nat || (4 <? List.length words)%nat then false
        else if negb (forallb first_is_upper words) then false
        else true.

Definition name_patterns : list (string * Q) :=
  [ ("(?:saludos|atentamente|gracias|cordialmente)[,\s]*([A-ZÁÉÍÓÚÑÜ][a-záéíóúñü]+(?:\s+[A-ZÁÉÍÓÚÑÜ][a-záéíóúñü]+){1,3})", 0.9);
    ("contacto?[:\s]+([A-ZÁÉÍÓÚÑÜ][a-záéíóúñü]+(?:\s+[A-ZÁÉÍÓÚÑÜ][a-záéíóúñü]+){1,3})", 0.8);
    ("favor\s+de\s+contactar\s+a?\s*([A-ZÁÉÍÓÚÑÜ][a-záéíóúñü]+(?:\s+[A-ZÁÉÍÓÚÑÜ][a-záéíóúñü]+){1,3})", 0.8);
    ("comunicarse\s+con\s+([A-ZÁÉÍÓÚÑÜ][a-záéíóúñü]+(?:\s+[A-ZÁÉÍÓÚÑÜ][a-záéíóúñü]+){1,3})", 0.8);
    ("(?:soy|me\s+llamo|mi\s+nombre\s+es)\s+([A-ZÁÉÍÓÚÑÜ][a-záéíóúñü]+(?:\s+[A-ZÁÉÍÓÚÑÜ][a-záéíóúñü]+){1,3})", 0.8);
    ("([A-ZÁÉÍÓÚÑÜ][a-záéíóúñü]+(?:\s+[A-ZÁÉÍÓÚÑÜ][a-záéíóúñü]+){1,3})(?=\s*(?:whatsapp|tel|email|phone|\+\d))", 0.7);
    ("\b([A-ZÁÉÍÓÚÑÜ][a-záéíóúñü]+\s+[A-ZÁÉÍÓÚÑÜ][a-záéíóúñü]+)\b", 0.5) ].

(** The candidates one zone gives under one pattern. *)
Definition regex_candidates (zone : Zone.t) (pc : string * Q)
    : list NameCandidate.t :=
  let '(pattern, pattern_confidence) := pc in
  let zone_text := Zone.text zone in
  flat_map (fun mt =>
    let name_text := PyStr.strip (Re.group zone_text mt 1) in
    if _is_valid_name_candidate name_text
    then [NameCandidate.make name_text (Zone.confidence zone * pattern_confidence)
            "zone_regex" (Zone.type zone) zone_text]
    else [])
    (Re.finditer pattern zone_text Re.IGNORECASE).

Definition extract_regex_fallback_candidates (zones : list Zone.t)
    : list NameCandidate.t :=
  flat_map (fun zone => flat_map (regex_candidates zone) name_patterns) zones.

(** The candidates the entities of one zone give. *)
Definition ner_candidates (zone : Zone.t) (ents : list Entity)
    : list NameCandidate.t :=
  flat_map (fun ent =>
    if String.eqb (label_ ent) "PERSON" || String.eqb (label_ ent) "PER"
    then
      let name_text := PyStr.strip (ent_text ent) in
      if _is_valid_name_candidate name_text
      then [NameCandidate.make name_text (Zone.confidence zone * 0.9)
              "ner" (Zone.type zone) (Zone.text zone)]
      else []
    else []) ents.

(** The loop of [extract_ner_candidates] over the zones; [None] when the
    recogniser raises. *)
Fixpoint ner_loop (recognise : string -> option (list Entity))
    (zones : list Zone.t) : option (list NameCandidate.t) :=
  match zones with
  | [] => Some []
  | zone :: rest =>
      match recognise (Zone.text zone) with
      | Some ents =>
          match ner_loop recognise rest with
          | Some more => Some (ner_candidates zone ents ++ more)%list
          | None => None
          end
      | None => None
      end
  end.

Definition extract_ner_candidates (env : Env) (zones : list Zone.t)
    : option (list NameCandidate.t) :=
  match nlp env with
  | None => Some (extract_regex_fallback_candidates zones)
  | Some recognise => ner_loop recognise zones
  end.

(** "Fall back to highest confidence": the text of the best candidate when
    its confidence exceeds 0.5. *)
Definition confident_best (candidates : list NameCandidate.t) : option string :=
  match max_by NameCandidate.confidence candidates with
  | Some best_candidate =>
      if PyFloat.ltb 0.5 (NameCandidate.confidence best_candidate)
      then Some (NameCandidate.text best_candidate)
      else None
  | None => None
  end.

Definition llm_validate_candidates (env : Env) (candidates : list NameCandidate.t)
    : option string :=
  match candidates with
  | [] => None
  | _ =>
      match openai_client env with
      | None =>
          option_map NameCandidate.text (max_by NameCandidate.confidence candidates)
      | Some client =>
          match client (SelectionPrompt (firstn 5 candidates)) with
          | Content content =>
              let result := PyStr.strip content in
              if negb (String.eqb result "") && negb (String.eqb result "NONE")
                 && _is_valid_name_candidate result
              then Some result
              else confident_best candidates
          | CallRaises => confident_best candidates
          end
      end
  end.

(** The dictionary [extract_name] returns, without its ["debug"] entry. *)
Module NameResult.
Record t := make {
  name : string;
  confidence : Q;
  method : string
}.
End NameResult.

(** [extract_name]; [None] when the entity recogniser raises. *)
Definition extract_name (env : Env) (text : string) : option NameResult.t :=
  let zones := detect_name_zones text in
  match zones with
  | [] => Some (NameResult.make "" 0 "no_zones")
  | _ =>
      match extract_ner_candidates env zones with
      | None => None
      | Some [] => Some (NameResult.make "" 0 "no_candidates")
      | Some candidates =>
          match llm_validate_candidates env candidates,
                max_by NameCandidate.confidence candidates with
          | Some final_name, Some best_candidate =>
              if negb (String.eqb final_name "")
              then Some (NameResult.make final_name
                     (PyFloat.min (NameCandidate.confidence best_candidate * 1.1) 1)
                     ("hybrid_" ++ NameCandidate.method best_candidate))
              else Some (NameResult.make "" 0 "validation_failed")
          | _, _ => Some (NameResult.make "" 0 "validation_failed")
          end
      end
  end.

(** ** Contact name ([extract_contact_info] and its fallback) *)

Definition _extract_name_hybrid (env : Env) (text : string) : ExtractionResult :=
  match extract_name env text with
  | Some r =>
      if negb (String.eqb (NameResult.name r) "")
      then result (NameResult.name r) (NameResult.confidence r)
             ("hybrid_" ++ NameResult.method r)
      else result "" 0 "hybrid_failed"
  | None => result "" 0 "hybrid_error"
  end.

(** The [exclude_words] of [_clean_and_validate_name]. *)
Definition fallback_exclude_words : list string :=
  [ "d√≠as"; "kg"; "euro"; "precio"; "toneladas"; "total"; "aproximadamente";
    "presupuesto"; "cotizaci√≥n"; "maquinas"; "envio"; "urgente"; "seguro";
    "fabrica"; "cliente"; "esperando"; "whatsapp"; "tel"; "email"; "sl";
    "ltd"; "sa"; "inc"; "corp"; "company"; "empresa"; "logistics" ].

Definition found (pattern subject : string) : bool :=
  match Re.search pattern subject Re.no_flags with
  | Some _ => true
  | None => false
  end.

Definition _clean_and_validate_name (raw_name : string) : string :=
  if String.eqb raw_name "" then ""
  else
    let name := PyStr.join " " (PyStr.split raw_name) in
    let name_lower := PyStr.lower name in
    if existsb (fun word => PyStr.contains word name_lower) fallback_exclude_words
    then ""
    else if (40 <? String.length name)%nat then ""
    else if (String.length name <? 3)%nat then ""
    else if (2 <? PyStr.count PyStr.is_digit name)%nat then ""
    else if found "[^\w\s√°√©√≠√≥√∫√±√º√Å√â√ç√ì√ö√ë√ú]" name then ""
    else if negb (found "[a-z√°√©√≠√≥√∫√±√ºA-Z√Å√â√ç√ì√ö√ë√ú]" name) then ""
    else PyStr.title name.

Definition fallback_name_patterns : list (string * Q) :=
  [ ("saludos[,\s]*([^\n\r]+?)(?:\s*WhatsApp|\s*Tel|\s*$|\n)", 0.9);
    ("atentamente[,\s]*([^\n\r]+?)(?:\s*WhatsApp|\s*Tel|\s*$|\n)", 0.9);
    ("gracias[,\s]*([^\n\r]+?)(?:\s*WhatsApp|\s*Tel|\s*$|\n)", 0.85);
    ("([A-Z][a-z√°√©√≠√≥√∫√±]+\s+[A-Z][a-z√°√©√≠√≥√∫√±]+)(?:\s+WhatsApp|\s+Tel|\s*\n)", 0.8);
    ("nombre[:\s]*([A-Z][a-z√°√©√≠√≥√∫√±\s]+?)(?:\s*WhatsApp|\s*Tel|\s*\n)", 0.8);
    ("contacto[:\s]*([A-Z][a-z√°√©√≠√≥√∫√±\s]+?)(?:\s*WhatsApp|\s*Tel|\s*\n)", 0.8);
    ("([A-Z][a-z√°√©√≠√≥√∫√±]+\s+[A-Z][a-z√°√©√≠√≥√∫√±]+)", 0.6);
    ("([A-Z√Å√â√ç√ì√ö√ë]{2,}\s+[A-Z√Å√â√ç√ì√ö√ë]{2,})", 0.5) ].

(** The loop of [_extract_name_fallback] over its patterns. *)
Fixpoint fallback_loop (pats : list (string * Q)) (text : string)
    : ExtractionResult :=
  match pats with
  | [] => result "" 0 "no_name_found"
  | (pattern, confidence) :: rest =>
      match Re.search pattern text Re.IGNORECASE_MULTILINE with
      | Some mt =>
          let raw_name := PyStr.strip (Re.group text mt 1) in
          let cleaned_name := _clean_and_validate_name raw_name in
          if negb (String.eqb cleaned_name "")
          then result cleaned_name confidence "fallback_regex"
          else fallback_loop rest text
      | None => fallback_loop rest text
      end
  end.

Definition _extract_name_fallback (text : string) : ExtractionResult :=
  fallback_loop fallback_name_patterns text.

Definition extract_contact_info (env : Env) (text : string)
    : ExtractionResult * ExtractionResult :=
  let name_result := _extract_name_hybrid env text in
  let name_result :=
    if String.eqb (value name_result) "" then _extract_name_fallback text
    else name_result in
  (name_result, extract_contact text).

(** ** LLM field extractor ([extract_with_openai]) *)

Definition fence_json : string := "```json".
Definition fence : string := "```".

(** "Clean and parse": the content without its Markdown fence. *)
Definition unfenced (content : string) : string :=
  if PyStr.startswith fence_json content then PyStr.slice 7 3 content
  else if PyStr.startswith fence content then PyStr.slice 3 3 content
  else content.

Definition extract_with_openai (env : Env) (text : string) : PyValue :=
  match openai_client env with
  | None => PyDict []
  | Some client =>
      match client (ExtractionPrompt text) with
      | Content content =>
          match json_loads env (unfenced (PyStr.strip content)) with
          | Some v => v
          | None => PyDict []
          end
      | CallRaises => PyDict []
      end
  end.

(** ** Arbitration ([extract_all]) *)

Definition _best_result (openai_value : PyValue) (extraction_result : ExtractionResult)
    : PyValue :=
  if PyFloat.ltb 0.7 (confidence extraction_result)
  then PyStr (value extraction_result)
  else if truthy openai_value then openai_value
  else if PyFloat.ltb 0.3 (confidence extraction_result)
  then PyStr (value extraction_result)
  else PyStr "".

(** The dictionary [extract_all] returns. *)
Module Results.
Record t := make {
  origin : PyValue;
  destination : PyValue;
  commodity : PyValue;
  weight : PyValue;
  urgency : PyValue;
  contact_name : PyValue;
  contact_info : string;
  extraction_confidence : Q
}.
End Results.

(** [openai_result.get(key)]: a value that is not a dictionary has no
    [get]. *)
Definition get_field (openai_result : PyValue) (key : string) : Outcome PyValue :=
  match openai_result with
  | PyDict entries => Returned (get key entries)
  | _ => Raised "AttributeError"
  end.

Definition bind {A B} (a : Outcome A) (f : A -> Outcome B) : Outcome B :=
  match a with
  | Returned x => f x
  | Raised e => Raised e
  end.
Notation "x <- a ;; b" := (bind a (fun x => b))
  (at level 61, a at next level, right associativity).

Definition extract_all (env : Env) (text : string) : Outcome Results.t :=
  let openai_result := extract_with_openai env text in
  let origin := extract_location text false in
  let destination := extract_location text true in
  let commodity := extract_commodity text in
  let weight := extract_weight text in
  let urgency := extract_urgency text in
  let '(name, contact) := extract_contact_info env text in
  llm_origin <- get_field openai_result "origin" ;;
  llm_destination <- get_field openai_result "destination" ;;
  llm_commodity <- get_field openai_result "commodity" ;;
  llm_weight <- get_field openai_result "weight" ;;
  llm_urgency <- get_field openai_result "urgency" ;;
  llm_contact_name <- get_field openai_result "contact_name" ;;
  Returned (Results.make
    (_best_result llm_origin origin)
    (_best_result llm_destination destination)
    (_best_result llm_commodity commodity)
    (_best_result llm_weight weight)
    (_best_result llm_urgency urgency)
    (_best_result llm_contact_name name)
    (if PyFloat.ltb 0.5 (confidence contact) then value contact else "")
    (_calculate_overall_confidence [origin; destination; commodity; weight])).


(** ** Quote generation (the script of [smart_extractor_app.py])

    The block the script runs on the dictionary [results] of [extract_all]
    once it has one, as a function of that dictionary. *)

(** One entry of [quote_options].  [price] is the amount that the entry's
    ['Price'] shows, which the script formats to the euro ([:,.0f]). *)
Module QuoteOption.
Record t := make {
  service : string;
  price : Q;
  transit_time : string;
  route : string;
  best_for : string
}.
End QuoteOption.

(** What the block does: the warning of its [else] branch, an exception, or
    the list it stores in [st.session_state.quote_options]. *)
Inductive QuoteOutcome :=
| Insufficient
| QuoteRaises
| Quoted (quote_options : list QuoteOption.t).

(** A value used as a string ([re.findall] on it, [.lower()] of it): [None]
    when it is not one, where the script raises. *)
Definition text_of (v : PyValue) : option string :=
  match v with
  | PyStr s => Some s
  | _ => None
  end.

(** [max(a, b)]. *)
Definition py_max (a b : Q) : Q := if PyFloat.ltb a b then b else a.

(** [int(weight_nums[0]) if weight_nums else 1000] for
    [weight_nums = re.findall(r'\d+', weight_str)]. *)
Definition weight_kg (weight_str : string) : option Z :=
  match Re.finditer "\d+" weight_str Re.no_flags with
  | mt :: _ => option_map Z.of_N (PyNum.digits_value 0 (Re.group weight_str mt 0))
  | [] => Some 1000%Z
  end.

(** An [int] that [float] takes: for a larger one [weight_kg * air_rate]
    raises OverflowError. *)
Definition fits_float (n : Z) : bool := (n <? 2 ^ 1024 - 2 ^ 970)%Z.

Definition is_intercontinental (origin destination : string) : bool :=
  existsb (fun country => PyStr.contains country (PyStr.lower (origin ++ destination)))
    ["brasil"; "brazil"; "america"; "usa"; "asia"].

Definition is_urgent (urgency : string) : bool :=
  String.eqb (PyStr.lower urgency) "urgent".

Definition is_machinery (commodity : string) : bool :=
  PyStr.contains "maquina" (PyStr.lower commodity).

(** The rates; [sea_lcl_rate] is assigned next to them and never read. *)
Definition air_rate (intercontinental urgent : bool) : Q :=
  if intercontinental
  then (if negb urgent then 8.5 else 12)
  else (if negb urgent then 3.2 else 4.5).

Definition sea_fcl_base (intercontinental : bool) : Q :=
  if intercontinental then 2800 else 1200.

Definition heavy_premium (machinery : bool) : Q := if machinery then 1.3 else 1.

Definition air_price (kg : Z) (intercontinental urgent machinery : bool) : Q :=
  (inject_Z kg * air_rate intercontinental urgent + 450) * heavy_premium machinery.

Definition sea_lcl_price (kg : Z) (intercontinental machinery : bool) : Q :=
  if intercontinental
  then py_max 680 (inject_Z kg * 0.4 * heavy_premium machinery)
  else py_max 290 (inject_Z kg * 0.3).

Definition fcl_price (intercontinental machinery : bool) : Q :=
  sea_fcl_base intercontinental * heavy_premium machinery.

Definition route_of (origin destination : string) : string :=
  origin ++ " → " ++ destination.

Definition quote_options (results : Results.t) : QuoteOutcome :=
  if truthy (Results.origin results) && truthy (Results.destination results)
     && truthy (Results.weight results)
  then
    match text_of (Results.weight results) with
    | None => QuoteRaises
    | Some weight_str =>
    match weight_kg weight_str with
    | None => QuoteRaises
    | Some kg =>
    match text_of (Results.origin results), text_of (Results.destination results),
          text_of (Results.urgency results), text_of (Results.commodity results) with
    | Some origin, Some destination, Some urgency, Some commodity =>
        let intercontinental := is_intercontinental origin destination in
        let urgent := is_urgent urgency in
        let machinery := is_machinery commodity in
        if negb (fits_float kg) then QuoteRaises
        else
        Quoted
          ([ QuoteOption.make
               ("Air Freight " ++ (if urgent then "(Urgent)" else "(Standard)"))
               (air_price kg intercontinental urgent machinery)
               (if urgent then "3-5 days" else "5-7 days")
               (route_of origin destination) "Speed and reliability";
             QuoteOption.make "Sea Freight LCL"
               (sea_lcl_price kg intercontinental machinery)
               (if intercontinental then "22-28 days" else "8-12 days")
               (route_of origin destination) "Cost optimization" ]
           ++ (if (8000 <? kg)%Z
               then [ QuoteOption.make "Sea Freight FCL 20ft"
                        (fcl_price intercontinental machinery)
                        (if intercontinental then "20-25 days" else "7-10 days")
                        (route_of origin destination) "Large shipments" ]
               else []))
    | _, _, _, _ => QuoteRaises
    end
    end
    end
  else Insufficient.

(** * Facts about the embedding *)

(** ** Comparisons and [min] *)

Lemma ltb_lt x y : PyFloat.ltb x y = true <-> x < y.
Proof.
  unfold PyFloat.ltb. rewrite negb_true_iff. split; intros H.
  - apply Qnot_le_lt. intros Hle. apply Qle_bool_iff in Hle. congruence.
  - destruct (Qle_bool y x) eqn:E; [|reflexivity].
    apply Qle_bool_iff in E. exfalso. exact (Qlt_not_le _ _ H E).
Qed.

Lemma ltb_ge x y : PyFloat.ltb x y = false <-> y <= x.
Proof.
  unfold PyFloat.ltb. rewrite negb_false_iff. apply Qle_bool_iff.
Qed.

Lemma leb_le x y : PyFloat.leb x y = true <-> x <= y.
Proof. apply Qle_bool_iff. Qed.

Lemma leb_gt x y : PyFloat.leb x y = false <-> y < x.
Proof.
  unfold PyFloat.leb. split; intros H.
  - apply Qnot_le_lt. intros Hle. apply Qle_bool_iff in Hle. congruence.
  - destruct (Qle_bool x y) eqn:E; [|reflexivity].
    apply Qle_bool_iff in E. exfalso. exact (Qlt_not_le _ _ H E).
Qed.

(** The two outcomes of a comparison, as facts for [lra]. *)
Ltac compare_floats x y :=
  let E := fresh "E" in
  destruct (PyFloat.ltb x y) eqn:E;
  [ apply ltb_lt in E | apply ltb_ge in E ].

#[global] Instance ltb_compat : Proper (Qeq ==> Qeq ==> eq) PyFloat.ltb.
Proof.
  intros x x' Hx y y' Hy. unfold PyFloat.ltb. now rewrite Hx, Hy.
Qed.

Lemma min_le_r x y : PyFloat.min x y <= y.
Proof. unfold PyFloat.min. compare_floats y x; lra. Qed.

Lemma min_le_l x y : PyFloat.min x y <= x.
Proof. unfold PyFloat.min. compare_floats y x; lra. Qed.

Lemma min_mono x x' y : x <= x' -> PyFloat.min x y <= PyFloat.min x' y.
Proof.
  intros H. unfold PyFloat.min. compare_floats y x; compare_floats y x'; lra.
Qed.

Lemma min_is_Qmin x y : PyFloat.min x y == Qmin x y.
Proof.
  unfold PyFloat.min. compare_floats y x.
  - symmetry. apply Q.min_r. lra.
  - symmetry. apply Q.min_l. lra.
Qed.

#[global] Instance min_compat : Proper (Qeq ==> Qeq ==> Qeq) PyFloat.min.
Proof.
  intros x x' Hx y y' Hy. rewrite !min_is_Qmin. now rewrite Hx, Hy.
Qed.

(** ** Aggregate confidence *)

(** What the loop adds to [weighted_score] and to [total_weight] from index
    [i] on. *)
Fixpoint weighted_from (i : nat) (results : list ExtractionResult) : Q :=
  match results with
  | [] => 0
  | r :: rest =>
      (if PyFloat.ltb 0 (confidence r) then confidence r * weight_at i else 0)
      + weighted_from (S i) rest
  end.

Fixpoint total_from (i : nat) (results : list ExtractionResult) : Q :=
  match results with
  | [] => 0
  | r :: rest =>
      (if PyFloat.ltb 0 (confidence r) then weight_at i else 0)
      + total_from (S i) rest
  end.

Lemma score_loop_split i results ws tw :
  fst (score_loop i results ws tw) == ws + weighted_from i results /\
  snd (score_loop i results ws tw) == tw + total_from i results.
Proof.
  revert i ws tw. induction results as [|r rest IH]; intros i ws tw; simpl.
  - split; ring.
  - destruct (PyFloat.ltb 0 (confidence r));
      destruct (IH (S i) (ws + confidence r * weight_at i) (tw + weight_at i)) as [H1 H2];
      destruct (IH (S i) ws tw) as [H3 H4];
      split; first [rewrite H1 | rewrite H2 | rewrite H3 | rewrite H4]; ring.
Qed.

Lemma weight_at_pos i : 0 < weight_at i.
Proof.
  unfold weight_at.
  do 6 (destruct i as [|i]; [simpl; lra|]).
  simpl. destruct i; simpl; lra.
Qed.

Lemma weighted_from_nonneg i results : 0 <= weighted_from i results.
Proof.
  revert i. induction results as [|r rest IH]; intros i; simpl; [lra|].
  specialize (IH (S i)). pose proof (weight_at_pos i) as Hw.
  compare_floats 0 (confidence r); [|lra].
  assert (0 <= confidence r * weight_at i) by (apply Qmult_le_0_compat; lra).
  lra.
Qed.

Lemma total_from_nonneg i results : 0 <= total_from i results.
Proof.
  revert i. induction results as [|r rest IH]; intros i; simpl; [lra|].
  specialize (IH (S i)). pose proof (weight_at_pos i) as Hw.
  compare_floats 0 (confidence r); lra.
Qed.

(** The function as one expression of the two sums. *)
Definition aggregate_of (weighted total : Q) (count : nat) : Q :=
  if PyFloat.ltb 0 total
  then PyFloat.min ((if (3 <=? count)%nat then weighted * 1.1 else weighted) / total) 1
  else 0.

#[global] Instance aggregate_of_compat :
  Proper (Qeq ==> Qeq ==> eq ==> Qeq) aggregate_of.
Proof.
  intros w w' Hw t t' Ht n n' <-. unfold aggregate_of.
  rewrite Ht. destruct (PyFloat.ltb 0 t'); [|reflexivity].
  destruct (3 <=? n)%nat; rewrite Hw, Ht; reflexivity.
Qed.

Lemma overall_confidence_unfold results :
  _calculate_overall_confidence results ==
  aggregate_of (weighted_from 0 results) (total_from 0 results)
    (critical_count results).
Proof.
  destruct results as [|r rest]; [reflexivity|].
  unfold _calculate_overall_confidence.
  destruct (score_loop_split 0 (r :: rest) 0 0) as [H1 H2].
  destruct (score_loop 0 (r :: rest) 0 0) as [ws tw]. simpl fst in H1. simpl snd in H2.
  fold (aggregate_of ws tw (critical_count (r :: rest))).
  rewrite H1, H2. apply aggregate_of_compat; [ring|ring|reflexivity].
Qed.

Lemma aggregate_of_le_1 w t n : aggregate_of w t n <= 1.
Proof.
  unfold aggregate_of. destruct (PyFloat.ltb 0 t); [apply min_le_r|lra].
Qed.

Lemma aggregate_of_mono w1 w2 t n1 n2 :
  0 <= w1 -> w1 <= w2 -> (n1 <= n2)%nat ->
  aggregate_of w1 t n1 <= aggregate_of w2 t n2.
Proof.
  intros H0 Hw Hn. unfold aggregate_of.
  compare_floats 0 t; [|lra].
  apply min_mono. unfold Qdiv. apply Qmult_le_compat_r.
  - destruct (3 <=? n1)%nat eqn:E1, (3 <=? n2)%nat eqn:E2; try lra.
    apply Nat.leb_le in E1. apply Nat.leb_gt in E2. lia.
  - apply Qlt_le_weak, Qinv_lt_0_compat. exact E.
Qed.

(** [results] with the confidence of its [k]-th result replaced by [c]. *)
Definition with_confidence (c : Q) (r : ExtractionResult) : ExtractionResult :=
  mkResult (value r) c (method r) (raw_match r).

Fixpoint substitute (k : nat) (c : Q) (results : list ExtractionResult)
    : list ExtractionResult :=
  match results, k with
  | [], _ => []
  | r :: rest, O => with_confidence c r :: rest
  | r :: rest, S k' => r :: substitute k' c rest
  end.

Lemma total_from_substitute i k c1 c2 results :
  0 < c1 -> 0 < c2 ->
  total_from i (substitute k c1 results) == total_from i (substitute k c2 results).
Proof.
  intros H1 H2. revert i k.
  induction results as [|r rest IH]; intros i k; [destruct k; reflexivity|].
  destruct k as [|k]; simpl.
  - apply ltb_lt in H1, H2. rewrite H1, H2. reflexivity.
  - rewrite (IH (S i) k). reflexivity.
Qed.

Lemma weighted_from_substitute i k c1 c2 results :
  0 < c1 -> c1 <= c2 ->
  weighted_from i (substitute k c1 results) <= weighted_from i (substitute k c2 results).
Proof.
  intros H1 H2. revert i k.
  induction results as [|r rest IH]; intros i k; [destruct k; simpl; lra|].
  destruct k as [|k]; simpl.
  - assert (H3 : 0 < c2) by lra.
    pose proof (weight_at_pos i) as Hw.
    apply ltb_lt in H1, H3. rewrite H1, H3.
    assert (c1 * weight_at i <= c2 * weight_at i)
      by (apply Qmult_le_compat_r; lra).
    lra.
  - specialize (IH (S i) k). lra.
Qed.

Lemma count_substitute n k c1 c2 results :
  c1 <= c2 ->
  (List.length (filter (fun r => PyFloat.ltb 0.7 (confidence r))
     (firstn n (substitute k c1 results)))
   <= List.length (filter (fun r => PyFloat.ltb 0.7 (confidence r))
     (firstn n (substitute k c2 results))))%nat.
Proof.
  intros H. revert n k.
  induction results as [|r rest IH]; intros n k; [destruct k; simpl; lia|].
  destruct n as [|n]; [destruct k; simpl; lia|].
  destruct k as [|k]; simpl.
  - compare_floats 0.7 c1; compare_floats 0.7 c2; simpl; try lia. lra.
  - specialize (IH n k). destruct (PyFloat.ltb 0.7 (confidence r)); simpl; lia.
Qed.

(** The aggregate never exceeds 1. *)
Lemma overall_confidence_le_1 results :
  _calculate_overall_confidence results <= 1.
Proof.
  rewrite overall_confidence_unfold. apply aggregate_of_le_1.
Qed.

(** Raising a confidence that is already positive never lowers the
    aggregate. *)
Lemma overall_confidence_mono k c1 c2 results :
  0 < c1 -> c1 <= c2 ->
  _calculate_overall_confidence (substitute k c1 results)
  <= _calculate_overall_confidence (substitute k c2 results).
Proof.
  intros H1 H2. rewrite !overall_confidence_unfold.
  rewrite (total_from_substitute 0 k c1 c2) by lra.
  apply aggregate_of_mono.
  - apply weighted_from_nonneg.
  - now apply weighted_from_substitute.
  - now apply count_substitute.
Qed.

(** The aggregate as the specification words it, for the confidences of
    the origin, destination, commodity and weight results: a result counts
    when its confidence is not zero. *)
Definition counts (c : Q) : bool := negb (Qeq_bool c 0).

Definition high (c : Q) : nat := if PyFloat.ltb 0.7 c then 1 else 0.

Definition weighted_average (origin destination commodity weight : Q) : Q :=
  let part (c w : Q) := if counts c then c * w else 0 in
  let share (c w : Q) := if counts c then w else 0 in
  let weighted_sum :=
    part origin 0.25 + part destination 0.25 + part commodity 0.20
    + part weight 0.15 in
  let denominator :=
    share origin 0.25 + share destination 0.25 + share commodity 0.20
    + share weight 0.15 in
  let with_bonus :=
    if (3 <=? high origin + high destination + high commodity + high weight)%nat
    then weighted_sum * 1.1 else weighted_sum in
  if Qeq_bool denominator 0 then 0 else Qmin (with_bonus / denominator) 1.

Lemma counts_nonneg c : 0 <= c -> PyFloat.ltb 0 c = counts c.
Proof.
  intros H. unfold counts. destruct (Qeq_bool c 0) eqn:E; simpl.
  - apply Qeq_bool_iff in E. apply ltb_ge. lra.
  - apply ltb_lt. apply Qeq_bool_neq in E. lra.
Qed.

Lemma overall_confidence_of_four o d c w :
  0 <= confidence o -> 0 <= confidence d -> 0 <= confidence c ->
  0 <= confidence w ->
  _calculate_overall_confidence [o; d; c; w]
  == weighted_average (confidence o) (confidence d) (confidence c) (confidence w).
Proof.
  intros Ho Hd Hc Hw. rewrite overall_confidence_unfold.
  pose proof (total_from_nonneg 0 [o; d; c; w]) as Hnonneg.
  unfold weighted_average.
  assert (Hcount : critical_count [o; d; c; w]
                   = (high (confidence o) + high (confidence d)
                      + high (confidence c) + high (confidence w))%nat).
  { unfold critical_count, high. simpl.
    destruct (PyFloat.ltb 0.7 (confidence o)), (PyFloat.ltb 0.7 (confidence d)),
      (PyFloat.ltb 0.7 (confidence c)), (PyFloat.ltb 0.7 (confidence w));
      reflexivity. }
  rewrite Hcount.
  assert (Htotal : total_from 0 [o; d; c; w]
                   == (if counts (confidence o) then 0.25 else 0)
                      + (if counts (confidence d) then 0.25 else 0)
                      + (if counts (confidence c) then 0.20 else 0)
                      + (if counts (confidence w) then 0.15 else 0)).
  { simpl. rewrite !counts_nonneg by assumption.
    change (weight_at 0) with 0.25. change (weight_at 1) with 0.25.
    change (weight_at 2) with 0.20. change (weight_at 3) with 0.15. ring. }
  assert (Hweighted : weighted_from 0 [o; d; c; w]
                   == (if counts (confidence o) then confidence o * 0.25 else 0)
                      + (if counts (confidence d) then confidence d * 0.25 else 0)
                      + (if counts (confidence c) then confidence c * 0.20 else 0)
                      + (if counts (confidence w) then confidence w * 0.15 else 0)).
  { simpl. rewrite !counts_nonneg by assumption.
    change (weight_at 0) with 0.25. change (weight_at 1) with 0.25.
    change (weight_at 2) with 0.20. change (weight_at 3) with 0.15. ring. }
  rewrite Htotal in Hnonneg.
  rewrite (aggregate_of_compat _ _ Hweighted _ _ Htotal _ _ eq_refl).
  unfold aggregate_of.
  set (den := (if counts (confidence o) then 0.25 else 0) + _ + _ + _) in *.
  set (num := (if counts (confidence o) then confidence o * 0.25 else 0) + _ + _ + _).
  destruct (Qeq_bool den 0) eqn:E.
  - apply Qeq_bool_iff in E. assert (F : PyFloat.ltb 0 den = false) by (apply ltb_ge; lra).
    rewrite F. reflexivity.
  - apply Qeq_bool_neq in E. assert (T : PyFloat.ltb 0 den = true) by (apply ltb_lt; lra).
    rewrite T. apply min_is_Qmin.
Qed.

(** C3, as stated, fails: a result whose confidence is zero is left out of
    the average, so raising the origin confidence from 0 to 0.1 beside a
    destination at 0.9 lowers the aggregate from 0.9 to 0.5. *)
Lemma aggregate_not_monotone_from_zero :
  0 <= 0.1 /\
  _calculate_overall_confidence
    (substitute 0 0.1 [result "" 0 "none"; result "Santos, Brasil" 0.9 "database_lookup";
                       result "" 0 "none"; result "" 0 "none"])
  < _calculate_overall_confidence
    (substitute 0 0 [result "" 0 "none"; result "Santos, Brasil" 0.9 "database_lookup";
                     result "" 0 "none"; result "" 0 "none"]).
Proof.
  split; [lra|]. apply ltb_lt. vm_compute. reflexivity.
Qed.

(** C3, amended: the aggregate is non-decreasing in a component's
    confidence as long as that confidence stays positive (the other results
    fixed), and it is at most 1 whatever the results are. *)
Theorem aggregate_monotone_on_positive_and_capped
    (results : list ExtractionResult) (k : nat) (c1 c2 : Q) :
  0 < c1 -> c1 <= c2 ->
  _calculate_overall_confidence (substitute k c1 results)
  <= _calculate_overall_confidence (substitute k c2 results)
  /\ _calculate_overall_confidence results <= 1.
Proof.
  intros H1 H2. split.
  - now apply overall_confidence_mono.
  - apply overall_confidence_le_1.
Qed.

Lemma aggregate_monotone_witness :
  _calculate_overall_confidence
    (substitute 1 0.4 [result "Valencia" 0.8 "m"; result "" 0 "none";
                       result "Textiles" 0.8 "pattern_match"; result "8 kg" 0.7 "m"])
  <= _calculate_overall_confidence
    (substitute 1 0.9 [result "Valencia" 0.8 "m"; result "" 0 "none";
                       result "Textiles" 0.8 "pattern_match"; result "8 kg" 0.7 "m"])
  /\ _calculate_overall_confidence
       [result "Valencia" 0.8 "m"; result "" 0 "none";
        result "Textiles" 0.8 "pattern_match"; result "8 kg" 0.7 "m"] <= 1.
Proof.
  apply aggregate_monotone_on_positive_and_capped; lra.
Defined.

(** ** [max] and [sum] *)

Lemma max_by_none {A} (key : A -> Q) (items : list A) :
  max_by key items = None -> items = [].
Proof.
  destruct items as [|x rest]; [reflexivity|]. simpl.
  destruct (max_by key rest) as [y|]; [|discriminate].
  destruct (PyFloat.ltb (key x) (key y)); discriminate.
Qed.

(** [max] returns the first of the items whose key is greatest: the items
    before it have a smaller key, the items after it none greater. *)
Lemma max_by_first_greatest {A} (key : A -> Q) (items : list A) (best : A) :
  max_by key items = Some best ->
  exists pre post, items = (pre ++ best :: post)%list /\
    (forall x, In x pre -> key x < key best) /\
    (forall x, In x post -> key x <= key best).
Proof.
  revert best. induction items as [|a rest IH]; intros best H; [discriminate|].
  simpl in H. destruct (max_by key rest) as [y|] eqn:E.
  - destruct (IH y eq_refl) as (pre & post & Hrest & Hpre & Hpost).
    compare_floats (key a) (key y); injection H as <-.
    + exists (a :: pre), post. subst rest. split; [reflexivity|]. split; [|exact Hpost].
      intros x [<-|Hx]; [exact E0|now apply Hpre].
    + exists [], rest. split; [reflexivity|]. split; [intros x []|].
      intros x Hx. subst rest. apply in_app_or in Hx. destruct Hx as [Hx|[<-|Hx]].
      * apply Hpre in Hx. lra.
      * exact E0.
      * apply Hpost in Hx. lra.
  - injection H as <-. apply max_by_none in E. subst rest.
    exists [], []. split; [reflexivity|]. split; intros x [].
Qed.

Lemma max_by_in {A} (key : A -> Q) (items : list A) (best : A) :
  max_by key items = Some best -> In best items.
Proof.
  intros H. destruct (max_by_first_greatest _ _ _ H) as (pre & post & -> & _).
  apply in_or_app. right. left. reflexivity.
Qed.

Lemma filter_split {A} (p : A -> bool) (items pre' post' : list A) (x : A) :
  filter p items = (pre' ++ x :: post')%list ->
  exists pre post, items = (pre ++ x :: post)%list /\
    filter p pre = pre' /\ filter p post = post' /\ p x = true.
Proof.
  revert pre'. induction items as [|a rest IH]; intros pre' H.
  - destruct pre'; discriminate.
  - simpl in H. destruct (p a) eqn:E.
    + destruct pre' as [|b pre'].
      * injection H as Ha H. subst a. exists [], rest. now repeat split.
      * injection H as Ha H. subst b.
        destruct (IH _ H) as (pre & post & Hrest & H1 & H2 & H3).
        exists (a :: pre), post. subst rest. repeat split; trivial.
        simpl. now rewrite E, H1.
    + destruct (IH _ H) as (pre & post & Hrest & H1 & H2 & H3).
      exists (a :: pre), post. subst rest. repeat split; trivial.
      simpl. now rewrite E.
Qed.

Lemma fold_sum_nonneg {A} (f : A -> Q) (items : list A) (acc : Q) :
  (forall x, In x items -> 0 <= f x) -> 0 <= acc ->
  0 <= fold_left (fun a x => a + f x) items acc.
Proof.
  revert acc. induction items as [|x rest IH]; intros acc H Hacc; [exact Hacc|].
  simpl. apply IH.
  - intros y Hy. apply H. now right.
  - specialize (H x (or_introl eq_refl)). lra.
Qed.

Lemma sum_of_nonneg {A} (f : A -> Q) (items : list A) :
  (forall x, In x items -> 0 <= f x) -> 0 <= sum_of f items.
Proof. intros H. apply fold_sum_nonneg; [exact H|lra]. Qed.

(** ** No strategy reports a negative confidence *)

Lemma lookup_result_confidence text_lower r :
  lookup_result text_lower = Some r -> 0 < confidence r.
Proof.
  unfold lookup_result. destruct (database_lookup text_lower) as [[best|] bc]; [|discriminate].
  destruct (negb (best =? "")%string); [|discriminate]. simpl.
  compare_floats 0.3 bc; [|discriminate]. intros H. injection H as <-. simpl.
  unfold PyFloat.min. compare_floats 0.9 bc; lra.
Qed.

Lemma contextual_confidence pats text_lower r :
  contextual pats text_lower = Some r -> confidence r = 0.6.
Proof.
  induction pats as [|p rest IH]; [discriminate|]. simpl.
  destruct (Re.search p text_lower Re.no_flags); [|exact IH].
  intros H. injection H as <-. reflexivity.
Qed.

Lemma extract_location_nonneg text is_destination :
  0 <= confidence (extract_location text is_destination).
Proof.
  unfold extract_location, or_else_with, default.
  destruct (lookup_result (PyStr.lower text)) as [r|] eqn:E.
  - apply lookup_result_confidence in E. lra.
  - destruct (contextual _ _) as [r|] eqn:C; [|simpl; lra].
    apply contextual_confidence in C. rewrite C. lra.
Qed.

Lemma extract_commodity_nonneg text : 0 <= confidence (extract_commodity text).
Proof.
  unfold extract_commodity.
  destruct (find _ _); [simpl; lra|]. destruct (existsb _ _); simpl; lra.
Qed.

(** A collected candidate is an explicit total (0.9) when the text matched
    contains "total" or "peso", and an item weight (0.7) otherwise. *)
Lemma collected_confidence text_lower w :
  In w (collect_weights text_lower) ->
  Weight.confidence w =
    if PyStr.contains "total" (PyStr.lower (Weight.original w))
       || PyStr.contains "peso" (PyStr.lower (Weight.original w))
    then 0.9 else 0.7.
Proof.
  unfold collect_weights. intros H.
  apply in_flat_map in H. destruct H as (pattern & _ & H).
  apply in_flat_map in H. destruct H as (mt & _ & H).
  unfold weight_of_match in H.
  destruct (PyNum.float _); [|destruct H].
  destruct H as [<-|[]]. reflexivity.
Qed.

Lemma collected_confidence_pos text_lower w :
  In w (collect_weights text_lower) -> 0 < Weight.confidence w.
Proof.
  intros H. rewrite (collected_confidence _ _ H). destruct (_ || _); lra.
Qed.

Lemma reconcile_weights_nonneg weights :
  (forall w, In w weights -> 0 < Weight.confidence w) ->
  0 <= confidence (reconcile_weights weights).
Proof.
  intros H. unfold reconcile_weights.
  destruct (max_by Weight.confidence _) as [best|] eqn:E.
  - apply max_by_in in E. apply filter_In in E. destruct E as [E _].
    apply H in E. unfold result. cbn [confidence]. clear H. lra.
  - destruct weights as [|w [|w' rest]].
    + vm_compute. discriminate.
    + specialize (H w (or_introl eq_refl)). unfold result. cbn [confidence]. lra.
    + destruct (max_by Weight.value_kg _); unfold result; cbn [confidence]; [lra|].
      apply Qle_shift_div_l; [reflexivity|]. rewrite Qmult_0_l.
      apply sum_of_nonneg. intros x Hx. apply H in Hx. lra.
Qed.

Lemma extract_weight_nonneg text : 0 <= confidence (extract_weight text).
Proof.
  unfold extract_weight. destruct (collect_weights _) as [|w rest] eqn:E; [simpl; lra|].
  apply reconcile_weights_nonneg. intros x Hx. rewrite <- E in Hx.
  now apply collected_confidence_pos in Hx.
Qed.

(** ** Arbitration *)

(** The policy of the arbitration layer for one field: [chosen] is what the
    field gets, given the specialized result and the value the LLM map has
    under the field's key ([PyNone] when it has none).  A value is non-empty
    when Python takes it for true; for a string, when it has a character. *)
Definition chosen_by_policy (specialized : ExtractionResult)
    (llm_value chosen : PyValue) : Prop :=
  (0.7 < confidence specialized -> chosen = PyStr (value specialized)) /\
  (confidence specialized <= 0.7 -> truthy llm_value = true ->
   chosen = llm_value) /\
  (confidence specialized <= 0.7 -> truthy llm_value = false ->
   0.3 < confidence specialized -> chosen = PyStr (value specialized)) /\
  (confidence specialized <= 0.3 -> truthy llm_value = false ->
   chosen = PyStr "").

Lemma truthy_string s : truthy (PyStr s) = true <-> s <> "".
Proof.
  simpl. rewrite negb_true_iff. split.
  - intros H ->. discriminate.
  - intros H. apply String.eqb_neq. exact H.
Qed.

Lemma best_result_policy specialized llm_value :
  chosen_by_policy specialized llm_value (_best_result llm_value specialized).
Proof.
  unfold chosen_by_policy, _best_result.
  compare_floats 0.7 (confidence specialized).
  - repeat split; intros; try reflexivity; lra.
  - destruct (truthy llm_value).
    + repeat split; intros; try reflexivity; try discriminate; lra.
    + compare_floats 0.3 (confidence specialized);
        repeat split; intros; try reflexivity; try discriminate; lra.
Qed.

(** The contact handle is taken from its extractor alone. *)
Definition contact_by_threshold (contact : ExtractionResult) (chosen : string) : Prop :=
  (0.5 < confidence contact -> chosen = value contact) /\
  (confidence contact <= 0.5 -> chosen = "").

(** What [extract_all] returns when it returns. *)
Lemma extract_all_returned env text r :
  extract_all env text = Returned r ->
  exists llm, extract_with_openai env text = PyDict llm /\
    r = Results.make
          (_best_result (get "origin" llm) (extract_location text false))
          (_best_result (get "destination" llm) (extract_location text true))
          (_best_result (get "commodity" llm) (extract_commodity text))
          (_best_result (get "weight" llm) (extract_weight text))
          (_best_result (get "urgency" llm) (extract_urgency text))
          (_best_result (get "contact_name" llm)
             (fst (extract_contact_info env text)))
          (if PyFloat.ltb 0.5 (confidence (snd (extract_contact_info env text)))
           then value (snd (extract_contact_info env text)) else "")
          (_calculate_overall_confidence
             [extract_location text false; extract_location text true;
              extract_commodity text; extract_weight text]).
Proof.
  unfold extract_all.
  destruct (extract_contact_info env text) as [name contact]. cbn [fst snd].
  generalize (extract_location text false) (extract_location text true)
    (extract_commodity text) (extract_weight text) (extract_urgency text).
  intros origin destination commodity weight urgency.
  destruct (extract_with_openai env text) as [| | | | |llm];
    cbn [get_field bind]; intros H; [discriminate H ..|].
  injection H as <-. exists llm. split; reflexivity.
Qed.

Definition follows_arbitration_policy (env : Env) (text : string)
    (r : Results.t) : Prop :=
  exists llm, extract_with_openai env text = PyDict llm /\
    chosen_by_policy (extract_location text false) (get "origin" llm)
      (Results.origin r) /\
    chosen_by_policy (extract_location text true) (get "destination" llm)
      (Results.destination r) /\
    chosen_by_policy (extract_commodity text) (get "commodity" llm)
      (Results.commodity r) /\
    chosen_by_policy (extract_weight text) (get "weight" llm)
      (Results.weight r) /\
    chosen_by_policy (extract_urgency text) (get "urgency" llm)
      (Results.urgency r) /\
    chosen_by_policy (fst (extract_contact_info env text))
      (get "contact_name" llm) (Results.contact_name r) /\
    contact_by_threshold (snd (extract_contact_info env text))
      (Results.contact_info r).

(** C1: whatever the text and the collaborators, the six primary fields of
    the dictionary [extract_all] returns are chosen by the threshold policy
    (specialized above 0.7, else a non-empty LLM value, else specialized above
    0.3, else empty), and [contact_info] is the contact extractor's value
    above 0.5 and empty otherwise, the LLM map playing no part in it. *)
Theorem extract_all_follows_arbitration_policy
    (env : Env) (text : string) (r : Results.t) :
  extract_all env text = Returned r -> follows_arbitration_policy env text r.
Proof.
  intros H. apply extract_all_returned in H. destruct H as (llm & Hllm & ->).
  exists llm. split; [exact Hllm|]. cbn [Results.origin Results.destination
    Results.commodity Results.weight Results.urgency Results.contact_name
    Results.contact_info].
  repeat (split; [apply best_result_policy|]).
  unfold contact_by_threshold.
  compare_floats 0.5 (confidence (snd (extract_contact_info env text)));
    split; intros; try reflexivity; lra.
Qed.

(** An environment whose LLM answers with a map that names a destination. *)
Definition answering_env : Env :=
  mkEnv (Some (fun _ => Content "{}")) None
        (fun _ => Some (PyDict [("destination", PyStr "Santos, Brasil")])).

Definition sample_text : string := "envio desde valencia a santos. Tel: 600 111 222".

Definition sample_results : Results.t :=
  Eval vm_compute in
    match extract_all answering_env sample_text with
    | Returned r => r
    | Raised _ =>
        Results.make PyNone PyNone PyNone PyNone PyNone PyNone "" 0
    end.

Lemma arbitration_policy_witness :
  follows_arbitration_policy answering_env sample_text sample_results.
Proof.
  apply extract_all_follows_arbitration_policy. vm_compute. reflexivity.
Defined.

(** C2: the aggregate confidence [extract_all] returns is the weighted
    average of the origin, destination, commodity and weight results
    (weights 0.25, 0.25, 0.20, 0.15), over the results whose confidence is
    not zero, with the 1.1 bonus on the sum when three of the four exceed 0.7,
    capped at 1, and 0 when all four are zero. *)
Theorem extraction_confidence_is_weighted_average
    (env : Env) (text : string) (r : Results.t) :
  extract_all env text = Returned r ->
  Results.extraction_confidence r ==
  weighted_average
    (confidence (extract_location text false))
    (confidence (extract_location text true))
    (confidence (extract_commodity text))
    (confidence (extract_weight text)).
Proof.
  intros H. apply extract_all_returned in H. destruct H as (llm & _ & ->).
  cbn [Results.extraction_confidence].
  apply overall_confidence_of_four.
  - apply extract_location_nonneg.
  - apply extract_location_nonneg.
  - apply extract_commodity_nonneg.
  - apply extract_weight_nonneg.
Qed.

Lemma extraction_confidence_witness :
  Results.extraction_confidence sample_results ==
  weighted_average
    (confidence (extract_location sample_text false))
    (confidence (extract_location sample_text true))
    (confidence (extract_commodity sample_text))
    (confidence (extract_weight sample_text)).
Proof.
  apply (extraction_confidence_is_weighted_average answering_env).
  vm_compute. reflexivity.
Defined.

(** ** Location resolver *)

(** C4: the contextual patterns of the location resolver break the rule
    that an empty value goes with confidence 0.  In "cotizar envio a   Lisboa"
    (three blanks, and no blank or full stop after the last word) the
    destination pattern [(?:hasta|al|a)\s+([^\.]+?)(?:\s+|\.)] matches "a"
    and the three blanks, the captured group being the middle blank;
    stripped, it is the empty string, which is returned at confidence 0.6. *)
Theorem contextual_location_empty_value_nonzero_confidence :
  value (extract_location "cotizar envio a   Lisboa" true) = "" /\
  confidence (extract_location "cotizar envio a   Lisboa" true) == 0.6 /\
  method (extract_location "cotizar envio a   Lisboa" true) = "contextual_pattern" /\
  raw_match (extract_location "cotizar envio a   Lisboa" true) = "a   " /\
  ~ confidence (extract_location "cotizar envio a   Lisboa" true) == 0.
Proof.
  assert (E : extract_location "cotizar envio a   Lisboa" true
              = mkResult "" 0.6 "contextual_pattern" "a   ")
    by (vm_compute; reflexivity).
  rewrite E. cbn [value confidence method raw_match].
  repeat split; try reflexivity. intros H. discriminate H.
Qed.

(** The score of a gazetteer key, and the text a key is looked for in. *)
Definition raw_score (key : string) : Q :=
  inject_Z (Z.of_nat (String.length key)) / 20.
Definition score (key : string) : Q := PyFloat.min (raw_score key) 0.9.
Definition occurs_in (text key : string) : bool :=
  PyStr.contains key (PyStr.lower text).
Definition display (location_data : Location) : string :=
  city location_data ++ ", " ++ country location_data.

(** [entry] is the entry the scan of [table] retains for a text: it occurs,
    the occurring entries before it score less, and those after it score no
    more. *)
Definition retained (sc : string -> Q) (text_lower : string)
    (table : list (string * Location)) (entry : string * Location) : Prop :=
  exists pre post, table = (pre ++ entry :: post)%list /\
    PyStr.contains (fst entry) text_lower = true /\
    (forall e, In e pre -> PyStr.contains (fst e) text_lower = true ->
               sc (fst e) < sc (fst entry)) /\
    (forall e, In e post -> PyStr.contains (fst e) text_lower = true ->
               sc (fst e) <= sc (fst entry)).

Lemma lookup_step_unfold text_lower best e :
  lookup_step text_lower best e =
  if PyStr.contains (fst e) text_lower
  then if PyFloat.ltb (snd best) (raw_score (fst e))
       then (Some (display (snd e)), raw_score (fst e)) else best
  else best.
Proof. destruct e as [k l]. reflexivity. Qed.

Lemma lookup_fold_some text_lower rest : forall pre e post,
  PyStr.contains (fst e) text_lower = true ->
  (forall x, In x pre -> PyStr.contains (fst x) text_lower = true ->
             raw_score (fst x) < raw_score (fst e)) ->
  (forall x, In x post -> PyStr.contains (fst x) text_lower = true ->
             raw_score (fst x) <= raw_score (fst e)) ->
  exists e', retained raw_score text_lower (pre ++ e :: post ++ rest)%list e' /\
    fold_left (lookup_step text_lower) rest (Some (display (snd e)), raw_score (fst e))
    = (Some (display (snd e')), raw_score (fst e')).
Proof.
  induction rest as [|a rest IH]; intros pre e post He Hpre Hpost.
  - exists e. split; [|reflexivity]. exists pre, post. rewrite app_nil_r. now repeat split.
  - simpl fold_left. rewrite lookup_step_unfold. cbn [snd].
    destruct (PyStr.contains (fst a) text_lower) eqn:Ha.
    + compare_floats (raw_score (fst e)) (raw_score (fst a)).
      * destruct (IH (pre ++ e :: post)%list a [] Ha) as (e' & Hret & Hfold).
        -- intros x Hx Hc. apply in_app_or in Hx. destruct Hx as [Hx|[<-|Hx]].
           ++ specialize (Hpre x Hx Hc). lra.
           ++ exact E.
           ++ specialize (Hpost x Hx Hc). lra.
        -- intros x [].
        -- exists e'. split; [|exact Hfold].
           replace (pre ++ e :: post ++ a :: rest)%list
             with ((pre ++ e :: post) ++ a :: [] ++ rest)%list; [exact Hret|].
           rewrite <- app_assoc. reflexivity.
      * destruct (IH pre e (post ++ [a])%list He Hpre) as (e' & Hret & Hfold).
        -- intros x Hx Hc. apply in_app_or in Hx. destruct Hx as [Hx|[<-|[]]].
           ++ now apply Hpost.
           ++ exact E.
        -- exists e'. split; [|exact Hfold].
           replace (pre ++ e :: post ++ a :: rest)%list
             with (pre ++ e :: (post ++ [a]) ++ rest)%list; [exact Hret|].
           rewrite <- app_assoc. reflexivity.
    + destruct (IH pre e (post ++ [a])%list He Hpre) as (e' & Hret & Hfold).
      * intros x Hx Hc. apply in_app_or in Hx. destruct Hx as [Hx|[<-|[]]].
        -- now apply Hpost.
        -- congruence.
      * exists e'. split; [|exact Hfold].
        replace (pre ++ e :: post ++ a :: rest)%list
          with (pre ++ e :: (post ++ [a]) ++ rest)%list; [exact Hret|].
        rewrite <- app_assoc. reflexivity.
Qed.

Lemma lookup_fold_none text_lower rest : forall pre,
  (forall x, In x pre -> PyStr.contains (fst x) text_lower = false) ->
  (forall x, In x rest -> 0 < raw_score (fst x)) ->
  ((forall x, In x (pre ++ rest)%list -> PyStr.contains (fst x) text_lower = false) /\
   fold_left (lookup_step text_lower) rest (None, 0) = (None, 0))
  \/ exists e', retained raw_score text_lower (pre ++ rest)%list e' /\
       fold_left (lookup_step text_lower) rest (None, 0)
       = (Some (display (snd e')), raw_score (fst e')).
Proof.
  induction rest as [|a rest IH]; intros pre Hpre Hpos.
  - left. rewrite app_nil_r. split; [exact Hpre|reflexivity].
  - simpl fold_left. rewrite lookup_step_unfold. cbn [snd].
    destruct (PyStr.contains (fst a) text_lower) eqn:Ha.
    + right. assert (T : PyFloat.ltb 0 (raw_score (fst a)) = true)
        by (apply ltb_lt, Hpos; now left).
      rewrite T.
      destruct (lookup_fold_some text_lower rest pre a [] Ha) as (e' & Hret & Hfold).
      * intros x Hx Hc. rewrite (Hpre x Hx) in Hc. discriminate.
      * intros x [].
      * exists e'. split; [exact Hret|exact Hfold].
    + destruct (IH (pre ++ [a])%list) as [[Hnone Hfold]|(e' & Hret & Hfold)].
      * intros x Hx. apply in_app_or in Hx. destruct Hx as [Hx|[<-|[]]];
          [now apply Hpre|exact Ha].
      * intros x Hx. apply Hpos. now right.
      * left. rewrite <- app_assoc in Hnone. split; [exact Hnone|exact Hfold].
      * right. rewrite <- app_assoc in Hret. exists e'. split; [exact Hret|exact Hfold].
Qed.

(** In the table of the source no key is empty or longer than 18
    characters: its scores are positive and the cap at 0.9 changes none. *)
Lemma table_keys_bounded e :
  In e _build_location_database ->
  0 < raw_score (fst e) /\ score (fst e) = raw_score (fst e).
Proof.
  unfold _build_location_database. cbn [In]. intros H.
  repeat (destruct H as [<-|H];
          [split; [apply ltb_lt|]; vm_compute; reflexivity|]).
  destruct H.
Qed.

Lemma display_not_empty location_data : (display location_data =? "")%string = false.
Proof. unfold display. destruct (city location_data); reflexivity. Qed.

(** What the gazetteer step does for a text: no key occurs and the step
    gives no result, or the entry it retains decides: the step answers with
    that entry's "City, Country" at the entry's score when the score exceeds
    0.3, and gives no result otherwise. *)
Definition gazetteer_outcome (text : string) : Prop :=
  ((forall e, In e _build_location_database -> occurs_in text (fst e) = false) /\
   lookup_result (PyStr.lower text) = None)
  \/ exists key location_data,
       retained score (PyStr.lower text) _build_location_database (key, location_data) /\
       lookup_result (PyStr.lower text) =
         if PyFloat.ltb 0.3 (score key)
         then Some (result (display location_data) (score key) "database_lookup")
         else None.

Lemma gazetteer_step_outcome text : gazetteer_outcome text.
Proof.
  unfold gazetteer_outcome, lookup_result, database_lookup.
  destruct (lookup_fold_none (PyStr.lower text) _build_location_database [])
    as [[Hnone Hfold]|(e' & Hret & Hfold)].
  - intros x [].
  - intros x Hx. now apply table_keys_bounded.
  - left. rewrite Hfold. split; [exact Hnone|reflexivity].
  - right. cbn [app] in Hret. rewrite Hfold. destruct e' as [key location_data].
    exists key, location_data. cbn [fst snd] in *.
    destruct Hret as (pre & post & Htable & Hocc & Hpre & Hpost).
    assert (Hin : forall e, In e pre \/ e = (key, location_data) \/ In e post ->
                            In e _build_location_database).
    { intros e He. rewrite Htable. apply in_or_app.
      destruct He as [He|[->|He]]; [now left|right; now left|right; now right]. }
    assert (Hkey : score key = raw_score key).
    { apply (table_keys_bounded (key, location_data)). apply Hin. right. now left. }
    split.
    + exists pre, post. split; [exact Htable|]. split; [exact Hocc|]. cbn [fst]. split.
      * intros e He Hc. rewrite Hkey.
        rewrite (proj2 (table_keys_bounded e (Hin e (or_introl He)))). now apply Hpre.
      * intros e He Hc. rewrite Hkey.
        rewrite (proj2 (table_keys_bounded e (Hin e (or_intror (or_intror He))))).
        now apply Hpost.
    + rewrite display_not_empty. cbn [negb andb]. rewrite Hkey.
      destruct (PyFloat.ltb 0.3 (raw_score key)); [|reflexivity].
      unfold score in Hkey. rewrite Hkey. reflexivity.
Qed.

(** C6: the gazetteer step retains, among the entries whose key occurs in
    the lowered text, the first of those with the greatest score
    [min(len(key)/20, 0.9)] and answers with it when that score exceeds 0.3.
    On "envio desde valencia a santos" the origin gets confidence 0.4 by
    "database_lookup"; its value is the entry's text as the source file has
    it, "Valencia, Espa√±a", the country name of the table being mis-encoded
    there. *)
Theorem gazetteer_step_and_valencia_example :
  (forall text, gazetteer_outcome text) /\
  value (extract_location "envio desde valencia a santos" false)
    = "Valencia, Espa√±a" /\
  value (extract_location "envio desde valencia a santos" false)
    <> "Valencia, España" /\
  confidence (extract_location "envio desde valencia a santos" false) == 0.4 /\
  method (extract_location "envio desde valencia a santos" false)
    = "database_lookup".
Proof.
  split; [exact gazetteer_step_outcome|].
  assert (E : extract_location "envio desde valencia a santos" false
              = result "Valencia, Espa√±a" (8 # 20) "database_lookup")
    by (vm_compute; reflexivity).
  rewrite E. cbn [value confidence method result].
  repeat split; try reflexivity. intros H. discriminate H.
Qed.

(** ** Weight reconciliation *)

Definition explicit_total (w : Weight.t) : Prop := 0.9 <= Weight.confidence w.
Definition significant (w : Weight.t) : Prop := 100 <= Weight.value_kg w.

(** [best] is, of the candidates with property [P], the first one whose
    [key] is greatest. *)
Definition first_greatest (P : Weight.t -> Prop) (key : Weight.t -> Q)
    (weights : list Weight.t) (best : Weight.t) : Prop :=
  exists pre post, weights = (pre ++ best :: post)%list /\ P best /\
    (forall w, In w pre -> P w -> key w < key best) /\
    (forall w, In w post -> P w -> key w <= key best).

Lemma filter_first_greatest (p : Weight.t -> bool) (P : Weight.t -> Prop)
    (key : Weight.t -> Q) (weights : list Weight.t) (best : Weight.t) :
  (forall w, p w = true <-> P w) ->
  max_by key (filter p weights) = Some best ->
  first_greatest P key weights best.
Proof.
  intros HpP H. apply max_by_first_greatest in H.
  destruct H as (pre' & post' & Hf & Hpre & Hpost).
  apply filter_split in Hf. destruct Hf as (pre & post & -> & <- & <- & Hbest).
  exists pre, post. split; [reflexivity|]. split; [now apply HpP|]. split.
  - intros w Hw HP. apply Hpre. apply filter_In. split; [exact Hw|now apply HpP].
  - intros w Hw HP. apply Hpost. apply filter_In. split; [exact Hw|now apply HpP].
Qed.

Lemma filter_none {A} (p : A -> bool) (items : list A) :
  (forall x, In x items -> p x = false) -> filter p items = [].
Proof.
  induction items as [|a rest IH]; intros H; [reflexivity|]. simpl.
  rewrite (H a (or_introl eq_refl)). apply IH. intros x Hx. apply H. now right.
Qed.

Lemma filter_some {A} (p : A -> bool) (key : A -> Q) (items : list A) (x : A) :
  In x items -> p x = true -> exists best, max_by key (filter p items) = Some best.
Proof.
  intros Hx Hp. destruct (max_by key (filter p items)) as [best|] eqn:E.
  - now exists best.
  - apply max_by_none in E. assert (Hin : In x (filter p items))
      by (apply filter_In; now split).
    rewrite E in Hin. destruct Hin.
Qed.

(** The sum of a list of numbers and their mean, as arithmetic has them. *)
Fixpoint total (values : list Q) : Q :=
  match values with
  | [] => 0
  | x :: rest => x + total rest
  end.

Definition mean (values : list Q) : Q :=
  total values / inject_Z (Z.of_nat (List.length values)).

Lemma fold_sum_total {A} (f : A -> Q) (items : list A) (acc : Q) :
  fold_left (fun a x => a + f x) items acc == acc + total (map f items).
Proof.
  revert acc. induction items as [|x rest IH]; intros acc; simpl.
  - ring.
  - rewrite IH. ring.
Qed.

(** The [sum(...)] of the code is the sum. *)
Lemma sum_of_total {A} (f : A -> Q) (items : list A) :
  sum_of f items == total (map f items).
Proof. unfold sum_of. rewrite fold_sum_total. ring. Qed.

Lemma round_half_even_compat x y :
  x == y -> PyNum.round_half_even x = PyNum.round_half_even y.
Proof.
  intros H. unfold PyNum.round_half_even.
  rewrite (Qfloor_comp x y H).
  assert (E : (x - inject_Z (Qfloor y)) * 2 == (y - inject_Z (Qfloor y)) * 2)
    by (rewrite H; reflexivity).
  rewrite (Qcompare_comp _ _ E 1 1 (Qeq_refl 1)). reflexivity.
Qed.

(** Equal weights print alike. *)
Lemma format_kg_compat x y : x == y -> format_kg x = format_kg y.
Proof.
  intros H. unfold format_kg, PyNum.format_0f.
  now rewrite (round_half_even_compat x y H).
Qed.

(** The priority order of the reconciliation over a list of candidates. *)
Definition reconciliation_rules (weights : list Weight.t) : Prop :=
  ((exists w, In w weights /\ explicit_total w) ->
   exists best,
     first_greatest explicit_total Weight.confidence weights best /\
     reconcile_weights weights =
       result (format_kg (Weight.value_kg best)) (Weight.confidence best)
         "explicit_total")
  /\
  ((forall w, In w weights -> ~ explicit_total w) ->
   (forall w, weights = [w] ->
      reconcile_weights weights =
        result (format_kg (Weight.value_kg w)) (Weight.confidence w)
          "single_weight")
   /\
   ((2 <= List.length weights)%nat ->
    (exists w, In w weights /\ significant w) ->
    exists best,
      first_greatest significant Weight.value_kg weights best /\
      reconcile_weights weights =
        result (format_kg (Weight.value_kg best)) 0.8 "largest_weight")
   /\
   ((2 <= List.length weights)%nat ->
    (forall w, In w weights -> Weight.value_kg w < 100) ->
    reconcile_weights weights =
      result (format_kg (total (map Weight.value_kg weights)))
        (confidence (reconcile_weights weights)) "small_weights_sum" /\
    confidence (reconcile_weights weights)
    == mean (map Weight.confidence weights))).

Lemma reconcile_weights_rules weights : reconciliation_rules weights.
Proof.
  assert (Htot : forall w, PyFloat.leb 0.9 (Weight.confidence w) = true
                           <-> explicit_total w) by (intros w; apply leb_le).
  assert (Hsig : forall w, PyFloat.leb 100 (Weight.value_kg w) = true
                           <-> significant w) by (intros w; apply leb_le).
  split.
  - intros (w & Hw & Hconf).
    destruct (filter_some (fun w => PyFloat.leb 0.9 (Weight.confidence w))
                Weight.confidence weights w Hw (proj2 (Htot w) Hconf))
      as (best & Hbest).
    exists best. split.
    + exact (filter_first_greatest _ _ _ _ _ Htot Hbest).
    + unfold reconcile_weights. rewrite Hbest. reflexivity.
  - intros Hnone.
    assert (Hfilter : filter (fun w => PyFloat.leb 0.9 (Weight.confidence w)) weights = []).
    { apply filter_none. intros x Hx.
      destruct (PyFloat.leb 0.9 (Weight.confidence x)) eqn:E; [|reflexivity].
      exfalso. apply (Hnone x Hx). now apply Htot. }
    unfold reconcile_weights. rewrite Hfilter. cbn [max_by].
    split; [|split].
    + intros w ->. reflexivity.
    + intros Hlen (w & Hw & Hbig).
      destruct weights as [|a [|b rest]]; [simpl in Hlen; lia|simpl in Hlen; lia|].
      destruct (filter_some (fun w => PyFloat.leb 100 (Weight.value_kg w))
                  Weight.value_kg _ w Hw (proj2 (Hsig w) Hbig))
        as (best & Hbest).
      exists best. split.
      * exact (filter_first_greatest _ _ _ _ _ Hsig Hbest).
      * rewrite Hbest. reflexivity.
    + intros Hlen Hsmall.
      destruct weights as [|a [|b rest]]; [simpl in Hlen; lia|simpl in Hlen; lia|].
      rewrite filter_none by (intros x Hx; apply leb_gt; now apply Hsmall).
      cbn [max_by confidence result]. split.
      * now rewrite (format_kg_compat _ _ (sum_of_total Weight.value_kg (a :: b :: rest))).
      * unfold mean. rewrite (sum_of_total Weight.confidence (a :: b :: rest)).
        now rewrite length_map.
Qed.

(** The demonstration e-mail of [advanced_extractor.py]. *)
Definition test_rfq : string := "hola buenos dias!!

necesitamos cotizar un envio URGENTE de valencia espa√±a al puerto de SANTOS brasil... son maquinarias pesadas de segunda mano aprox 2.5 toneladas + o -

tengo 3 maquinas:
- una cortadora que mide algo asi como 180x90x120 cm pesa 890kg mas o menos
- soldadora de 65kg (peque√±a) 40x30x80
- compresor grande PESADO!!! 950kg aprox dimensiones 200x110x140 creo q son

TOTAL= mas o menos 1900kg pero pueden ser hasta 2200kg dependiendo de los accesorios

necesitamos que llegue antes del 15 de octubre por fabor es MUY urgente nuestro cliente ya esta esperando

pueden incluir SEGURO??? y el transporte hasta la fabrica en santos??

presupuesto???

saludos
juan martinez
WhatsApp: +34 666 123 456
Maquilogistics SL
valencia

PD: algunas maquinas tienen aceite residual pero ya las limpiamos".

(** C5: the candidates collected are explicit totals (0.9) exactly when
    the text matched contains "total" or "peso", and the reconciliation takes,
    in this order, the first greatest explicit total, the only candidate, the
    first largest candidate of 100 kg or more at confidence 0.8, or the sum of
    the kilograms at the mean of the confidences.  An e-mail with 890kg, 65kg,
    950kg and "TOTAL= mas o menos 1900kg" gives "1900 kg" by "explicit_total";
    "890kg" alone gives "890 kg" by "single_weight", "890kg y 950kg" gives
    "950 kg" at 0.8 by "largest_weight", and "5kg y 3kg" gives "8 kg" at 0.7 by
    "small_weights_sum". *)
Theorem weight_reconciliation_priority :
  (forall text w, In w (collect_weights (PyStr.lower text)) ->
     Weight.confidence w =
       if PyStr.contains "total" (PyStr.lower (Weight.original w))
          || PyStr.contains "peso" (PyStr.lower (Weight.original w))
       then 0.9 else 0.7) /\
  (forall text w rest, collect_weights (PyStr.lower text) = w :: rest ->
     extract_weight text = reconcile_weights (w :: rest)) /\
  (forall weights, reconciliation_rules weights) /\
  extract_weight
    "cortadora pesa 890kg mas o menos, soldadora de 65kg, compresor 950kg aprox. TOTAL= mas o menos 1900kg"
    = result "1900 kg" 0.9 "explicit_total" /\
  extract_weight test_rfq = result "1900 kg" 0.9 "explicit_total" /\
  extract_weight "890kg" = result "890 kg" 0.7 "single_weight" /\
  extract_weight "890kg y 950kg" = result "950 kg" 0.8 "largest_weight" /\
  (value (extract_weight "5kg y 3kg") = "8 kg" /\
   confidence (extract_weight "5kg y 3kg") == 0.7 /\
   method (extract_weight "5kg y 3kg") = "small_weights_sum").
Proof.
  split; [|split; [|split; [|split; [|split; [|split; [|split]]]]]].
  - intros text w. apply collected_confidence.
  - intros text w rest H. unfold extract_weight. rewrite H. reflexivity.
  - exact reconcile_weights_rules.
  - vm_compute. reflexivity.
  - vm_compute. reflexivity.
  - vm_compute. reflexivity.
  - vm_compute. reflexivity.
  - repeat split; vm_compute; reflexivity || (intros; discriminate).
Qed.

(** The other two branches on the examples of the specification. *)
Example largest_weight_example :
  extract_weight "890kg y 950kg" = result "950 kg" 0.8 "largest_weight".
Proof. vm_compute. reflexivity. Qed.

Example small_weights_sum_example :
  value (extract_weight "5kg y 3kg") = "8 kg" /\
  confidence (extract_weight "5kg y 3kg") == 0.7 /\
  method (extract_weight "5kg y 3kg") = "small_weights_sum".
Proof. vm_compute. repeat split; intros; discriminate. Qed.

(** ** Candidate selection *)

(** [best] is the highest-confidence candidate, the first one on a tie. *)
Definition highest_confidence (candidates : list NameCandidate.t)
    (best : NameCandidate.t) : Prop :=
  exists pre post, candidates = (pre ++ best :: post)%list /\
    (forall c, In c pre -> NameCandidate.confidence c < NameCandidate.confidence best) /\
    (forall c, In c post -> NameCandidate.confidence c <= NameCandidate.confidence best).

(** The LLM gave no name to use: the call raised, or its answer, stripped,
    is "NONE" or fails the validator (as an empty answer does). *)
Definition no_usable_answer (answer : Completion) : Prop :=
  match answer with
  | CallRaises => True
  | Content content =>
      PyStr.strip content = "NONE"
      \/ _is_valid_name_candidate (PyStr.strip content) = false
  end.

Lemma best_candidate_exists (candidates : list NameCandidate.t) :
  candidates <> [] ->
  exists best, max_by NameCandidate.confidence candidates = Some best /\
               highest_confidence candidates best.
Proof.
  intros H. destruct (max_by NameCandidate.confidence candidates) as [best|] eqn:E.
  - exists best. split; [reflexivity|]. now apply max_by_first_greatest.
  - apply max_by_none in E. contradiction.
Qed.

(** What the stage gives for a non-empty list of candidates, by the
    availability and the answer of the LLM. *)
Definition selection_fallbacks (env : Env) (candidates : list NameCandidate.t)
    : Prop :=
  exists best, highest_confidence candidates best /\
    (openai_client env = None ->
     llm_validate_candidates env candidates = Some (NameCandidate.text best)) /\
    (forall client, openai_client env = Some client ->
       no_usable_answer (client (SelectionPrompt (firstn 5 candidates))) ->
       (0.5 < NameCandidate.confidence best ->
        llm_validate_candidates env candidates = Some (NameCandidate.text best)) /\
       (NameCandidate.confidence best <= 0.5 ->
        llm_validate_candidates env candidates = None)).

(** C7: with a client whose call raises, declines or names something the
    validator refuses, the stage gives the best candidate's text only above
    confidence 0.5 and no name otherwise; with no client it gives the best
    candidate's text whatever its confidence. *)
Theorem candidate_selection_fallbacks
    (env : Env) (candidates : list NameCandidate.t) :
  candidates <> [] -> selection_fallbacks env candidates.
Proof.
  intros Hne. destruct (best_candidate_exists candidates Hne) as (best & Hmax & Hbest).
  unfold selection_fallbacks. exists best. split; [exact Hbest|].
  destruct candidates as [|c0 rest]; [contradiction|].
  unfold llm_validate_candidates. split.
  - intros ->. rewrite Hmax. reflexivity.
  - intros client -> Hanswer.
    assert (Hfallback :
      (0.5 < NameCandidate.confidence best ->
       confident_best (c0 :: rest) = Some (NameCandidate.text best)) /\
      (NameCandidate.confidence best <= 0.5 -> confident_best (c0 :: rest) = None)).
    { unfold confident_best. rewrite Hmax.
      compare_floats 0.5 (NameCandidate.confidence best);
        split; intros; try reflexivity; lra. }
    destruct (client (SelectionPrompt (firstn 5 (c0 :: rest)))) as [|content];
      [exact Hfallback|].
    destruct Hanswer as [Hnone|Hinvalid].
    + rewrite Hnone. cbn [String.eqb Ascii.eqb Bool.eqb negb andb].
      exact Hfallback.
    + rewrite Hinvalid. rewrite !andb_false_r. exact Hfallback.
Qed.

(** Two candidates, the better one at 0.45. *)
Definition weak_candidates : list NameCandidate.t :=
  [ NameCandidate.make "Ana Ruiz" 0.45 "zone_regex" "signature_saludos" "Saludos Ana Ruiz";
    NameCandidate.make "Luis Gil" 0.35 "zone_regex" "self_introduction" "Soy Luis Gil" ].

Definition failing_llm_env : Env :=
  mkEnv (Some (fun _ => CallRaises)) None (fun _ => None).
Definition no_llm_env : Env := mkEnv None None (fun _ => None).

Lemma candidate_selection_fallbacks_witness :
  selection_fallbacks failing_llm_env weak_candidates.
Proof.
  apply candidate_selection_fallbacks. discriminate.
Defined.

(** The asymmetry on these candidates: no name when the call raises, the
    weak best candidate when there is no client. *)
Example fallback_asymmetry :
  llm_validate_candidates failing_llm_env weak_candidates = None /\
  llm_validate_candidates no_llm_env weak_candidates = Some "Ana Ruiz".
Proof. split; vm_compute; reflexivity. Qed.

(** ** The name the pipeline reports *)

Lemma extract_ner_candidates_same_nlp env env' zones :
  nlp env' = nlp env ->
  extract_ner_candidates env' zones = extract_ner_candidates env zones.
Proof. intros H. unfold extract_ner_candidates. rewrite H. reflexivity. Qed.

Lemma extract_name_produced env text r :
  extract_name env text = Some r -> NameResult.name r <> "" ->
  exists candidates best,
    extract_ner_candidates env (detect_name_zones text) = Some candidates /\
    max_by NameCandidate.confidence candidates = Some best /\
    llm_validate_candidates env candidates = Some (NameResult.name r) /\
    NameResult.confidence r = PyFloat.min (NameCandidate.confidence best * 1.1) 1 /\
    NameResult.method r = "hybrid_" ++ NameCandidate.method best.
Proof.
  unfold extract_name. intros H Hname.
  destruct (detect_name_zones text) as [|z zones].
  { injection H as <-. now contradiction Hname. }
  destruct (extract_ner_candidates env (z :: zones)) as [[|c candidates]|];
    [injection H as <-; now contradiction Hname| |discriminate].
  destruct (llm_validate_candidates env (c :: candidates)) as [final_name|] eqn:Hfinal;
    [|destruct (max_by NameCandidate.confidence (c :: candidates));
      injection H as <-; now contradiction Hname].
  destruct (max_by NameCandidate.confidence (c :: candidates)) as [best|] eqn:Hmax;
    [|injection H as <-; now contradiction Hname].
  destruct (negb (final_name =? "")%string);
    [|injection H as <-; now contradiction Hname].
  injection H as <-. exists (c :: candidates), best. now repeat split.
Qed.

(** The confidence and method reported with a name [r] of the pipeline. *)
Definition tracks_best_candidate (env : Env) (text : string) (r : NameResult.t)
    : Prop :=
  exists candidates best,
    extract_ner_candidates env (detect_name_zones text) = Some candidates /\
    highest_confidence candidates best /\
    NameResult.confidence r = PyFloat.min (NameCandidate.confidence best * 1.1) 1 /\
    NameResult.method r = "hybrid_" ++ NameCandidate.method best /\
    (forall env' r', nlp env' = nlp env ->
       extract_name env' text = Some r' -> NameResult.name r' <> "" ->
       NameResult.confidence r' = NameResult.confidence r /\
       NameResult.method r' = NameResult.method r).

(** C8: a non-empty name of the pipeline is reported at confidence
    [min(c_best * 1.1, 1)] and with the method of the best candidate, the
    best being the highest-confidence candidate of all; neither depends on
    the candidate selected, so two LLMs that select differently get the same
    confidence and method. *)
Theorem produced_name_confidence_tracks_best_candidate
    (env : Env) (text : string) (r : NameResult.t) :
  extract_name env text = Some r -> NameResult.name r <> "" ->
  tracks_best_candidate env text r.
Proof.
  intros H Hname.
  destruct (extract_name_produced env text r H Hname)
    as (candidates & best & Hc & Hmax & _ & Hconf & Hmethod).
  unfold tracks_best_candidate. exists candidates, best. split; [exact Hc|]. split.
  { now apply max_by_first_greatest. }
  split; [exact Hconf|]. split; [exact Hmethod|].
  intros env' r' Hnlp H' Hname'.
  destruct (extract_name_produced env' text r' H' Hname')
    as (candidates' & best' & Hc' & Hmax' & _ & Hconf' & Hmethod').
  rewrite (extract_ner_candidates_same_nlp _ _ _ Hnlp), Hc in Hc'.
  injection Hc' as <-. rewrite Hmax in Hmax'. injection Hmax' as <-.
  rewrite Hconf, Hconf', Hmethod, Hmethod'. now split.
Qed.

(** An LLM that selects the second candidate, and a text with two. *)
Definition choosing_env : Env :=
  mkEnv (Some (fun _ => Content "Ana Ruiz")) None (fun _ => None).
Definition two_names_text : string := "Soy Ana Ruiz. Saludos Juan Martinez".

Definition selected_name : NameResult.t :=
  Eval vm_compute in
    match extract_name choosing_env two_names_text with
    | Some r => r
    | None => NameResult.make "" 0 ""
    end.

Lemma produced_name_witness :
  tracks_best_candidate choosing_env two_names_text selected_name.
Proof.
  apply produced_name_confidence_tracks_best_candidate.
  - vm_compute. reflexivity.
  - vm_compute. discriminate.
Defined.

(** The LLM selected "Ana Ruiz" (0.56); the confidence reported is that of
    "Juan Martinez" (0.81) with the bonus. *)
Example selected_name_reported :
  NameResult.name selected_name = "Ana Ruiz" /\
  NameResult.confidence selected_name == 0.891 /\
  NameResult.method selected_name = "hybrid_zone_regex".
Proof. vm_compute. repeat split; intros; discriminate. Qed.

(** ** LLM field extractor *)

Definition is_mapping (v : PyValue) : Prop := exists entries, v = PyDict entries.

(** An LLM that answers with an empty JSON array, which [json.loads]
    reads as the empty list. *)
Definition array_env : Env :=
  mkEnv (Some (fun _ => Content "[]")) None
        (fun s => if (s =? "[]")%string then Some (PyList []) else None).

(** C9: [extract_with_openai] gives the empty mapping without a client,
    when the call raises and when the answer is not JSON, and otherwise what
    [json.loads] reads, which is a mapping only when the answer is a JSON
    object.  When it is not, the first [openai_result.get] of [extract_all]
    raises [AttributeError]: the LLM answering "[]" makes [extract_all]
    raise. *)
Theorem non_object_answer_escapes_extract_all :
  (forall env text, openai_client env = None ->
     extract_with_openai env text = PyDict []) /\
  (forall env text client, openai_client env = Some client ->
     client (ExtractionPrompt text) = CallRaises ->
     extract_with_openai env text = PyDict []) /\
  (forall env text client content, openai_client env = Some client ->
     client (ExtractionPrompt text) = Content content ->
     json_loads env (unfenced (PyStr.strip content)) = None ->
     extract_with_openai env text = PyDict []) /\
  (forall env text client content v, openai_client env = Some client ->
     client (ExtractionPrompt text) = Content content ->
     json_loads env (unfenced (PyStr.strip content)) = Some v ->
     extract_with_openai env text = v /\
     (~ is_mapping v -> extract_all env text = Raised "AttributeError")) /\
  extract_with_openai array_env "cotizar envio a Lisboa" = PyList [] /\
  ~ is_mapping (extract_with_openai array_env "cotizar envio a Lisboa") /\
  extract_all array_env "cotizar envio a Lisboa" = Raised "AttributeError".
Proof.
  split; [|split; [|split; [|split; [|split; [|split]]]]].
  - intros env text H. unfold extract_with_openai. rewrite H. reflexivity.
  - intros env text client H1 H2. unfold extract_with_openai. rewrite H1, H2.
    reflexivity.
  - intros env text client content H1 H2 H3. unfold extract_with_openai.
    rewrite H1, H2, H3. reflexivity.
  - intros env text client content v H1 H2 H3.
    assert (E : extract_with_openai env text = v)
      by (unfold extract_with_openai; rewrite H1, H2, H3; reflexivity).
    split; [exact E|]. intros Hv. unfold extract_all. rewrite E.
    destruct (extract_contact_info env text) as [name contact].
    destruct v; try reflexivity. exfalso. apply Hv. now exists entries.
  - vm_compute. reflexivity.
  - intros [entries H]. vm_compute in H. discriminate H.
  - vm_compute. reflexivity.
Qed.

(** ** Name validators *)

Lemma lower_char_lower c : PyStr.lower_char (PyStr.lower_char c) = PyStr.lower_char c.
Proof. destruct c as [[] [] [] [] [] [] [] []]; reflexivity. Qed.

Lemma lower_char_upper c : PyStr.lower_char (PyStr.upper_char c) = PyStr.lower_char c.
Proof. destruct c as [[] [] [] [] [] [] [] []]; reflexivity. Qed.

Lemma lower_title_from b s : PyStr.lower (PyStr.title_from b s) = PyStr.lower s.
Proof.
  unfold PyStr.lower. revert b. induction s as [|c s IH]; intros b; [reflexivity|].
  cbn [PyStr.title_from PyStr.map]. rewrite IH.
  destruct b; [rewrite lower_char_lower|rewrite lower_char_upper]; reflexivity.
Qed.

(** Title case changes no letter but in its case. *)
Lemma lower_title s : PyStr.lower (PyStr.title s) = PyStr.lower s.
Proof. apply lower_title_from. Qed.

(** [name] has one of [words] as a substring, case apart. *)
Definition has_stop_word (words : list string) (name : string) : bool :=
  existsb (fun word => PyStr.contains word (PyStr.lower name)) words.

(** A name the fallback validator lets through has no stop word in it. *)
Lemma clean_name_has_no_stop_word raw_name :
  _clean_and_validate_name raw_name <> "" ->
  has_stop_word fallback_exclude_words (_clean_and_validate_name raw_name) = false.
Proof.
  unfold _clean_and_validate_name.
  destruct (raw_name =? "")%string; [congruence|].
  destruct (existsb _ fallback_exclude_words) eqn:E; [congruence|].
  destruct (40 <? _)%nat; [congruence|].
  destruct (_ <? 3)%nat; [congruence|].
  destruct (2 <? _)%nat; [congruence|].
  destruct (found _ _); [congruence|].
  destruct (negb _); [congruence|].
  intros _. unfold has_stop_word. rewrite lower_title. exact E.
Qed.

Lemma fallback_loop_has_no_stop_word pats text :
  value (fallback_loop pats text) <> "" ->
  has_stop_word fallback_exclude_words (value (fallback_loop pats text)) = false.
Proof.
  induction pats as [|[pattern c] rest IH]; [simpl; congruence|].
  simpl. destruct (Re.search pattern text Re.IGNORECASE_MULTILINE) as [mt|]; [|exact IH].
  destruct (negb (_ =? "")%string) eqn:E; [|exact IH].
  cbn [value result]. intros H. now apply clean_name_has_no_stop_word.
Qed.

(** Every candidate of the pipeline passed its validator. *)
Definition all_valid (candidates : list NameCandidate.t) : Prop :=
  forall c, In c candidates -> _is_valid_name_candidate (NameCandidate.text c) = true.

Lemma regex_candidates_valid zone pc : all_valid (regex_candidates zone pc).
Proof.
  destruct pc as [pattern pc]. unfold regex_candidates. intros c H.
  apply in_flat_map in H. destruct H as (mt & _ & H).
  destruct (_is_valid_name_candidate _) eqn:E; [|destruct H].
  destruct H as [<-|[]]. exact E.
Qed.

Lemma regex_fallback_candidates_valid zones :
  all_valid (extract_regex_fallback_candidates zones).
Proof.
  unfold extract_regex_fallback_candidates. intros c H.
  apply in_flat_map in H. destruct H as (zone & _ & H).
  apply in_flat_map in H. destruct H as (pc & _ & H).
  exact (regex_candidates_valid zone pc c H).
Qed.

Lemma ner_candidates_valid zone ents : all_valid (ner_candidates zone ents).
Proof.
  unfold ner_candidates. intros c H.
  apply in_flat_map in H. destruct H as (ent & _ & H).
  destruct (_ || _); [|destruct H].
  destruct (_is_valid_name_candidate _) eqn:E; [|destruct H].
  destruct H as [<-|[]]. exact E.
Qed.

Lemma ner_loop_valid recognise zones candidates :
  ner_loop recognise zones = Some candidates -> all_valid candidates.
Proof.
  revert candidates. induction zones as [|zone rest IH]; intros candidates H.
  - injection H as <-. intros c [].
  - simpl in H. destruct (recognise (Zone.text zone)) as [ents|]; [|discriminate].
    destruct (ner_loop recognise rest) as [more|]; [|discriminate].
    injection H as <-. intros c Hc. apply in_app_or in Hc. destruct Hc as [Hc|Hc].
    + exact (ner_candidates_valid zone ents c Hc).
    + exact (IH more eq_refl c Hc).
Qed.

Lemma extract_ner_candidates_valid env zones candidates :
  extract_ner_candidates env zones = Some candidates -> all_valid candidates.
Proof.
  unfold extract_ner_candidates. destruct (nlp env) as [recognise|].
  - apply ner_loop_valid.
  - intros H. injection H as <-. apply regex_fallback_candidates_valid.
Qed.

Lemma confident_best_valid candidates name :
  all_valid candidates -> confident_best candidates = Some name ->
  _is_valid_name_candidate name = true.
Proof.
  unfold confident_best. intros Hall H.
  destruct (max_by NameCandidate.confidence candidates) as [best|] eqn:E; [|discriminate].
  destruct (PyFloat.ltb 0.5 _); [|discriminate]. injection H as <-.
  apply Hall. exact (max_by_in _ _ _ E).
Qed.

(** The name the selection stage gives passed the validator, whichever way
    it was selected. *)
Lemma llm_validate_candidates_valid env candidates name :
  all_valid candidates -> llm_validate_candidates env candidates = Some name ->
  _is_valid_name_candidate name = true.
Proof.
  unfold llm_validate_candidates. intros Hall H.
  destruct candidates as [|c0 rest]; [discriminate|].
  destruct (openai_client env) as [client|].
  - destruct (client _) as [|content]; [exact (confident_best_valid _ _ Hall H)|].
    destruct (negb _ && negb _ && _is_valid_name_candidate _) eqn:E.
    + injection H as <-. apply andb_true_iff in E. apply E.
    + exact (confident_best_valid _ _ Hall H).
  - destruct (max_by NameCandidate.confidence (c0 :: rest)) as [best|] eqn:E;
      [|discriminate].
    injection H as <-. apply Hall. exact (max_by_in _ _ _ E).
Qed.

Lemma hybrid_name_valid env text :
  value (_extract_name_hybrid env text) <> "" ->
  _is_valid_name_candidate (value (_extract_name_hybrid env text)) = true.
Proof.
  unfold _extract_name_hybrid.
  destruct (extract_name env text) as [r|] eqn:E; [|simpl; congruence].
  destruct (negb (NameResult.name r =? "")%string) eqn:N; [|simpl; congruence].
  cbn [value result]. intros Hname.
  destruct (extract_name_produced env text r E Hname)
    as (candidates & best & Hc & _ & Hfinal & _).
  apply (llm_validate_candidates_valid env candidates); [|exact Hfinal].
  exact (extract_ner_candidates_valid _ _ _ Hc).
Qed.

(** A contact name, from either path, passed one of the two validators. *)
Lemma contact_name_validated env text :
  value (fst (extract_contact_info env text)) <> "" ->
  _is_valid_name_candidate (value (fst (extract_contact_info env text))) = true
  \/ has_stop_word fallback_exclude_words
       (value (fst (extract_contact_info env text))) = false.
Proof.
  unfold extract_contact_info. cbn [fst].
  destruct (value (_extract_name_hybrid env text) =? "")%string eqn:E.
  - intros H. right. now apply fallback_loop_has_no_stop_word.
  - intros H. left. now apply hybrid_name_valid.
Qed.

(** Both validators look for their stop words as substrings of the lowered
    name. *)
Lemma pipeline_validator_rejects_substring name word :
  In word candidate_exclude_words ->
  PyStr.contains word (PyStr.lower name) = true ->
  _is_valid_name_candidate name = false.
Proof.
  intros Hin Hc. unfold _is_valid_name_candidate.
  destruct (_ || _ || _); [reflexivity|].
  assert (E : existsb (fun w => PyStr.contains w (PyStr.lower name))
                candidate_exclude_words = true)
    by (apply existsb_exists; now exists word).
  rewrite E. reflexivity.
Qed.

Lemma fallback_validator_rejects_substring raw_name word :
  In word fallback_exclude_words ->
  PyStr.contains word (PyStr.lower (PyStr.join " " (PyStr.split raw_name))) = true ->
  _clean_and_validate_name raw_name = "".
Proof.
  intros Hin Hc. unfold _clean_and_validate_name.
  destruct (raw_name =? "")%string; [reflexivity|].
  assert (E : existsb (fun w => PyStr.contains w
                (PyStr.lower (PyStr.join " " (PyStr.split raw_name))))
                fallback_exclude_words = true)
    by (apply existsb_exists; now exists word).
  rewrite E. reflexivity.
Qed.

(** C10, as stated, fails on its second example: the stop list of the
    pipeline validator has no "sa", so that validator accepts "Rosa Marin",
    and the pipeline produces the name. *)
Lemma rosa_marin_passes_pipeline_validator :
  PyStr.contains "sa" (PyStr.lower "Rosa Marin") = true /\
  _is_valid_name_candidate "Rosa Marin" = true /\
  value (fst (extract_contact_info no_llm_env "Saludos Rosa Marin")) = "Rosa Marin".
Proof. repeat split; vm_compute; reflexivity. Qed.

(** C10, amended: both validators reject a name that has one of their stop
    words as a substring.  "Cristel Garcia" has "tel", a stop word of both:
    the fallback validator returns the empty string, the pipeline validator
    false, and no path gives it as the contact name.  "Rosa Marin" has "sa", a
    stop word of the fallback validator only: that validator returns the empty
    string and the fallback path never gives the name, while the pipeline
    validator returns true. *)
Theorem stop_word_substrings_reject_names :
  (forall name word, In word candidate_exclude_words ->
     PyStr.contains word (PyStr.lower name) = true ->
     _is_valid_name_candidate name = false) /\
  (forall raw_name word, In word fallback_exclude_words ->
     PyStr.contains word (PyStr.lower (PyStr.join " " (PyStr.split raw_name))) = true ->
     _clean_and_validate_name raw_name = "") /\
  _clean_and_validate_name "Cristel Garcia" = "" /\
  _is_valid_name_candidate "Cristel Garcia" = false /\
  (forall env text, value (fst (extract_contact_info env text)) <> "Cristel Garcia") /\
  _clean_and_validate_name "Rosa Marin" = "" /\
  (forall text, value (_extract_name_fallback text) <> "Rosa Marin") /\
  _is_valid_name_candidate "Rosa Marin" = true.
Proof.
  split; [exact pipeline_validator_rejects_substring|].
  split; [exact fallback_validator_rejects_substring|].
  split; [vm_compute; reflexivity|].
  split; [vm_compute; reflexivity|].
  split.
  { intros env text H.
    destruct (contact_name_validated env text) as [Hv|Hs].
    - rewrite H. discriminate.
    - rewrite H in Hv. vm_compute in Hv. discriminate Hv.
    - rewrite H in Hs. vm_compute in Hs. discriminate Hs. }
  split; [vm_compute; reflexivity|].
  split; [|vm_compute; reflexivity].
  intros text H.
  assert (Hs : has_stop_word fallback_exclude_words
                 (value (_extract_name_fallback text)) = false).
  { apply fallback_loop_has_no_stop_word. fold (_extract_name_fallback text).
    rewrite H. discriminate. }
  rewrite H in Hs. vm_compute in Hs. discriminate Hs.
Qed.

(** * Further properties of the extractors *)

(** ** Range of the aggregate confidence *)

Lemma total_from_zero i results :
  (forall r, In r results -> confidence r <= 0) -> total_from i results == 0.
Proof.
  revert i. induction results as [|r rest IH]; intros i H; [reflexivity|].
  simpl. rewrite (IH (S i)) by (intros x Hx; apply H; now right).
  assert (F : PyFloat.ltb 0 (confidence r) = false)
    by (apply ltb_ge, H; now left).
  rewrite F. ring.
Qed.

Lemma sums_positive i results r :
  In r results -> 0 < confidence r ->
  0 < weighted_from i results /\ 0 < total_from i results.
Proof.
  revert i. induction results as [|a rest IH]; intros i Hin Hpos; [destruct Hin|].
  pose proof (weight_at_pos i) as Hw.
  pose proof (weighted_from_nonneg (S i) rest) as Hwn.
  pose proof (total_from_nonneg (S i) rest) as Htn.
  simpl. destruct Hin as [->|Hin].
  - apply ltb_lt in Hpos. rewrite Hpos. apply ltb_lt in Hpos.
    assert (0 < confidence r * weight_at i) by (apply Qmult_lt_0_compat; assumption).
    split; lra.
  - destruct (IH (S i) Hin Hpos) as [H1 H2].
    compare_floats 0 (confidence a).
    + assert (0 < confidence a * weight_at i) by (apply Qmult_lt_0_compat; assumption).
      split; lra.
    + split; lra.
Qed.

(** X1: the aggregate confidence lies between 0 and 1 for every list of
    results, and it is 0 exactly when no result has a positive confidence
    (the empty list included). *)
Theorem overall_confidence_range (results : list ExtractionResult) :
  0 <= _calculate_overall_confidence results /\
  _calculate_overall_confidence results <= 1 /\
  (_calculate_overall_confidence results == 0 <->
   forall r, In r results -> confidence r <= 0).
Proof.
  split; [|split; [apply overall_confidence_le_1|]].
  - rewrite overall_confidence_unfold. unfold aggregate_of.
    pose proof (weighted_from_nonneg 0 results) as Hw.
    compare_floats 0 (total_from 0 results); [|lra].
    unfold PyFloat.min.
    assert (0 <= (if (3 <=? critical_count results)%nat
                  then weighted_from 0 results * 1.1 else weighted_from 0 results)
                 / total_from 0 results).
    { apply Qle_shift_div_l; [exact E|]. rewrite Qmult_0_l.
      destruct (3 <=? critical_count results)%nat; lra. }
    destruct (PyFloat.ltb 1 _); lra.
  - rewrite overall_confidence_unfold. unfold aggregate_of. split.
    + intros Hzero r Hin.
      destruct (Qlt_le_dec 0 (confidence r)) as [Hpos|Hle]; [|exact Hle].
      exfalso. destruct (sums_positive 0 results r Hin Hpos) as [Hw Ht].
      apply ltb_lt in Ht. rewrite Ht in Hzero. apply ltb_lt in Ht.
      assert (0 < (if (3 <=? critical_count results)%nat
                   then weighted_from 0 results * 1.1 else weighted_from 0 results)
                  / total_from 0 results).
      { apply Qlt_shift_div_l; [exact Ht|]. rewrite Qmult_0_l.
        destruct (3 <=? critical_count results)%nat; lra. }
      unfold PyFloat.min in Hzero. destruct (PyFloat.ltb 1 _); lra.
    + intros Hall. rewrite (total_from_zero 0 results Hall).
      reflexivity.
Qed.

(** ** What the gazetteer can answer *)

Lemma table_scores_at_most_07 e :
  In e _build_location_database -> raw_score (fst e) <= 0.7.
Proof.
  unfold _build_location_database. cbn [In]. intros H.
  repeat (destruct H as [<-|H]; [apply leb_le; vm_compute; reflexivity|]).
  destruct H.
Qed.

Lemma score_above_03_long_key key :
  0.3 < raw_score key -> (7 <= String.length key)%nat.
Proof.
  unfold raw_score. intros H.
  destruct (le_lt_dec 7 (String.length key)) as [Hle|Hlt]; [exact Hle|exfalso].
  assert (Hz : (Z.of_nat (String.length key) <= 6)%Z) by lia.
  assert (Hq : inject_Z (Z.of_nat (String.length key)) <= inject_Z 6)
    by (rewrite <- Zle_Qle; exact Hz).
  assert (inject_Z (Z.of_nat (String.length key)) / 20 <= 0.3).
  { apply Qle_shift_div_r; [reflexivity|]. 
    setoid_replace (0.3 * 20) with (inject_Z 6) by reflexivity. exact Hq. }
  lra.
Qed.

(** What a result of the gazetteer step is made of. *)
Definition gazetteer_answer (text : string) (r : ExtractionResult) : Prop :=
  exists key location_data,
    In (key, location_data) _build_location_database /\
    (7 <= String.length key)%nat /\
    occurs_in text key = true /\
    r = result (display location_data) (raw_score key) "database_lookup" /\
    0.3 < confidence r /\ confidence r <= 0.7.

Lemma lookup_result_answer text r :
  lookup_result (PyStr.lower text) = Some r -> gazetteer_answer text r.
Proof.
  intros H. destruct (gazetteer_step_outcome text)
    as [[_ Hnone]|(key & location_data & Hret & Hres)]; [congruence|].
  rewrite Hres in H.
  destruct Hret as (pre & post & Htable & Hocc & _).
  assert (Hin : In (key, location_data) _build_location_database)
    by (rewrite Htable; apply in_or_app; right; now left).
  destruct (table_keys_bounded _ Hin) as [_ Hscore]. cbn [fst] in Hscore.
  pose proof (table_scores_at_most_07 _ Hin) as Hmax. cbn [fst] in Hmax.
  rewrite Hscore in H.
  compare_floats 0.3 (raw_score key); [|discriminate].
  injection H as <-. exists key, location_data.
  split; [exact Hin|]. split; [now apply score_above_03_long_key|].
  split; [exact Hocc|]. split; [reflexivity|]. cbn [confidence result]. now split.
Qed.

Lemma extract_location_cases text is_destination :
  (exists r, lookup_result (PyStr.lower text) = Some r /\
             extract_location text is_destination = r)
  \/ (confidence (extract_location text is_destination) = 0.6 /\
      method (extract_location text is_destination) = "contextual_pattern")
  \/ extract_location text is_destination = result "" 0 "none".
Proof.
  unfold extract_location, or_else_with, default.
  destruct (lookup_result (PyStr.lower text)) as [r|]; [left; now exists r|right].
  destruct (contextual _ _) as [r|] eqn:C; [left|right; reflexivity].
  split; [exact (contextual_confidence _ _ _ C)|].
  clear - C. revert C.
  generalize (if is_destination then dest_patterns else origin_patterns).
  intros pats. induction pats as [|p rest IH]; [discriminate|]. simpl.
  destruct (Re.search p (PyStr.lower text) Re.no_flags); [|exact IH].
  intros H. injection H as <-. reflexivity.
Qed.

(** X2: a result of the location resolver by "database_lookup" names an
    entry of the gazetteer whose key occurs in the lowered text and has at
    least seven characters, at a confidence above 0.3 and at most 0.7: the
    entries with shorter keys (madrid, bilbao, malaga, santos, rio, genova,
    miami) are never answered by the gazetteer step. *)
Theorem database_lookup_names_a_long_key
    (text : string) (is_destination : bool) :
  method (extract_location text is_destination) = "database_lookup" ->
  gazetteer_answer text (extract_location text is_destination).
Proof.
  intros Hm.
  destruct (extract_location_cases text is_destination)
    as [(r & Hl & ->)|[[_ Hc]|Hn]].
  - now apply lookup_result_answer.
  - rewrite Hc in Hm. discriminate.
  - rewrite Hn in Hm. discriminate.
Qed.

Lemma database_lookup_witness :
  gazetteer_answer "envio desde valencia a santos"
    (extract_location "envio desde valencia a santos" false).
Proof.
  apply database_lookup_names_a_long_key. vm_compute. reflexivity.
Defined.

(** A text that names only Madrid gets nothing from the gazetteer step. *)
Example madrid_is_not_answered :
  lookup_result (PyStr.lower "Envio a Madrid.") = None /\
  extract_location "Envio a Madrid." true
  = mkResult "Madrid" 0.6 "contextual_pattern" "a madrid.".
Proof. split; vm_compute; reflexivity. Qed.

Lemma extract_location_at_most_07 text is_destination :
  confidence (extract_location text is_destination) <= 0.7.
Proof.
  destruct (extract_location_cases text is_destination)
    as [(r & Hl & ->)|[[Hc _]|Hn]].
  - destruct (lookup_result_answer text r Hl) as (k & l & _ & _ & _ & _ & _ & H).
    exact H.
  - rewrite Hc. lra.
  - rewrite Hn. cbn [confidence result]. lra.
Qed.

(** X3: the location resolver never reports a confidence above 0.7, the
    level at which [_best_result] prefers the specialized value.  So whenever
    the LLM map has a non-empty origin (destination), that value is the origin
    (destination) [extract_all] returns, whatever the resolver found. *)
Theorem llm_location_always_wins
    (env : Env) (text : string) (r : Results.t) (llm : list (string * PyValue)) :
  extract_all env text = Returned r ->
  extract_with_openai env text = PyDict llm ->
  confidence (extract_location text false) <= 0.7 /\
  confidence (extract_location text true) <= 0.7 /\
  (truthy (get "origin" llm) = true -> Results.origin r = get "origin" llm) /\
  (truthy (get "destination" llm) = true ->
   Results.destination r = get "destination" llm).
Proof.
  intros H Hllm. apply extract_all_returned in H. destruct H as (llm' & Hllm' & ->).
  rewrite Hllm in Hllm'. injection Hllm' as <-.
  pose proof (extract_location_at_most_07 text false) as Ho.
  pose proof (extract_location_at_most_07 text true) as Hd.
  split; [exact Ho|]. split; [exact Hd|].
  cbn [Results.origin Results.destination]. unfold _best_result.
  apply ltb_ge in Ho, Hd. rewrite Ho, Hd.
  split; intros ->; reflexivity.
Qed.

Lemma llm_location_always_wins_witness :
  confidence (extract_location sample_text false) <= 0.7 /\
  confidence (extract_location sample_text true) <= 0.7 /\
  (truthy (get "origin" [("destination", PyStr "Santos, Brasil")]) = true ->
   Results.origin sample_results
   = get "origin" [("destination", PyStr "Santos, Brasil")]) /\
  (truthy (get "destination" [("destination", PyStr "Santos, Brasil")]) = true ->
   Results.destination sample_results
   = get "destination" [("destination", PyStr "Santos, Brasil")]).
Proof.
  apply (llm_location_always_wins answering_env); vm_compute; reflexivity.
Defined.

(** ** The contact handle and its threshold *)

Lemma first_contact_confident pats text :
  (forall pc, In pc pats -> 0.5 < snd pc) ->
  first_contact pats text = result "" 0 "none"
  \/ 0.5 < confidence (first_contact pats text).
Proof.
  induction pats as [|[pattern c] rest IH]; intros H; [now left|].
  simpl. destruct (Re.search pattern text Re.no_flags).
  - right. cbn [confidence result]. exact (H (pattern, c) (or_introl eq_refl)).
  - apply IH. intros pc Hpc. apply H. now right.
Qed.

(** X4: every contact pattern carries a confidence above 0.5, so the
    threshold [contact.confidence > 0.5] of [extract_all] never drops a
    handle: [contact_info] is the value of the contact extractor, the empty
    string exactly when no pattern matched. *)
Theorem contact_info_is_the_contact_value
    (env : Env) (text : string) (r : Results.t) :
  extract_all env text = Returned r ->
  Results.contact_info r = value (extract_contact text).
Proof.
  intros H. apply extract_all_returned in H. destruct H as (llm & _ & ->).
  cbn [Results.contact_info]. unfold extract_contact_info. cbn [snd].
  unfold extract_contact.
  destruct (first_contact_confident contact_patterns text) as [Hnone|Hconf].
  - unfold contact_patterns. cbn [In]. intros pc H.
    repeat (destruct H as [<-|H]; [cbn [snd]; lra|]). destruct H.
  - fold (extract_contact text). unfold extract_contact. rewrite Hnone.
    cbn [confidence value result]. destruct (PyFloat.ltb 0.5 0); reflexivity.
  - apply ltb_lt in Hconf. rewrite Hconf. reflexivity.
Qed.

Lemma contact_info_witness :
  Results.contact_info sample_results = value (extract_contact sample_text).
Proof.
  apply (contact_info_is_the_contact_value answering_env).
  vm_compute. reflexivity.
Defined.

(** ** When [extract_all] returns *)

(** X5: [extract_all] returns a dictionary exactly when what
    [extract_with_openai] gave is a mapping, and raises [AttributeError]
    otherwise; in particular it returns when there is no client, when the call
    raises and when the answer is not JSON. *)
Theorem extract_all_returns_iff_mapping (env : Env) (text : string) :
  (is_mapping (extract_with_openai env text) <->
   exists r, extract_all env text = Returned r) /\
  (~ is_mapping (extract_with_openai env text) <->
   extract_all env text = Raised "AttributeError") /\
  (openai_client env = None -> exists r, extract_all env text = Returned r).
Proof.
  assert (Hyes : forall llm, extract_with_openai env text = PyDict llm ->
                   exists r, extract_all env text = Returned r).
  { intros llm H. unfold extract_all. rewrite H.
    destruct (extract_contact_info env text) as [name contact].
    cbn [get_field bind]. eexists. reflexivity. }
  assert (Hno : ~ is_mapping (extract_with_openai env text) ->
                extract_all env text = Raised "AttributeError").
  { intros H. unfold extract_all.
    destruct (extract_contact_info env text) as [name contact].
    destruct (extract_with_openai env text) as [| | | | |llm];
      try reflexivity.
    exfalso. apply H. now exists llm. }
  split; [|split].
  - split.
    + intros [llm H]. now apply (Hyes llm).
    + intros [r H]. apply extract_all_returned in H.
      destruct H as (llm & H & _). now exists llm.
  - split; [exact Hno|].
    intros H [llm Hm]. destruct (Hyes llm Hm) as [r Hr]. congruence.
  - intros H. apply (Hyes []). unfold extract_with_openai. rewrite H. reflexivity.
Qed.

(** ** Confidence levels of the weight parser *)

Lemma fold_sum_shift {A} (f : A -> Q) (items : list A) (acc : Q) :
  fold_left (fun a x => a + f x) items acc == acc + sum_of f items.
Proof.
  unfold sum_of. revert acc. induction items as [|x rest IH]; intros acc; simpl.
  - ring.
  - rewrite (IH (acc + f x)), (IH (0 + f x)). ring.
Qed.

Lemma sum_of_cons {A} (f : A -> Q) (x : A) (rest : list A) :
  sum_of f (x :: rest) == f x + sum_of f rest.
Proof.
  unfold sum_of at 1. simpl. rewrite fold_sum_shift. ring.
Qed.

Lemma sum_of_constant {A} (f : A -> Q) (c : Q) (items : list A) :
  (forall x, In x items -> f x == c) ->
  sum_of f items == c * inject_Z (Z.of_nat (List.length items)).
Proof.
  induction items as [|x rest IH]; intros H.
  - unfold sum_of. simpl. ring.
  - rewrite sum_of_cons, IH by (intros y Hy; apply H; now right).
    rewrite (H x (or_introl eq_refl)).
    change (List.length (x :: rest)) with (S (List.length rest)).
    rewrite Nat2Z.inj_succ. unfold Z.succ. rewrite inject_Z_plus. ring.
Qed.

Lemma format_kg_not_empty x : format_kg x <> "".
Proof.
  unfold format_kg. destruct (PyNum.format_0f x); discriminate.
Qed.

(** The result of the reconciliation over candidates whose confidence is
    0.9 or 0.7: its method fixes its confidence, for "small_weights_sum" up to
    the rounding of the mean that the code takes in floating point. *)
Definition weight_outcome (r : ExtractionResult) : Prop :=
  value r <> "" /\
  ((method r = "explicit_total" /\ confidence r == 0.9)
   \/ (method r = "single_weight" /\ confidence r == 0.7)
   \/ (method r = "largest_weight" /\ confidence r == 0.8)
   \/ (method r = "small_weights_sum" /\
       0.69 <= confidence r /\ confidence r <= 0.71)).

Lemma reconcile_weights_outcome weights :
  weights <> [] ->
  (forall w, In w weights ->
     Weight.confidence w = 0.9 \/ Weight.confidence w = 0.7) ->
  weight_outcome (reconcile_weights weights).
Proof.
  intros Hne Hconf. unfold reconcile_weights, weight_outcome.
  destruct (max_by Weight.confidence _) as [best|] eqn:E.
  - cbn [value confidence method result]. split; [apply format_kg_not_empty|].
    left. split; [reflexivity|].
    apply max_by_in in E. apply filter_In in E. destruct E as [Hin Hge].
    apply leb_le in Hge.
    destruct (Hconf best Hin) as [->| H07]; [reflexivity|].
    rewrite H07 in Hge. exfalso. revert Hge. apply Qlt_not_le. reflexivity.
  - apply max_by_none in E.
    assert (H07 : forall w, In w weights -> Weight.confidence w = 0.7).
    { intros w Hw. destruct (Hconf w Hw) as [H09|H]; [|exact H].
      exfalso. assert (Hin : In w (filter (fun w => PyFloat.leb 0.9 (Weight.confidence w))
                                     weights)).
      { apply filter_In. split; [exact Hw|]. rewrite H09. reflexivity. }
      rewrite E in Hin. destruct Hin. }
    destruct weights as [|a [|b rest]]; [contradiction| |].
    + cbn [value confidence method result]. split; [apply format_kg_not_empty|].
      right. left. split; [reflexivity|]. rewrite (H07 a (or_introl eq_refl)).
      reflexivity.
    + destruct (max_by Weight.value_kg _) as [best|];
        cbn [value confidence method result];
        (split; [apply format_kg_not_empty|]).
      * right. right. left. split; reflexivity.
      * right. right. right. split; [reflexivity|].
        assert (Hmean : sum_of Weight.confidence (a :: b :: rest)
                        / inject_Z (Z.of_nat (List.length (a :: b :: rest))) == 0.7).
        { rewrite (sum_of_constant Weight.confidence 0.7)
            by (intros x Hx; rewrite (H07 x Hx); reflexivity).
          field. change (List.length (a :: b :: rest)) with (S (S (List.length rest))).
          intros Hz. rewrite !Nat2Z.inj_succ in Hz. unfold Z.succ in Hz.
          rewrite !inject_Z_plus in Hz.
          assert (0 <= inject_Z (Z.of_nat (List.length rest)))
            by (change 0 with (inject_Z 0); rewrite <- Zle_Qle; lia).
          assert (inject_Z 1 == 1) by reflexivity. lra. }
        rewrite Hmean. split; lra.
Qed.

Lemma collected_confidence_two_levels text_lower w :
  In w (collect_weights text_lower) ->
  Weight.confidence w = 0.9 \/ Weight.confidence w = 0.7.
Proof.
  intros H. rewrite (collected_confidence _ _ H). destruct (_ || _); [now left|now right].
Qed.

(** The weight parser answers nothing, or by one of its four methods. *)
Lemma weight_none_or_outcome (text : string) :
  extract_weight text = result "" 0 "none" \/ weight_outcome (extract_weight text).
Proof.
  unfold extract_weight.
  destruct (collect_weights (PyStr.lower text)) as [|w rest] eqn:E; [now left|].
  right. apply reconcile_weights_outcome; [discriminate|].
  intros x Hx. rewrite <- E in Hx. exact (collected_confidence_two_levels _ _ Hx).
Qed.

(** X6: the weight parser either finds no weight mention and answers with
    the empty value at confidence 0 (method "none"), or answers with a
    non-empty value whose confidence is fixed by the method: 0.9 for
    "explicit_total", 0.7 for "single_weight", 0.8 for "largest_weight", and
    between 0.69 and 0.71 for "small_weights_sum" (the mean it takes is over
    candidates that are all at 0.7; in the floating point of the code it can
    come out on either side of 0.7).  So for this strategy the value is empty
    exactly when the confidence is 0. *)
Theorem extract_weight_confidence_levels (text : string) :
  (collect_weights (PyStr.lower text) = [] /\
   extract_weight text = result "" 0 "none")
  \/ (collect_weights (PyStr.lower text) <> [] /\
      weight_outcome (extract_weight text)).
Proof.
  unfold extract_weight.
  destruct (collect_weights (PyStr.lower text)) as [|w rest] eqn:E; [now left|].
  right. split; [discriminate|]. apply reconcile_weights_outcome; [discriminate|].
  intros x Hx. rewrite <- E in Hx. exact (collected_confidence_two_levels _ _ Hx).
Qed.

(** ** Confidence levels of the commodity classifier *)

Lemma commodity_descriptions_not_empty c :
  In c _build_commodity_patterns -> description c <> "".
Proof.
  unfold _build_commodity_patterns. cbn [In]. intros H.
  repeat (destruct H as [<-|H]; [discriminate|]). destruct H.
Qed.

(** The three answers of the commodity classifier. *)
Lemma commodity_cases (text : string) :
  (exists commodity,
     In commodity _build_commodity_patterns /\
     extract_commodity text = result (description commodity) 0.8 "pattern_match")
  \/ extract_commodity text = result "Maquinaria/Equipos" 0.5 "keyword_fallback"
  \/ extract_commodity text = result "" 0 "none".
Proof.
  unfold extract_commodity.
  destruct (find _ _build_commodity_patterns) as [commodity|] eqn:E.
  - left. exists commodity. apply find_some in E. now split.
  - right. destruct (existsb _ _); [now left|now right].
Qed.

Lemma find_first {A} (p : A -> bool) (items : list A) (x : A) :
  find p items = Some x ->
  exists pre post, items = (pre ++ x :: post)%list /\ p x = true /\
    forall y, In y pre -> p y = false.
Proof.
  induction items as [|a rest IH]; [discriminate|]. simpl.
  destruct (p a) eqn:E.
  - intros H. injection H as <-. exists [], rest. repeat split; [exact E|].
    intros y [].
  - intros H. destruct (IH H) as (pre & post & -> & Hx & Hpre).
    exists (a :: pre), post. repeat split; [exact Hx|].
    intros y [<-|Hy]; [exact E|now apply Hpre].
Qed.

(** One of the patterns of the category is found in the lowered text. *)
Definition category_matches (text : string) (commodity : Commodity) : Prop :=
  exists pattern, In pattern (patterns commodity) /\
    Re.search pattern (PyStr.lower text) Re.no_flags <> None.

(** One of the three fallback keywords occurs in the lowered text. *)
Definition has_keyword (text : string) : Prop :=
  exists word, In word ["maquina"; "equipo"; "machinery"] /\
    PyStr.contains word (PyStr.lower text) = true.

Lemma commodity_matches_iff text commodity :
  commodity_matches (PyStr.lower text) commodity = true
  <-> category_matches text commodity.
Proof.
  unfold commodity_matches, category_matches. rewrite existsb_exists.
  split; intros (pattern & Hin & H); exists pattern; (split; [exact Hin|]).
  - destruct (Re.search pattern (PyStr.lower text) Re.no_flags); congruence.
  - destruct (Re.search pattern (PyStr.lower text) Re.no_flags); congruence.
Qed.

(** What the commodity classifier answers, and when. *)
Definition commodity_answer (text : string) (r : ExtractionResult) : Prop :=
  (exists pre commodity post,
     _build_commodity_patterns = (pre ++ commodity :: post)%list /\
     category_matches text commodity /\
     (forall c, In c pre -> ~ category_matches text c) /\
     r = result (description commodity) 0.8 "pattern_match")
  \/ ((forall c, In c _build_commodity_patterns -> ~ category_matches text c) /\
      has_keyword text /\
      r = result "Maquinaria/Equipos" 0.5 "keyword_fallback")
  \/ ((forall c, In c _build_commodity_patterns -> ~ category_matches text c) /\
      ~ has_keyword text /\
      r = result "" 0 "none").

(** X7: the commodity classifier answers with the description of the first
    category of its table one of whose patterns is found in the lowered text,
    at confidence 0.8; when no category has such a pattern, with
    "Maquinaria/Equipos" at 0.5 if the text has "maquina", "equipo" or
    "machinery", and with the empty value at 0 if it has none of them.  Its
    value is empty exactly when its confidence is 0. *)
Theorem extract_commodity_levels (text : string) :
  commodity_answer text (extract_commodity text)
  /\ (value (extract_commodity text) = "" <->
      confidence (extract_commodity text) == 0).
Proof.
  unfold extract_commodity, commodity_answer, has_keyword.
  destruct (find _ _build_commodity_patterns) as [commodity|] eqn:E.
  - split.
    + left. destruct (find_first _ _ _ E) as (pre & post & Htable & Hm & Hpre).
      exists pre, commodity, post. split; [exact Htable|].
      split; [now apply commodity_matches_iff|]. split; [|reflexivity].
      intros c Hc Hmatch. apply commodity_matches_iff in Hmatch.
      rewrite (Hpre c Hc) in Hmatch. discriminate.
    + cbn [value confidence result]. apply find_some in E. destruct E as [Hin _].
      split.
      * intros H. now apply commodity_descriptions_not_empty in Hin.
      * intros H. discriminate H.
  - assert (Hnone : forall c, In c _build_commodity_patterns ->
                      ~ category_matches text c).
    { intros c Hc Hmatch. apply commodity_matches_iff in Hmatch.
      rewrite (find_none _ _ E c Hc) in Hmatch. discriminate. }
    destruct (existsb _ _) eqn:K.
    + split.
      * right. left. split; [exact Hnone|]. split; [|reflexivity].
        apply existsb_exists in K. exact K.
      * cbn [value confidence result]. split; intros H; discriminate H.
    + split.
      * right. right. split; [exact Hnone|]. split; [|reflexivity].
        intros (word & Hin & Hocc).
        assert (T : existsb (fun word => PyStr.contains word (PyStr.lower text))
                      ["maquina"; "equipo"; "machinery"] = true)
          by (apply existsb_exists; now exists word).
        rewrite T in K. discriminate.
      * cbn [value confidence result]. split; reflexivity.
Qed.

(** A text of textiles, a text of a machine and a text of neither. *)
Example commodity_answers :
  extract_commodity "envio de ropa y maquina" = result "Textiles" 0.8 "pattern_match" /\
  extract_commodity "envio de una maquina" = result "Maquinaria/Equipos" 0.5 "keyword_fallback" /\
  extract_commodity "envio de vino" = result "" 0 "none".
Proof. repeat split; vm_compute; reflexivity. Qed.

(** ** The urgency classifier *)

Lemma urgency_indicator_levels ic :
  In ic urgent_indicators -> 0.7 <= snd ic /\ snd ic <= 0.95.
Proof.
  unfold urgent_indicators. cbn [In]. intros H.
  repeat (destruct H as [<-|H]; [cbn [snd]; split; lra|]). destruct H.
Qed.

(** The two answers of the urgency classifier. *)
Lemma urgency_cases (text : string) :
  (exists c, 0.7 <= c /\ c <= 0.95 /\
     extract_urgency text = result "urgent" c "keyword_match")
  \/ extract_urgency text = result "normal" 0.8 "default".
Proof.
  unfold extract_urgency.
  destruct (find _ urgent_indicators) as [[indicator c]|] eqn:E; [left|now right].
  apply find_some in E. destruct E as [Hin _].
  apply urgency_indicator_levels in Hin. cbn [snd] in Hin.
  exists c. now repeat split.
Qed.

(** X8: the urgency classifier always answers: with "urgent", at the
    confidence of the first indicator of its table that occurs in the lowered
    text, or with "normal" at 0.8 when none occurs.  Its confidence is never
    below 0.7 nor above 0.95, and its value is never empty. *)
Theorem extract_urgency_levels (text : string) :
  ((exists indicator c,
      find (fun ic => PyStr.contains (fst ic) (PyStr.lower text)) urgent_indicators
        = Some (indicator, c) /\
      extract_urgency text = result "urgent" c "keyword_match")
   \/ ((forall ic, In ic urgent_indicators ->
          PyStr.contains (fst ic) (PyStr.lower text) = false) /\
       extract_urgency text = result "normal" 0.8 "default"))
  /\ 0.7 <= confidence (extract_urgency text)
  /\ confidence (extract_urgency text) <= 0.95
  /\ value (extract_urgency text) <> "".
Proof.
  unfold extract_urgency.
  destruct (find _ urgent_indicators) as [[indicator c]|] eqn:E.
  - split; [left; now exists indicator, c|].
    apply find_some in E. destruct E as [Hin _].
    apply urgency_indicator_levels in Hin. cbn [snd] in Hin.
    cbn [value confidence result]. split; [apply Hin|]. split; [apply Hin|discriminate].
  - split.
    + right. split; [|reflexivity]. intros ic Hic.
      exact (find_none _ _ E ic Hic).
    + cbn [value confidence result]. split; [lra|]. split; [lra|discriminate].
Qed.

(** ** Which source a field comes from, by the strategy that answered *)

Lemma best_result_above specialized llm_value :
  0.7 < confidence specialized ->
  _best_result llm_value specialized = PyStr (value specialized).
Proof.
  intros H. unfold _best_result. apply ltb_lt in H. rewrite H. reflexivity.
Qed.

Lemma best_result_llm specialized llm_value :
  confidence specialized <= 0.7 -> truthy llm_value = true ->
  _best_result llm_value specialized = llm_value.
Proof.
  intros H T. unfold _best_result. apply ltb_ge in H. rewrite H, T. reflexivity.
Qed.

Lemma weight_method_confidence text :
  ((method (extract_weight text) = "explicit_total"
    \/ method (extract_weight text) = "largest_weight") ->
   0.7 < confidence (extract_weight text)) /\
  ((method (extract_weight text) = "single_weight"
    \/ method (extract_weight text) = "none") ->
   confidence (extract_weight text) <= 0.7).
Proof.
  generalize (weight_none_or_outcome text).
  generalize (extract_weight text). intros r [->|[_ H]].
  - cbn [method confidence result]. split.
    + intros [H|H]; discriminate H.
    + intros _. lra.
  - destruct H as [[Hm Hc]|[[Hm Hc]|[[Hm Hc]|[Hm Hc]]]]; rewrite Hm; split;
      intros [H|H]; try discriminate H; try rewrite Hc; lra.
Qed.

(** The fields of [r] that the strategy alone decides, and those a non-empty
    LLM value replaces. *)
Definition arbitrated_by_method (text : string) (llm : list (string * PyValue))
    (r : Results.t) : Prop :=
  (method (extract_commodity text) = "pattern_match" ->
   Results.commodity r = PyStr (value (extract_commodity text))) /\
  (method (extract_commodity text) <> "pattern_match" ->
   truthy (get "commodity" llm) = true ->
   Results.commodity r = get "commodity" llm) /\
  ((method (extract_weight text) = "explicit_total"
    \/ method (extract_weight text) = "largest_weight") ->
   Results.weight r = PyStr (value (extract_weight text))) /\
  ((method (extract_weight text) = "single_weight"
    \/ method (extract_weight text) = "none") ->
   truthy (get "weight" llm) = true ->
   Results.weight r = get "weight" llm) /\
  (method (extract_weight text) = "small_weights_sum" ->
   truthy (get "weight" llm) = true ->
   Results.weight r = get "weight" llm
   \/ Results.weight r = PyStr (value (extract_weight text))) /\
  (method (extract_urgency text) = "default" ->
   Results.urgency r = PyStr "normal").

(** X9: in the dictionary [extract_all] returns, a commodity found by
    "pattern_match" and a weight found by "explicit_total" or "largest_weight"
    are kept whatever the LLM answered, while a commodity found by the keyword
    fallback or not at all, and a weight found by "single_weight" or not at
    all, give way to a non-empty LLM value.  For a weight found by
    "small_weights_sum" it is the one or the other: its confidence is a mean
    that the floating point of the code rounds to either side of 0.7.  When the
    text has no urgency keyword the urgency is "normal", whatever the LLM
    answered. *)
Theorem fields_arbitrated_by_method
    (env : Env) (text : string) (r : Results.t) (llm : list (string * PyValue)) :
  extract_all env text = Returned r ->
  extract_with_openai env text = PyDict llm ->
  arbitrated_by_method text llm r.
Proof.
  intros H Hllm. apply extract_all_returned in H. destruct H as (llm' & Hllm' & ->).
  rewrite Hllm in Hllm'. injection Hllm' as <-.
  unfold arbitrated_by_method.
  cbn [Results.commodity Results.weight Results.urgency].
  destruct (weight_method_confidence text) as [Hw1 Hw2].
  pose proof (commodity_cases text) as Hc.
  pose proof (urgency_cases text) as Hu.
  split; [|split; [|split; [|split; [|split]]]].
  - intros Hm. apply best_result_above.
    destruct Hc as [(c & _ & Hr)|[Hr|Hr]]; rewrite Hr in *;
      cbn [confidence method result] in *; try discriminate Hm. lra.
  - intros Hm T. apply best_result_llm; [|exact T].
    destruct Hc as [(c & _ & Hr)|[Hr|Hr]]; rewrite Hr in *;
      cbn [confidence method result] in *; try lra.
    now contradiction Hm.
  - intros Hm. apply best_result_above. now apply Hw1.
  - intros Hm T. apply best_result_llm; [|exact T]. now apply Hw2.
  - intros _ T. unfold _best_result. rewrite T.
    destruct (PyFloat.ltb 0.7 _); [now right|now left].
  - intros Hm. destruct Hu as [(c & _ & _ & Hr)|Hr]; rewrite Hr in *.
    + discriminate Hm.
    + apply best_result_above. cbn [confidence result]. lra.
Qed.

(** An LLM that answers with a weight, a commodity and an urgency. *)
Definition overriding_map : list (string * PyValue) :=
  [("weight", PyStr "900kg"); ("commodity", PyStr "repuestos");
   ("urgency", PyStr "urgent")].
Definition overriding_env : Env :=
  mkEnv (Some (fun _ => Content "{}")) None (fun _ => Some (PyDict overriding_map)).
Definition plain_text : string := "envio de maquina 890kg desde barcelona".
Definition plain_results : Results.t :=
  Eval vm_compute in
    match extract_all overriding_env plain_text with
    | Returned r => r
    | Raised _ => Results.make PyNone PyNone PyNone PyNone PyNone PyNone "" 0
    end.

Lemma fields_arbitrated_witness :
  arbitrated_by_method plain_text overriding_map plain_results.
Proof.
  apply (fields_arbitrated_by_method overriding_env); vm_compute; reflexivity.
Defined.

(** On that text the single weight and the keyword commodity give way to
    the LLM, and its "urgent" is ignored. *)
Example plain_results_fields :
  Results.weight plain_results = PyStr "900kg" /\
  Results.commodity plain_results = PyStr "repuestos" /\
  Results.urgency plain_results = PyStr "normal".
Proof. repeat split. Qed.

(** ** The empty text *)

Lemma extract_name_empty_text env :
  extract_name env "" = Some (NameResult.make "" 0 "no_zones").
Proof.
  unfold extract_name.
  assert (E : detect_name_zones "" = []) by (vm_compute; reflexivity).
  rewrite E. reflexivity.
Qed.

Lemma extract_contact_info_empty_text env :
  extract_contact_info env ""
  = (result "" 0 "no_name_found", result "" 0 "none").
Proof.
  unfold extract_contact_info, _extract_name_hybrid.
  rewrite extract_name_empty_text. cbn [NameResult.name String.eqb negb value result].
  assert (E1 : _extract_name_fallback "" = result "" 0 "no_name_found")
    by (vm_compute; reflexivity).
  assert (E2 : extract_contact "" = result "" 0 "none") by (vm_compute; reflexivity).
  rewrite E1, E2. reflexivity.
Qed.

(** A field for which no strategy answered: the LLM's value when it is
    non-empty, the empty string otherwise. *)
Definition llm_or_empty (llm_value : PyValue) : PyValue :=
  if truthy llm_value then llm_value else PyStr "".

(** X10: on the empty text no strategy answers, so when [extract_all]
    returns, the origin, destination, commodity, weight and contact name are
    the LLM's values where it gave non-empty ones and empty otherwise, the
    urgency is "normal" whatever the LLM gave, and the contact handle is empty
    and the aggregate confidence 0. *)
Theorem extract_all_on_empty_text
    (env : Env) (r : Results.t) (llm : list (string * PyValue)) :
  extract_all env "" = Returned r ->
  extract_with_openai env "" = PyDict llm ->
  r = Results.make (llm_or_empty (get "origin" llm))
        (llm_or_empty (get "destination" llm))
        (llm_or_empty (get "commodity" llm))
        (llm_or_empty (get "weight" llm))
        (PyStr "normal")
        (llm_or_empty (get "contact_name" llm))
        "" 0.
Proof.
  intros H Hllm. apply extract_all_returned in H. destruct H as (llm' & Hllm' & ->).
  rewrite Hllm in Hllm'. injection Hllm' as <-.
  rewrite extract_contact_info_empty_text. cbn [fst snd].
  assert (E1 : extract_location "" false = result "" 0 "none") by (vm_compute; reflexivity).
  assert (E2 : extract_location "" true = result "" 0 "none") by (vm_compute; reflexivity).
  assert (E3 : extract_commodity "" = result "" 0 "none") by (vm_compute; reflexivity).
  assert (E4 : extract_weight "" = result "" 0 "none") by (vm_compute; reflexivity).
  assert (E5 : extract_urgency "" = result "normal" 0.8 "default")
    by (vm_compute; reflexivity).
  rewrite E1, E2, E3, E4, E5.
  assert (B : forall v m, _best_result v (result "" 0 m) = llm_or_empty v).
  { intros v m. unfold _best_result, llm_or_empty. cbn [confidence value result].
    destruct (truthy v); reflexivity. }
  rewrite !B. reflexivity.
Qed.

Lemma extract_all_on_empty_text_witness :
  match extract_all overriding_env "" with
  | Returned r =>
      r = Results.make (PyStr "") (PyStr "") (PyStr "repuestos") (PyStr "900kg")
            (PyStr "normal") (PyStr "") "" 0
  | Raised _ => False
  end.
Proof.
  destruct (extract_all overriding_env "") as [r|e] eqn:E.
  - rewrite (extract_all_on_empty_text overriding_env r overriding_map E);
      [reflexivity|vm_compute; reflexivity].
  - vm_compute in E. discriminate E.
Defined.

(** ** Zone detection *)

(** [a] may stand before [b] in the sorted list: its key
    [(confidence, start)] is not the smaller one. *)
Definition zone_before (a b : Zone.t) : Prop := zone_key_lt a b = false.

Lemma zone_key_lt_asym a b : zone_key_lt a b = true -> zone_key_lt b a = false.
Proof.
  unfold zone_key_lt. intros H.
  apply orb_true_iff in H. apply orb_false_iff.
  destruct H as [H|H].
  - apply ltb_lt in H. split.
    + apply ltb_ge. lra.
    + apply andb_false_iff. left.
      destruct (Qeq_bool (Zone.confidence b) (Zone.confidence a)) eqn:E; [|reflexivity].
      apply Qeq_bool_iff in E. lra.
  - apply andb_true_iff in H. destruct H as [He Hs].
    apply Qeq_bool_iff in He. apply Nat.ltb_lt in Hs. split.
    + apply ltb_ge. lra.
    + apply andb_false_iff. right. apply Nat.ltb_ge. lia.
Qed.

Lemma zone_key_lt_trans_false a b c :
  zone_key_lt a b = false -> zone_key_lt b c = false -> zone_key_lt a c = false.
Proof.
  unfold zone_key_lt. intros H1 H2.
  apply orb_false_iff in H1, H2. destruct H1 as [L1 E1], H2 as [L2 E2].
  apply ltb_ge in L1, L2. apply orb_false_iff. split.
  - apply ltb_ge. lra.
  - apply andb_false_iff.
    destruct (Qeq_bool (Zone.confidence a) (Zone.confidence c)) eqn:E; [right|now left].
    apply Qeq_bool_iff in E.
    assert (Eab : Qeq_bool (Zone.confidence a) (Zone.confidence b) = true)
      by (apply Qeq_bool_iff; lra).
    assert (Ebc : Qeq_bool (Zone.confidence b) (Zone.confidence c) = true)
      by (apply Qeq_bool_iff; lra).
    rewrite Eab in E1. rewrite Ebc in E2. cbn [andb] in E1, E2.
    apply Nat.ltb_ge in E1, E2. apply Nat.ltb_ge. lia.
Qed.

Lemma insert_zone_permutation z sorted :
  Permutation (z :: sorted) (insert_zone z sorted).
Proof.
  induction sorted as [|y rest IH]; [apply Permutation_refl|].
  simpl. destruct (zone_key_lt z y).
  - apply perm_trans with (y :: z :: rest); [apply perm_swap|].
    apply perm_skip. exact IH.
  - apply Permutation_refl.
Qed.

Lemma insert_zone_sorted z sorted :
  StronglySorted zone_before sorted ->
  StronglySorted zone_before (insert_zone z sorted).
Proof.
  induction 1 as [|y rest Hrest IH Hall]; [repeat constructor|].
  simpl. destruct (zone_key_lt z y) eqn:E.
  - constructor; [exact IH|].
    apply Forall_forall. intros x Hx.
    apply (Permutation_in _ (Permutation_sym (insert_zone_permutation z rest))) in Hx.
    destruct Hx as [<-|Hx].
    + now apply zone_key_lt_asym.
    + rewrite Forall_forall in Hall. now apply Hall.
  - constructor; [now constructor|].
    constructor; [exact E|].
    apply Forall_forall. intros x Hx. rewrite Forall_forall in Hall.
    exact (zone_key_lt_trans_false z y x E (Hall x Hx)).
Qed.

Lemma sort_zones_sorted zones : StronglySorted zone_before (sort_zones zones).
Proof.
  induction zones as [|z rest IH]; [constructor|]. now apply insert_zone_sorted.
Qed.

Lemma sort_zones_permutation zones : Permutation zones (sort_zones zones).
Proof.
  induction zones as [|z rest IH]; [constructor|].
  apply perm_trans with (z :: sort_zones rest); [now apply perm_skip|].
  apply insert_zone_permutation.
Qed.

(** X11: [detect_name_zones] returns the zones its patterns find, none
    lost, added or merged, ordered so that no zone stands before a zone of
    greater confidence, nor before a zone of the same confidence that starts
    further on in the text. *)
Theorem detect_name_zones_sorted_permutation (text : string) :
  Permutation (flat_map (zones_of_pattern text) zone_patterns)
              (detect_name_zones text) /\
  StronglySorted zone_before (detect_name_zones text).
Proof.
  split; [apply sort_zones_permutation|apply sort_zones_sorted].
Qed.

(** ** Confidence of the names *)

Lemma zone_pattern_levels pattern_info :
  In pattern_info zone_patterns -> 0.6 <= snd pattern_info /\ snd pattern_info <= 0.9.
Proof.
  unfold zone_patterns. cbn [In]. intros H.
  repeat (destruct H as [<-|H]; [cbn [snd]; split; lra|]). destruct H.
Qed.

Lemma name_pattern_levels pc :
  In pc name_patterns -> 0.5 <= snd pc /\ snd pc <= 0.9.
Proof.
  unfold name_patterns. cbn [In]. intros H.
  repeat (destruct H as [<-|H]; [cbn [snd]; split; lra|]). destruct H.
Qed.

(** A detected zone has more than three characters of text and the
    confidence of its pattern. *)
Lemma detected_zone_levels text z :
  In z (detect_name_zones text) ->
  (3 < String.length (Zone.text z))%nat /\
  0.6 <= Zone.confidence z /\ Zone.confidence z <= 0.9.
Proof.
  intros H.
  apply (Permutation_in _ (Permutation_sym (sort_zones_permutation _))) in H.
  apply in_flat_map in H. destruct H as ([[pattern type] c] & Hin & H).
  apply zone_pattern_levels in Hin. cbn [snd] in Hin.
  unfold zones_of_pattern in H. apply in_flat_map in H. destruct H as (mt & _ & H).
  destruct (negb _ && (3 <? _)%nat) eqn:E; [|destruct H].
  destruct H as [<-|[]]. cbn [Zone.text Zone.confidence].
  apply andb_true_iff in E. destruct E as [_ E]. apply Nat.ltb_lt in E.
  split; [exact E|exact Hin].
Qed.

Definition candidate_in_range (c : NameCandidate.t) : Prop :=
  0.3 <= NameCandidate.confidence c /\ NameCandidate.confidence c <= 0.81.

Lemma product_in_range a b :
  0.6 <= a -> a <= 0.9 -> 0.5 <= b -> b <= 0.9 -> 0.3 <= a * b /\ a * b <= 0.81.
Proof. intros. split; nra. Qed.

Lemma regex_candidates_range zone pc c :
  0.6 <= Zone.confidence zone -> Zone.confidence zone <= 0.9 ->
  In pc name_patterns -> In c (regex_candidates zone pc) -> candidate_in_range c.
Proof.
  intros Hz1 Hz2 Hpc H. apply name_pattern_levels in Hpc.
  destruct pc as [pattern pconf]. cbn [snd] in Hpc.
  unfold regex_candidates in H. apply in_flat_map in H. destruct H as (mt & _ & H).
  destruct (_is_valid_name_candidate _); [|destruct H].
  destruct H as [<-|[]]. unfold candidate_in_range. cbn [NameCandidate.confidence].
  apply product_in_range; tauto.
Qed.

Lemma ner_candidates_range zone ents c :
  0.6 <= Zone.confidence zone -> Zone.confidence zone <= 0.9 ->
  In c (ner_candidates zone ents) -> candidate_in_range c.
Proof.
  intros Hz1 Hz2 H. unfold ner_candidates in H.
  apply in_flat_map in H. destruct H as (ent & _ & H).
  destruct (_ || _); [|destruct H].
  destruct (_is_valid_name_candidate _); [|destruct H].
  destruct H as [<-|[]]. unfold candidate_in_range. cbn [NameCandidate.confidence].
  apply product_in_range; lra.
Qed.

Lemma ner_loop_range recognise zones candidates :
  (forall z, In z zones -> 0.6 <= Zone.confidence z /\ Zone.confidence z <= 0.9) ->
  ner_loop recognise zones = Some candidates ->
  forall c, In c candidates -> candidate_in_range c.
Proof.
  revert candidates. induction zones as [|zone rest IH]; intros candidates Hz H.
  - injection H as <-. intros c [].
  - simpl in H. destruct (recognise (Zone.text zone)) as [ents|]; [|discriminate].
    destruct (ner_loop recognise rest) as [more|]; [|discriminate].
    injection H as <-. intros c Hc. apply in_app_or in Hc. destruct Hc as [Hc|Hc].
    + destruct (Hz zone (or_introl eq_refl)). now apply (ner_candidates_range zone ents).
    + apply (IH more); [|reflexivity|exact Hc]. intros z Hin. apply Hz. now right.
Qed.

Lemma extract_ner_candidates_range env zones candidates :
  (forall z, In z zones -> 0.6 <= Zone.confidence z /\ Zone.confidence z <= 0.9) ->
  extract_ner_candidates env zones = Some candidates ->
  forall c, In c candidates -> candidate_in_range c.
Proof.
  unfold extract_ner_candidates. intros Hz. destruct (nlp env) as [recognise|].
  - now apply ner_loop_range.
  - intros H. injection H as <-. intros c Hc.
    unfold extract_regex_fallback_candidates in Hc.
    apply in_flat_map in Hc. destruct Hc as (zone & Hzone & Hc).
    apply in_flat_map in Hc. destruct Hc as (pc & Hpc & Hc).
    destruct (Hz zone Hzone). now apply (regex_candidates_range zone pc).
Qed.

(** The confidence [extract_name] reports with a name. *)
Definition name_confidence_in_range (r : NameResult.t) : Prop :=
  (NameResult.name r = "" <-> NameResult.confidence r == 0) /\
  (NameResult.name r <> "" ->
   0.3 < NameResult.confidence r /\ NameResult.confidence r < 0.9 /\
   _is_valid_name_candidate (NameResult.name r) = true).

Lemma extract_name_empty env text r :
  extract_name env text = Some r -> NameResult.name r = "" ->
  NameResult.confidence r = 0.
Proof.
  unfold extract_name. intros H Hname.
  destruct (detect_name_zones text) as [|z zones]; [injection H as <-; reflexivity|].
  destruct (extract_ner_candidates env (z :: zones)) as [[|c candidates]|];
    [injection H as <-; reflexivity| |discriminate].
  destruct (llm_validate_candidates env (c :: candidates)) as [final_name|];
    [|destruct (max_by NameCandidate.confidence (c :: candidates));
      injection H as <-; reflexivity].
  destruct (max_by NameCandidate.confidence (c :: candidates)) as [best|];
    [|injection H as <-; reflexivity].
  destruct (negb (final_name =? "")%string) eqn:E; [|injection H as <-; reflexivity].
  injection H as <-. cbn [NameResult.name] in Hname. subst final_name. discriminate E.
Qed.

(** A name of the pipeline passed the validator and has its confidence
    between those of the weakest and the strongest candidate with the bonus,
    with room for the rounding of the products. *)
Lemma extract_name_named (env : Env) (text : string) (r : NameResult.t) :
  extract_name env text = Some r -> NameResult.name r <> "" ->
  0.3 < NameResult.confidence r /\ NameResult.confidence r < 0.9 /\
  _is_valid_name_candidate (NameResult.name r) = true.
Proof.
  intros H Hname.
  destruct (extract_name_produced env text r H Hname)
    as (candidates & best & Hc & Hmax & Hfinal & Hconf & _).
  assert (Hrange : candidate_in_range best).
  { apply (extract_ner_candidates_range env (detect_name_zones text) candidates).
    - intros z Hz. now apply (detected_zone_levels text).
    - exact Hc.
    - exact (max_by_in _ _ _ Hmax). }
  destruct Hrange as [Hlo Hhi]. rewrite Hconf. unfold PyFloat.min.
  split; [|split].
  - compare_floats 1 (NameCandidate.confidence best * 1.1); lra.
  - compare_floats 1 (NameCandidate.confidence best * 1.1); lra.
  - apply (llm_validate_candidates_valid env candidates); [|exact Hfinal].
    exact (extract_ner_candidates_valid _ _ _ Hc).
Qed.

(** X12: [extract_name] reports confidence 0 exactly when it gives no name;
    a name it gives passed [_is_valid_name_candidate] and comes with a
    confidence above 0.3 and below 0.9 (the least is about 0.6 * 0.5 * 1.1 and
    the greatest about 0.9 * 0.9 * 1.1), so the cap of [min(..., 1.0)] is never
    reached. *)
Theorem extract_name_confidence_range
    (env : Env) (text : string) (r : NameResult.t) :
  extract_name env text = Some r -> name_confidence_in_range r.
Proof.
  intros H. unfold name_confidence_in_range.
  split; [|now apply (extract_name_named env text)]. split.
  - intros Hname. rewrite (extract_name_empty env text r H Hname). reflexivity.
  - intros Hzero. destruct (string_dec (NameResult.name r) "") as [E|E]; [exact E|].
    destruct (extract_name_named env text r H E) as [Hlo _]. lra.
Qed.

Lemma extract_name_confidence_witness : name_confidence_in_range selected_name.
Proof.
  apply (extract_name_confidence_range choosing_env two_names_text).
  vm_compute. reflexivity.
Defined.

(** ** When a field of the output is empty *)

(** A strategy result that arbitration cannot lose: a value it has comes
    with a confidence above 0.3, and an empty value with one of at most
    0.7. *)
Definition keeps_what_it_found (r : ExtractionResult) : Prop :=
  (value r <> "" -> 0.3 < confidence r) /\ (value r = "" -> confidence r <= 0.7).

(** [field] has a value exactly when the strategy or the LLM had one. *)
Definition found_or_answered (specialized : ExtractionResult)
    (llm_value field : PyValue) : Prop :=
  truthy field = negb (value specialized =? "")%string || truthy llm_value.

Lemma best_result_found_or_answered specialized llm_value :
  keeps_what_it_found specialized ->
  found_or_answered specialized llm_value (_best_result llm_value specialized).
Proof.
  intros [Hfound Hempty]. unfold found_or_answered, _best_result.
  destruct (string_dec (value specialized) "") as [E|E].
  - specialize (Hempty E). apply ltb_ge in Hempty. rewrite Hempty, E.
    cbn [String.eqb negb orb]. destruct (truthy llm_value) eqn:T; [exact T|].
    destruct (PyFloat.ltb 0.3 _); reflexivity.
  - specialize (Hfound E). apply ltb_lt in Hfound. rewrite Hfound.
    apply String.eqb_neq in E.
    destruct (PyFloat.ltb 0.7 _); cbn [truthy]; rewrite E; cbn [negb orb];
      [reflexivity|].
    destruct (truthy llm_value) eqn:T; [exact T|]. cbn [truthy]. rewrite E. reflexivity.
Qed.

Lemma contextual_method pats text_lower r :
  contextual pats text_lower = Some r -> method r = "contextual_pattern".
Proof.
  induction pats as [|p rest IH]; [discriminate|]. simpl.
  destruct (Re.search p text_lower Re.no_flags); [|exact IH].
  intros H. injection H as <-. reflexivity.
Qed.

Lemma location_keeps text is_destination :
  keeps_what_it_found (extract_location text is_destination).
Proof.
  destruct (extract_location_cases text is_destination)
    as [(r & Hl & ->)|[[Hc _]|Hn]].
  - destruct (lookup_result_answer text r Hl) as (k & l & _ & _ & _ & _ & H1 & H2).
    split; intros _; [exact H1|exact H2].
  - unfold keeps_what_it_found. rewrite Hc. split; intros _; lra.
  - unfold keeps_what_it_found. rewrite Hn. cbn [value confidence result]. split; [congruence|intros _; lra].
Qed.

Lemma commodity_keeps text : keeps_what_it_found (extract_commodity text).
Proof.
  unfold keeps_what_it_found.
  destruct (commodity_cases text) as [(c & Hin & ->)|[->| ->]];
    cbn [value confidence result]; split; intros H; try lra; try congruence.
  now apply commodity_descriptions_not_empty in Hin.
Qed.

Lemma weight_keeps text : keeps_what_it_found (extract_weight text).
Proof.
  unfold keeps_what_it_found.
  destruct (weight_none_or_outcome text) as [->|[Hv H]].
  - cbn [value confidence result]. split; [congruence|intros _; lra].
  - split; [intros _|intros E; now contradiction Hv].
    destruct H as [[_ Hc]|[[_ Hc]|[[_ Hc]|[_ [Hlo Hhi]]]]];
      [rewrite Hc; lra ..|lra].
Qed.

Lemma fallback_pattern_levels pc :
  In pc fallback_name_patterns -> 0.5 <= snd pc /\ snd pc <= 0.9.
Proof.
  unfold fallback_name_patterns. cbn [In]. intros H.
  repeat (destruct H as [<-|H]; [cbn [snd]; split; lra|]). destruct H.
Qed.

(** What [_extract_name_fallback] answers: nothing, or a cleaned name at
    the confidence of the pattern that found it. *)
Lemma fallback_loop_levels pats text :
  (forall pc, In pc pats -> 0.5 <= snd pc /\ snd pc <= 0.9) ->
  fallback_loop pats text = result "" 0 "no_name_found"
  \/ (value (fallback_loop pats text) <> "" /\
      method (fallback_loop pats text) = "fallback_regex" /\
      0.5 <= confidence (fallback_loop pats text) /\
      confidence (fallback_loop pats text) <= 0.9).
Proof.
  induction pats as [|[pattern c] rest IH]; intros H; [now left|].
  assert (Hrest : forall pc, In pc rest -> 0.5 <= snd pc /\ snd pc <= 0.9)
    by (intros pc Hpc; apply H; now right).
  simpl. destruct (Re.search pattern text Re.IGNORECASE_MULTILINE) as [mt|];
    [|now apply IH].
  destruct (negb (_ =? "")%string) eqn:E; [|now apply IH].
  right. cbn [value confidence method result].
  apply negb_true_iff, String.eqb_neq in E.
  split; [exact E|]. split; [reflexivity|].
  exact (H (pattern, c) (or_introl eq_refl)).
Qed.

(** What [_extract_name_hybrid] answers. *)
Lemma hybrid_levels env text :
  (value (_extract_name_hybrid env text) = "" /\
   confidence (_extract_name_hybrid env text) = 0)
  \/ (value (_extract_name_hybrid env text) <> "" /\
      0.3 < confidence (_extract_name_hybrid env text) /\
      confidence (_extract_name_hybrid env text) < 0.9).
Proof.
  unfold _extract_name_hybrid.
  destruct (extract_name env text) as [r|] eqn:E; [|now left].
  destruct (negb (NameResult.name r =? "")%string) eqn:N; [|now left].
  right. cbn [value confidence result].
  apply negb_true_iff, String.eqb_neq in N.
  destruct (extract_name_named env text r E N) as (Hlo & Hhi & _). now repeat split.
Qed.

Lemma contact_name_keeps env text :
  keeps_what_it_found (fst (extract_contact_info env text)).
Proof.
  unfold keeps_what_it_found, extract_contact_info. cbn [fst].
  destruct (value (_extract_name_hybrid env text) =? "")%string eqn:E.
  - destruct (fallback_loop_levels fallback_name_patterns text fallback_pattern_levels)
      as [Hr|(Hv & _ & Hlo & _)]; unfold _extract_name_fallback.
    + rewrite Hr. cbn [value confidence result]. split; [congruence|intros _; lra].
    + split; [intros _; lra|intros H; now contradiction Hv].
  - apply String.eqb_neq in E.
    destruct (hybrid_levels env text) as [[Hv _]|(_ & Hlo & _)];
      [now contradiction E|].
    split; [intros _; lra|intros H; now contradiction E].
Qed.

(** The five arbitrated fields of [r] with a value exactly where the
    strategy or the LLM had one. *)
Definition nothing_found_is_dropped (env : Env) (text : string)
    (llm : list (string * PyValue)) (r : Results.t) : Prop :=
  found_or_answered (extract_location text false) (get "origin" llm)
    (Results.origin r) /\
  found_or_answered (extract_location text true) (get "destination" llm)
    (Results.destination r) /\
  found_or_answered (extract_commodity text) (get "commodity" llm)
    (Results.commodity r) /\
  found_or_answered (extract_weight text) (get "weight" llm) (Results.weight r) /\
  found_or_answered (fst (extract_contact_info env text)) (get "contact_name" llm)
    (Results.contact_name r) /\
  truthy (Results.urgency r) = true.

(** X13: in the dictionary [extract_all] returns, the origin, destination,
    commodity, weight and contact name each have a value exactly when the
    specialized strategy found a value or the LLM map has a non-empty one
    under the key: no value a strategy found is ever dropped for lack of
    confidence (every strategy reports what it finds above 0.3), and a field
    is empty only when both sources had nothing.  The urgency always has a
    value. *)
Theorem found_fields_are_never_dropped
    (env : Env) (text : string) (r : Results.t) (llm : list (string * PyValue)) :
  extract_all env text = Returned r ->
  extract_with_openai env text = PyDict llm ->
  nothing_found_is_dropped env text llm r.
Proof.
  intros H Hllm. apply extract_all_returned in H. destruct H as (llm' & Hllm' & ->).
  rewrite Hllm in Hllm'. injection Hllm' as <-.
  unfold nothing_found_is_dropped.
  cbn [Results.origin Results.destination Results.commodity Results.weight
       Results.contact_name Results.urgency].
  repeat split; try apply best_result_found_or_answered.
  - apply location_keeps.
  - apply location_keeps.
  - apply commodity_keeps.
  - apply weight_keeps.
  - apply contact_name_keeps.
  - assert (Hu : 0.3 < confidence (extract_urgency text)
                 /\ value (extract_urgency text) <> "").
    { destruct (urgency_cases text) as [(c & Hlo & _ & ->)| ->];
        cbn [confidence value result]; split; try lra; discriminate. }
    destruct Hu as [Hlo Hv]. unfold _best_result.
    destruct (PyFloat.ltb 0.7 _); [now apply truthy_string|].
    destruct (truthy (get "urgency" llm)) eqn:T; [exact T|].
    apply ltb_lt in Hlo. rewrite Hlo. now apply truthy_string.
Qed.

Lemma found_fields_witness :
  nothing_found_is_dropped overriding_env plain_text overriding_map plain_results.
Proof.
  apply found_fields_are_never_dropped; vm_compute; reflexivity.
Defined.

(** ** Origin and destination from the gazetteer *)

(** X15: the gazetteer step of [extract_location] does not look at
    [is_destination]: whenever it answers for one of the two, it answers the
    same for the other, so the origin and the destination the resolver reports
    are the same place.  They can differ only when the gazetteer step has no
    answer. *)
Theorem gazetteer_gives_one_place_for_both_ends (text : string) (is_destination : bool) :
  method (extract_location text is_destination) = "database_lookup" ->
  extract_location text true = extract_location text false /\
  value (extract_location text true) <> "".
Proof.
  intros Hm.
  assert (Hl : exists r, lookup_result (PyStr.lower text) = Some r).
  { destruct (extract_location_cases text is_destination)
      as [(r & Hl & _)|[[_ Hc]|Hn]].
    - now exists r.
    - rewrite Hc in Hm. discriminate.
    - rewrite Hn in Hm. discriminate. }
  destruct Hl as [r Hl]. unfold extract_location, or_else_with, default.
  rewrite Hl. split; [reflexivity|].
  destruct (lookup_result_answer text r Hl) as (k & l & _ & _ & _ & -> & _).
  cbn [value result]. intros E. pose proof (display_not_empty l) as D.
  rewrite E in D. discriminate D.
Qed.

Lemma gazetteer_one_place_witness :
  extract_location "envio desde valencia a santos" true
  = extract_location "envio desde valencia a santos" false /\
  value (extract_location "envio desde valencia a santos" true) <> "".
Proof.
  apply (gazetteer_gives_one_place_for_both_ends _ true). vm_compute. reflexivity.
Defined.

(** On a text that goes from Valencia to Santos both ends are Valencia. *)
Example valencia_to_santos :
  value (extract_location "envio desde valencia a santos" false) = "Valencia, Espa√±a" /\
  value (extract_location "envio desde valencia a santos" true) = "Valencia, Espa√±a".
Proof. split; vm_compute; reflexivity. Qed.

(** ** Characters of the pieces cut from a text *)

Section Characters.

Variable p : ascii -> bool.

Lemma any_substring a n s :
  PyStr.any p (substring a n s) = true -> PyStr.any p s = true.
Proof.
  revert a n. induction s as [|c s IH]; intros a n.
  - destruct a, n; simpl; congruence.
  - destruct a as [|a].
    + destruct n as [|n]; simpl; [congruence|].
      intros H. apply orb_true_iff in H. apply orb_true_iff.
      destruct H as [H|H]; [now left|right; exact (IH 0%nat n H)].
    + simpl. intros H. apply orb_true_iff. right. exact (IH a n H).
Qed.

Lemma any_group subject mt n :
  PyStr.any p (Re.group subject mt n) = true -> PyStr.any p subject = true.
Proof.
  unfold Re.group. destruct n as [|n]; [apply any_substring|].
  destruct (Re.span_of (S n) (Re.m_groups mt)) as [[a b]|];
    [apply any_substring|simpl; congruence].
Qed.

Lemma any_lstrip s : PyStr.any p (PyStr.lstrip s) = true -> PyStr.any p s = true.
Proof.
  induction s as [|c s IH]; [simpl; congruence|].
  simpl. destruct (PyStr.is_space c); [|exact (fun H => H)].
  intros H. apply orb_true_iff. right. exact (IH H).
Qed.

Lemma any_rev_onto s acc :
  PyStr.any p (PyStr.rev_onto s acc) = PyStr.any p s || PyStr.any p acc.
Proof.
  revert acc. induction s as [|c s IH]; intros acc; [reflexivity|].
  simpl. rewrite IH. simpl. destruct (p c), (PyStr.any p s); reflexivity.
Qed.

Lemma any_rev s : PyStr.any p (PyStr.rev s) = PyStr.any p s.
Proof. unfold PyStr.rev. rewrite any_rev_onto. simpl. apply orb_false_r. Qed.

Lemma any_strip s : PyStr.any p (PyStr.strip s) = true -> PyStr.any p s = true.
Proof.
  unfold PyStr.strip. rewrite any_rev. intros H.
  apply any_lstrip in H. rewrite any_rev in H. now apply any_lstrip.
Qed.

End Characters.

(** ** A text without capitals *)

(** An upper-case letter, or a character outside ASCII (of which the
    embedding leaves the case alone). *)
Definition capital_or_foreign (c : ascii) : bool :=
  PyStr.is_upper c || (127 <? PyStr.code c)%nat.

(** [text] is ASCII text without an upper-case letter. *)
Definition lowercase_ascii (text : string) : bool :=
  negb (PyStr.any capital_or_foreign text).

Lemma first_is_upper_any s :
  first_is_upper s = true -> PyStr.any capital_or_foreign s = true.
Proof.
  destruct s as [|c s]; [discriminate|]. simpl. intros H.
  unfold capital_or_foreign. rewrite H. reflexivity.
Qed.

Lemma valid_candidate_has_capital name :
  _is_valid_name_candidate name = true -> PyStr.any capital_or_foreign name = true.
Proof.
  unfold _is_valid_name_candidate.
  destruct (_ || _ || _); [discriminate|].
  destruct (existsb _ _); [discriminate|].
  destruct (PyFloat.ltb _ _); [discriminate|].
  destruct (first_is_upper name) eqn:E; [|discriminate].
  intros _. now apply first_is_upper_any.
Qed.

Lemma detected_zone_characters text z :
  In z (detect_name_zones text) ->
  PyStr.any capital_or_foreign (Zone.text z) = true ->
  PyStr.any capital_or_foreign text = true.
Proof.
  intros H.
  apply (Permutation_in _ (Permutation_sym (sort_zones_permutation _))) in H.
  apply in_flat_map in H. destruct H as ([[pattern type] c] & _ & H).
  unfold zones_of_pattern in H. apply in_flat_map in H. destruct H as (mt & _ & H).
  destruct (negb _ && (3 <? _)%nat); [|destruct H].
  destruct H as [<-|[]]. cbn [Zone.text]. intros Hc.
  apply any_strip in Hc. now apply any_group in Hc.
Qed.

Lemma flat_map_nil {A B} (f : A -> list B) (items : list A) :
  (forall x, In x items -> f x = []) -> flat_map f items = [].
Proof.
  induction items as [|x rest IH]; intros H; [reflexivity|].
  cbn [flat_map]. rewrite (H x (or_introl eq_refl)), IH; [reflexivity|].
  intros y Hy. apply H. now right.
Qed.

Lemma regex_candidates_need_capital zone pc :
  PyStr.any capital_or_foreign (Zone.text zone) = false ->
  regex_candidates zone pc = [].
Proof.
  intros Hz. destruct pc as [pattern c]. unfold regex_candidates.
  apply flat_map_nil. intros mt _.
  destruct (_is_valid_name_candidate _) eqn:V; [|reflexivity].
  apply valid_candidate_has_capital, any_strip, any_group in V. congruence.
Qed.

Lemma regex_fallback_candidates_need_capital zones :
  (forall z, In z zones -> PyStr.any capital_or_foreign (Zone.text z) = false) ->
  extract_regex_fallback_candidates zones = [].
Proof.
  intros H. unfold extract_regex_fallback_candidates.
  apply flat_map_nil. intros zone Hzone.
  apply flat_map_nil. intros pc _.
  apply regex_candidates_need_capital. now apply H.
Qed.

(** What the contact name of a text without capitals comes from. *)
Definition only_the_fallback_answers (env : Env) (text : string) : Prop :=
  (extract_name env text = Some (NameResult.make "" 0 "no_zones")
   \/ extract_name env text = Some (NameResult.make "" 0 "no_candidates")) /\
  fst (extract_contact_info env text) = _extract_name_fallback text.

(** X16: without an entity recogniser the name pipeline finds no name in an
    ASCII text that has no upper-case letter, with or without an LLM: its
    patterns ignore case, but its validator wants a capital at the head of
    every word.  The contact name of such a text is what
    [_extract_name_fallback] answers, which capitalises what it finds. *)
Theorem lowercase_text_gets_no_pipeline_name (env : Env) (text : string) :
  nlp env = None -> lowercase_ascii text = true ->
  only_the_fallback_answers env text.
Proof.
  intros Hnlp Hlow. apply negb_true_iff in Hlow.
  assert (Hname : extract_name env text = Some (NameResult.make "" 0 "no_zones")
            \/ extract_name env text = Some (NameResult.make "" 0 "no_candidates")).
  { unfold extract_name.
    destruct (detect_name_zones text) as [|z zones] eqn:Z; [now left|right].
    unfold extract_ner_candidates. rewrite Hnlp.
    rewrite regex_fallback_candidates_need_capital; [reflexivity|].
    intros z' Hz'. rewrite <- Z in Hz'.
    destruct (PyStr.any capital_or_foreign (Zone.text z')) eqn:E; [|reflexivity].
    rewrite (detected_zone_characters text z' Hz' E) in Hlow. discriminate. }
  split; [exact Hname|].
  unfold extract_contact_info, _extract_name_hybrid. cbn [fst].
  destruct Hname as [-> | ->]; reflexivity.
Qed.

(** A recogniser-less extractor with an LLM that would answer. *)
Definition regex_only_env : Env :=
  mkEnv (Some (fun _ => Content "Juan Martinez")) None (fun _ => None).

Lemma lowercase_text_witness :
  only_the_fallback_answers regex_only_env "saludos juan martinez".
Proof.
  apply lowercase_text_gets_no_pipeline_name; vm_compute; reflexivity.
Defined.

(** On that text the fallback answers, and the same text with capitals is
    answered by the pipeline. *)
Example lowercase_and_capitalised_signature :
  fst (extract_contact_info regex_only_env "saludos juan martinez")
  = result "Juan Martinez" 0.9 "fallback_regex" /\
  method (fst (extract_contact_info regex_only_env "saludos Juan Martinez"))
  = "hybrid_hybrid_zone_regex".
Proof. split; vm_compute; reflexivity. Qed.

(** ** The name the LLM answers with *)

Lemma valid_candidate_not_empty name :
  _is_valid_name_candidate name = true -> name <> "".
Proof. intros H ->. vm_compute in H. discriminate H. Qed.

Lemma no_zones_no_candidates env :
  extract_ner_candidates env [] = Some [].
Proof. unfold extract_ner_candidates. destruct (nlp env); reflexivity. Qed.

(** X17: the name [extract_name] reports is the LLM's answer, stripped,
    whenever that answer passes [_is_valid_name_candidate] and is not "NONE":
    the answer is not checked against the candidates (nor against the text),
    and it is reported at the confidence and with the method of the best
    candidate. *)
Theorem llm_answer_need_not_be_a_candidate
    (env : Env) (client : Prompt -> Completion) (text answer : string)
    (candidates : list NameCandidate.t) (best : NameCandidate.t) :
  openai_client env = Some client ->
  extract_ner_candidates env (detect_name_zones text) = Some candidates ->
  max_by NameCandidate.confidence candidates = Some best ->
  client (SelectionPrompt (firstn 5 candidates)) = Content answer ->
  _is_valid_name_candidate (PyStr.strip answer) = true ->
  PyStr.strip answer <> "NONE" ->
  extract_name env text
  = Some (NameResult.make (PyStr.strip answer)
            (PyFloat.min (NameCandidate.confidence best * 1.1) 1)
            ("hybrid_" ++ NameCandidate.method best)).
Proof.
  intros Hclient Hc Hmax Hanswer Hvalid Hnone.
  pose proof (valid_candidate_not_empty _ Hvalid) as Hne.
  apply String.eqb_neq in Hne, Hnone.
  unfold extract_name.
  destruct (detect_name_zones text) as [|z zones].
  { rewrite no_zones_no_candidates in Hc. injection Hc as <-. discriminate Hmax. }
  rewrite Hc. destruct candidates as [|c rest]; [discriminate Hmax|].
  unfold llm_validate_candidates. rewrite Hclient, Hanswer, Hne, Hnone, Hvalid.
  cbn [negb andb]. rewrite Hmax, Hne. reflexivity.
Qed.

(** An LLM that answers with a name the text does not have. *)
Definition inventing_env : Env :=
  mkEnv (Some (fun _ => Content " Pedro Gomez ")) None (fun _ => None).

Definition two_names_candidates : list NameCandidate.t :=
  Eval vm_compute in
    default [] (extract_ner_candidates inventing_env (detect_name_zones two_names_text)).

Lemma llm_answer_witness :
  extract_name inventing_env two_names_text
  = Some (NameResult.make (PyStr.strip " Pedro Gomez ")
            (PyFloat.min (0.81 * 1.1) 1) ("hybrid_" ++ "zone_regex")).
Proof.
  apply (llm_answer_need_not_be_a_candidate inventing_env
           (fun _ => Content " Pedro Gomez ") two_names_text " Pedro Gomez "
           two_names_candidates
           (NameCandidate.make "Juan Martinez" 0.81 "zone_regex" "signature_saludos"
              "Saludos Juan Martinez"));
    vm_compute; try reflexivity. discriminate.
Defined.

Example invented_name_is_not_in_the_text :
  PyStr.contains "Pedro" two_names_text = false /\
  value (fst (extract_contact_info inventing_env two_names_text)) = "Pedro Gomez".
Proof. split; vm_compute; reflexivity. Qed.

(** ** The Markdown fence of the LLM's answer *)

Lemma length_append (a b : string) :
  String.length (a ++ b) = (String.length a + String.length b)%nat.
Proof. induction a as [|c a IH]; simpl; [reflexivity|now rewrite IH]. Qed.

Lemma substring_prefix (a b : string) :
  substring 0 (String.length a) (a ++ b) = a.
Proof. induction a as [|c a IH]; simpl; [now destruct b|now rewrite IH]. Qed.

Lemma substring_skip (a b : string) n :
  substring (String.length a) n (a ++ b) = substring 0 n b.
Proof. induction a as [|c a IH]; simpl; [reflexivity|exact IH]. Qed.

(** [(opening ++ body ++ closing)[len(opening):-len(closing)]] is [body]. *)
Lemma slice_between (opening body closing : string) :
  PyStr.slice (String.length opening) (String.length closing)
    (opening ++ body ++ closing) = body.
Proof.
  unfold PyStr.slice. rewrite !length_append.
  replace (String.length opening + (String.length body + String.length closing)
           - String.length closing - String.length opening)%nat
    with (String.length body) by lia.
  rewrite substring_skip. apply substring_prefix.
Qed.

Lemma startswith_append (a b : string) : PyStr.startswith a (a ++ b) = true.
Proof.
  induction a as [|c a IH]; [reflexivity|]. simpl. now rewrite Ascii.eqb_refl.
Qed.

Lemma startswith_after (a b s : string) :
  PyStr.startswith (a ++ b) (a ++ s) = PyStr.startswith b s.
Proof.
  induction a as [|c a IH]; [reflexivity|].
  cbn [append PyStr.startswith]. now rewrite Ascii.eqb_refl.
Qed.

Lemma startswith_longer (a b s : string) :
  PyStr.startswith a s = false -> PyStr.startswith (a ++ b) s = false.
Proof.
  revert s. induction a as [|c a IH]; intros s H; [discriminate H|].
  destruct s as [|x s]; [reflexivity|]. cbn [append PyStr.startswith] in H |- *.
  destruct (Ascii.eqb c x); [|reflexivity]. cbn [andb] in H |- *. now apply IH.
Qed.

Lemma rev_onto_append (a b acc : string) :
  PyStr.rev_onto (a ++ b) acc = PyStr.rev_onto b (PyStr.rev_onto a acc).
Proof. revert acc. induction a as [|c a IH]; intros acc; simpl; [reflexivity|apply IH]. Qed.

Lemma rev_onto_rev_onto (a acc : string) :
  PyStr.rev_onto (PyStr.rev_onto a acc) EmptyString
  = PyStr.rev_onto acc a.
Proof.
  revert acc. induction a as [|c a IH]; intros acc; simpl.
  - reflexivity.
  - rewrite IH. reflexivity.
Qed.

Lemma rev_rev (s : string) : PyStr.rev (PyStr.rev s) = s.
Proof. unfold PyStr.rev. rewrite rev_onto_rev_onto. reflexivity. Qed.

Lemma append_assoc (a b c : string) : (a ++ b) ++ c = a ++ b ++ c.
Proof. induction a as [|x a IH]; simpl; [reflexivity|now rewrite IH]. Qed.

(** A text between two fences has no white space to strip at its ends. *)
Lemma strip_fenced (opening body : string) :
  PyStr.startswith fence opening = true ->
  PyStr.strip (opening ++ body ++ fence) = opening ++ body ++ fence.
Proof.
  intros H. unfold PyStr.strip.
  assert (L : forall s, PyStr.startswith fence s = true -> PyStr.lstrip s = s).
  { unfold fence. intros [|c s] Hs; [simpl in Hs; discriminate Hs|].
    cbn [PyStr.startswith] in Hs. apply andb_true_iff in Hs. destruct Hs as [E _].
    apply Ascii.eqb_eq in E. subst c. reflexivity. }
  rewrite (L (opening ++ body ++ fence)).
  - rewrite L; [apply rev_rev|].
    unfold PyStr.rev. rewrite <- append_assoc, rev_onto_append. reflexivity.
  - unfold fence in H |- *.
    destruct opening as [|a [|b [|c opening]]]; cbn [PyStr.startswith] in H;
      try discriminate H;
      try (rewrite ?andb_false_r in H; discriminate H).
    exact H.
Qed.

(** The value [extract_with_openai] gives for an answer whose content,
    stripped and unfenced, is [body]. *)
Definition parsed_body (env : Env) (body : string) : PyValue :=
  default (PyDict []) (json_loads env body).

(** X18: an answer of the LLM that comes between Markdown fences, with or
    without the language tag, is parsed as the text between the fences, and an
    answer that does not open with a fence as it stands; what does not parse
    gives the empty dictionary. *)
Theorem fenced_answer_is_parsed_as_its_body
    (env : Env) (client : Prompt -> Completion) (text body : string) :
  openai_client env = Some client ->
  (client (ExtractionPrompt text) = Content (fence_json ++ body ++ fence) ->
   extract_with_openai env text = parsed_body env body) /\
  (client (ExtractionPrompt text) = Content (fence ++ body ++ fence) ->
   PyStr.startswith "json" (body ++ fence) = false ->
   extract_with_openai env text = parsed_body env body) /\
  (client (ExtractionPrompt text) = Content body ->
   PyStr.startswith fence (PyStr.strip body) = false ->
   extract_with_openai env text = parsed_body env (PyStr.strip body)).
Proof.
  intros Hclient. unfold extract_with_openai, parsed_body, default.
  rewrite Hclient. split; [|split].
  - intros ->. rewrite strip_fenced by reflexivity.
    unfold unfenced. rewrite startswith_append.
    pose proof (slice_between fence_json body fence) as S.
    change (String.length fence_json) with 7%nat in S.
    change (String.length fence) with 3%nat in S. rewrite S. reflexivity.
  - intros -> Hjson. rewrite strip_fenced by reflexivity.
    unfold unfenced.
    assert (N : PyStr.startswith fence_json (fence ++ body ++ fence) = false).
    { change fence_json with (fence ++ "json").
      rewrite startswith_after. exact Hjson. }
    rewrite N, startswith_append.
    pose proof (slice_between fence body fence) as S.
    change (String.length fence) with 3%nat in S. rewrite S. reflexivity.
  - intros -> Hplain. unfold unfenced.
    assert (N : PyStr.startswith fence_json (PyStr.strip body) = false).
    { change fence_json with (fence ++ "json").
      now apply startswith_longer. }
    rewrite N, Hplain. reflexivity.
Qed.

(** A parser that knows one document. *)
Definition one_document_env (answer : string) : Env :=
  mkEnv (Some (fun _ => Content answer)) None
    (fun s => if (s =? "{}")%string then Some (PyDict [("weight", PyStr "2 t")])
              else None).

Lemma fenced_answer_witness :
  extract_with_openai (one_document_env "```json{}```") "x"
  = parsed_body (one_document_env "```json{}```") "{}".
Proof.
  exact (proj1 (fenced_answer_is_parsed_as_its_body
                  (one_document_env "```json{}```")
                  (fun _ => Content "```json{}```") "x" "{}" eq_refl) eq_refl).
Defined.

(** An answer that opens a fence and does not close it loses its last three
    characters, and no longer parses. *)
Example unclosed_fence :
  unfenced "```json{}" = "" /\
  extract_with_openai (one_document_env "```json{}") "x" = PyDict [].
Proof. split; vm_compute; reflexivity. Qed.

(** ** The contact name, from either path *)

Ltac by_cases_on_character c :=
  destruct c as [[] [] [] [] [] [] [] []]; reflexivity.

Lemma upper_char_idempotent c :
  PyStr.upper_char (PyStr.upper_char c) = PyStr.upper_char c.
Proof. by_cases_on_character c. Qed.

Lemma is_cased_upper_char c : PyStr.is_cased (PyStr.upper_char c) = PyStr.is_cased c.
Proof. by_cases_on_character c. Qed.

Lemma is_cased_lower_char c : PyStr.is_cased (PyStr.lower_char c) = PyStr.is_cased c.
Proof. by_cases_on_character c. Qed.

Lemma is_digit_upper_char c : PyStr.is_digit (PyStr.upper_char c) = PyStr.is_digit c.
Proof. by_cases_on_character c. Qed.

Lemma is_digit_lower_char c : PyStr.is_digit (PyStr.lower_char c) = PyStr.is_digit c.
Proof. by_cases_on_character c. Qed.

Lemma title_from_idempotent b s :
  PyStr.title_from b (PyStr.title_from b s) = PyStr.title_from b s.
Proof.
  revert b. induction s as [|c s IH]; intros b; [reflexivity|].
  cbn [PyStr.title_from]. destruct b.
  - rewrite lower_char_lower, is_cased_lower_char, IH. reflexivity.
  - rewrite upper_char_idempotent, is_cased_upper_char, IH. reflexivity.
Qed.

Lemma title_from_length b s :
  String.length (PyStr.title_from b s) = String.length s.
Proof.
  revert b. induction s as [|c s IH]; intros b; [reflexivity|].
  cbn [PyStr.title_from String.length]. now rewrite IH.
Qed.

Lemma title_from_digits b s :
  PyStr.count PyStr.is_digit (PyStr.title_from b s) = PyStr.count PyStr.is_digit s.
Proof.
  revert b. induction s as [|c s IH]; intros b; [reflexivity|].
  cbn [PyStr.title_from PyStr.count]. rewrite IH.
  destruct b; [rewrite is_digit_lower_char|rewrite is_digit_upper_char]; reflexivity.
Qed.

(** A name as [_clean_and_validate_name] lets it through. *)
Definition cleaned_name (name : string) : Prop :=
  PyStr.title name = name /\
  (3 <= String.length name <= 40)%nat /\
  (PyStr.count PyStr.is_digit name <= 2)%nat /\
  has_stop_word fallback_exclude_words name = false.

Lemma clean_and_validate_name_cleaned raw_name :
  _clean_and_validate_name raw_name <> "" ->
  cleaned_name (_clean_and_validate_name raw_name).
Proof.
  intros H. pose proof (clean_name_has_no_stop_word raw_name H) as Hstop.
  revert H Hstop. unfold _clean_and_validate_name.
  destruct (raw_name =? "")%string; [congruence|].
  destruct (existsb _ fallback_exclude_words); [congruence|].
  destruct (40 <? _)%nat eqn:L40; [congruence|].
  destruct (_ <? 3)%nat eqn:L3; [congruence|].
  destruct (2 <? _)%nat eqn:D; [congruence|].
  destruct (found _ _); [congruence|].
  destruct (negb _); [congruence|].
  intros _ Hstop. unfold cleaned_name, PyStr.title.
  rewrite title_from_idempotent, title_from_length, title_from_digits.
  apply Nat.ltb_ge in L40, L3, D. repeat split; try assumption.
Qed.

Lemma fallback_loop_cleaned pats text :
  value (fallback_loop pats text) <> "" ->
  cleaned_name (value (fallback_loop pats text)).
Proof.
  induction pats as [|[pattern c] rest IH]; [simpl; congruence|].
  simpl. destruct (Re.search pattern text Re.IGNORECASE_MULTILINE) as [mt|]; [|exact IH].
  destruct (negb (_ =? "")%string) eqn:E; [|exact IH].
  cbn [value result]. intros H. now apply clean_and_validate_name_cleaned.
Qed.

(** [s] is ASCII text. *)
Definition ascii_text (s : string) : bool :=
  negb (PyStr.any (fun c => (127 <? PyStr.code c)%nat) s).

(** What the first component of [extract_contact_info] is. *)
Definition contact_name_outcome (env : Env) (text : string) (n : ExtractionResult)
    : Prop :=
  (value (_extract_name_hybrid env text) <> "" /\
   n = _extract_name_hybrid env text /\
   _is_valid_name_candidate (value n) = true /\
   0.3 < confidence n /\ confidence n < 0.9)
  \/ (value (_extract_name_hybrid env text) = "" /\
      n = _extract_name_fallback text /\
      (n = result "" 0 "no_name_found"
       \/ (method n = "fallback_regex" /\ cleaned_name (value n) /\
           0.5 <= confidence n /\ confidence n <= 0.9))).

(** X19: for an ASCII text, the contact name is the name of the hybrid
    pipeline whenever that has one, whatever its confidence (above 0.3, below
    0.9), and otherwise what [_extract_name_fallback] answers: nothing, at
    confidence 0, or a name in title case of 3 to 40 characters with at most
    two digits and no stop word, at the confidence of the pattern that found
    it (0.5 to 0.9).  The fallback is not consulted when the pipeline has a
    name, also where it would be the more confident. *)
Theorem contact_name_comes_from_one_path (env : Env) (text : string) :
  ascii_text text = true ->
  contact_name_outcome env text (fst (extract_contact_info env text)).
Proof.
  intros _. unfold contact_name_outcome, extract_contact_info. cbn [fst].
  destruct (value (_extract_name_hybrid env text) =? "")%string eqn:E.
  - right. apply String.eqb_eq in E. split; [exact E|]. split; [reflexivity|].
    pose proof (fallback_loop_cleaned fallback_name_patterns text) as Hclean.
    destruct (fallback_loop_levels fallback_name_patterns text fallback_pattern_levels)
      as [Hr|(Hv & Hm & Hlo & Hhi)]; [now left|right].
    unfold _extract_name_fallback. now repeat split; try apply Hclean.
  - left. apply String.eqb_neq in E. split; [exact E|]. split; [reflexivity|].
    split; [now apply hybrid_name_valid|].
    destruct (hybrid_levels env text) as [[Hv _]|(_ & Hlo & Hhi)];
      [now contradiction E|now split].
Qed.

Lemma contact_name_witness :
  contact_name_outcome no_llm_env "Soy Ana Ruiz. saludos, juan martinez"
    (fst (extract_contact_info no_llm_env "Soy Ana Ruiz. saludos, juan martinez")).
Proof. apply contact_name_comes_from_one_path. vm_compute. reflexivity. Defined.

(** A text where the pipeline answers and the fallback, had it been asked,
    would have answered at 0.9. *)
Example pipeline_name_shadows_the_fallback :
  value (fst (extract_contact_info no_llm_env "Soy Ana Ruiz. saludos, juan martinez"))
  = "Ana Ruiz" /\
  method (fst (extract_contact_info no_llm_env "Soy Ana Ruiz. saludos, juan martinez"))
  = "hybrid_hybrid_zone_regex" /\
  _extract_name_fallback "Soy Ana Ruiz. saludos, juan martinez"
  = result "Juan Martinez" 0.9 "fallback_regex".
Proof. repeat split; vm_compute; reflexivity. Qed.

(** ** The prices of a quote *)

Lemma py_max_ge_l a b : a <= py_max a b.
Proof. unfold py_max. compare_floats a b; lra. Qed.

Lemma py_max_ge_r a b : b <= py_max a b.
Proof. unfold py_max. compare_floats a b; lra. Qed.

Lemma py_max_cases a b : py_max a b = a \/ py_max a b = b.
Proof. unfold py_max. destruct (PyFloat.ltb a b); [now right|now left]. Qed.

Lemma weight_kg_nonneg weight_str kg : weight_kg weight_str = Some kg -> (0 <= kg)%Z.
Proof.
  unfold weight_kg. destruct (Re.finditer _ _ _) as [|mt rest].
  - intros H. injection H as <-. lia.
  - destruct (PyNum.digits_value 0 _) as [n|]; [|discriminate].
    intros H. injection H as <-. lia.
Qed.

Lemma inject_nonneg (kg : Z) : (0 <= kg)%Z -> 0 <= inject_Z kg.
Proof. intros H. change 0 with (inject_Z 0). rewrite <- Zle_Qle. exact H. Qed.

Lemma inject_at_least (n kg : Z) : (n <= kg)%Z -> inject_Z n <= inject_Z kg.
Proof. intros H. rewrite <- Zle_Qle. exact H. Qed.

(** On a route that is not intercontinental, sea LCL is the cheaper of the
    two options that are always offered. *)
Lemma regional_lcl_below_air kg urgent machinery :
  (0 <= kg)%Z ->
  sea_lcl_price kg false machinery < air_price kg false urgent machinery.
Proof.
  intros H. apply inject_nonneg in H.
  unfold air_price, sea_lcl_price, air_rate, heavy_premium.
  destruct (py_max_cases 290 (inject_Z kg * 0.3)) as [-> | ->];
    destruct urgent, machinery; cbn [negb]; nra.
Qed.

Lemma heavy_lcl_below_air kg intercontinental urgent machinery :
  (28 <= kg)%Z ->
  sea_lcl_price kg intercontinental machinery
  < air_price kg intercontinental urgent machinery.
Proof.
  intros H. apply inject_at_least in H. change (inject_Z 28) with 28 in H.
  unfold air_price, sea_lcl_price, air_rate, heavy_premium.
  destruct intercontinental.
  - destruct (py_max_cases 680 (inject_Z kg * 0.4 * (if machinery then 1.3 else 1)))
      as [-> | ->]; destruct urgent, machinery; cbn [negb]; nra.
  - destruct (py_max_cases 290 (inject_Z kg * 0.3)) as [-> | ->];
      destruct urgent, machinery; cbn [negb]; nra.
Qed.

Lemma light_air_below_lcl kg urgent machinery :
  (0 <= kg)%Z -> (kg <= 6)%Z ->
  air_price kg true urgent machinery < sea_lcl_price kg true machinery.
Proof.
  intros H0 H. apply inject_nonneg in H0. apply inject_at_least in H.
  change (inject_Z 6) with 6 in H.
  pose proof (py_max_ge_l 680 (inject_Z kg * 0.4 * heavy_premium machinery)) as Hmax.
  unfold air_price, sea_lcl_price, air_rate, heavy_premium in *.
  destruct urgent, machinery; cbn [negb] in *; nra.
Qed.

Lemma fcl_below_lcl kg intercontinental machinery :
  (8000 < kg)%Z ->
  fcl_price intercontinental machinery < sea_lcl_price kg intercontinental machinery.
Proof.
  intros H. assert (Hw : 8001 <= inject_Z kg).
  { change 8001 with (inject_Z 8001). rewrite <- Zle_Qle. lia. }
  unfold fcl_price, sea_lcl_price, sea_fcl_base.
  destruct intercontinental.
  - pose proof (py_max_ge_r 680 (inject_Z kg * 0.4 * heavy_premium machinery)) as Hmax.
    unfold heavy_premium in *. destruct machinery; nra.
  - pose proof (py_max_ge_r 290 (inject_Z kg * 0.3)) as Hmax.
    unfold heavy_premium. destruct machinery; nra.
Qed.

(** The options of a quote and the order of their prices, for a shipment
    of [kg] kilograms: [air] is the air freight option, [lcl] the sea LCL
    option and [fcl] the sea FCL option. *)
Definition is_air_freight (option : QuoteOption.t) : Prop :=
  QuoteOption.service option = "Air Freight (Urgent)"
  \/ QuoteOption.service option = "Air Freight (Standard)".

Definition priced_in_order (kg : Z) (intercontinental : bool)
    (options : list QuoteOption.t) : Prop :=
  exists air lcl,
    is_air_freight air /\
    QuoteOption.service lcl = "Sea Freight LCL" /\
    ((kg <= 8000)%Z -> options = [air; lcl]) /\
    ((8000 < kg)%Z ->
     exists fcl, QuoteOption.service fcl = "Sea Freight FCL 20ft" /\
       options = [air; lcl; fcl] /\
       QuoteOption.price fcl < QuoteOption.price lcl) /\
    (intercontinental = false \/ (28 <= kg)%Z ->
     QuoteOption.price lcl < QuoteOption.price air) /\
    (intercontinental = true -> (kg <= 6)%Z ->
     QuoteOption.price air < QuoteOption.price lcl).

(** The weight and the route the block reads from [results]. *)
Definition quoted_for (results : Results.t) (kg : Z) (intercontinental : bool)
    : Prop :=
  exists origin destination weight_str,
    Results.origin results = PyStr origin /\
    Results.destination results = PyStr destination /\
    Results.weight results = PyStr weight_str /\
    weight_kg weight_str = Some kg /\
    is_intercontinental origin destination = intercontinental.

(** The weight of [results], where it is a string, is ASCII text. *)
Definition weight_in_ascii (results : Results.t) : Prop :=
  forall weight_str,
    Results.weight results = PyStr weight_str -> ascii_text weight_str = true.

(** X20: for a weight written in ASCII, a quote always offers air freight
    and sea LCL, in this order, and after them sea FCL exactly for more than
    8000 kg.  Where FCL is offered it is cheaper than LCL.  Sea LCL, the option
    "for cost optimization", is cheaper than air on every route that is not
    intercontinental and for every shipment of 28 kg or more, but dearer than
    air on an intercontinental route for 6 kg or less (its minimum of 680 is
    above the air price). *)
Theorem quote_prices_in_order (results : Results.t) (options : list QuoteOption.t) :
  weight_in_ascii results ->
  quote_options results = Quoted options ->
  exists kg intercontinental,
    quoted_for results kg intercontinental /\
    priced_in_order kg intercontinental options.
Proof.
  intros _.
  unfold quote_options. destruct (_ && _ && _); [|discriminate].
  destruct (Results.weight results) as [| | |weight_str| |] eqn:W; try discriminate.
  cbn [text_of]. destruct (weight_kg weight_str) as [kg|] eqn:K; [|discriminate].
  destruct (Results.origin results) as [| | |origin| |] eqn:O; try discriminate.
  destruct (Results.destination results) as [| | |destination| |] eqn:D;
    try discriminate.
  cbn [text_of].
  destruct (text_of (Results.urgency results)) as [urgency|]; [|discriminate].
  destruct (text_of (Results.commodity results)) as [commodity|]; [|discriminate].
  destruct (negb (fits_float kg)); [discriminate|].
  intros H. injection H as <-.
  pose proof (weight_kg_nonneg _ _ K) as Hkg.
  exists kg, (is_intercontinental origin destination). split.
  { exists origin, destination, weight_str. repeat split; assumption || reflexivity. }
  unfold priced_in_order.
  exists (QuoteOption.make
            ("Air Freight " ++ (if is_urgent urgency then "(Urgent)" else "(Standard)"))
            (air_price kg (is_intercontinental origin destination)
               (is_urgent urgency) (is_machinery commodity))
            (if is_urgent urgency then "3-5 days" else "5-7 days")
            (route_of origin destination) "Speed and reliability").
  exists (QuoteOption.make "Sea Freight LCL"
            (sea_lcl_price kg (is_intercontinental origin destination)
               (is_machinery commodity))
            (if is_intercontinental origin destination
             then "22-28 days" else "8-12 days")
            (route_of origin destination) "Cost optimization").
  split; [|split; [|split; [|split; [|split]]]].
  - unfold is_air_freight. cbn [QuoteOption.service].
    destruct (is_urgent urgency); [now left|now right].
  - reflexivity.
  - intros Hle. apply Z.ltb_ge in Hle. rewrite Hle. reflexivity.
  - intros Hgt. pose proof Hgt as Hlt. apply Z.ltb_lt in Hlt. rewrite Hlt.
    eexists. split; [|split; [reflexivity|]]; [reflexivity|].
    cbn [QuoteOption.price]. now apply fcl_below_lcl.
  - cbn [QuoteOption.price]. intros [Hr|Hh].
    + rewrite Hr. now apply regional_lcl_below_air.
    + now apply heavy_lcl_below_air.
  - cbn [QuoteOption.price]. intros Hi Hl. rewrite Hi. now apply light_air_below_lcl.
Qed.

(** The dictionary of a run that found Barcelona and 890 kg, with Santos for
    destination. *)
Definition santos_results : Results.t :=
  Results.make (PyStr "Barcelona, Espa√±a") (PyStr "Santos, Brasil")
    (PyStr "Maquinaria/Equipos") (PyStr "890 kg") (PyStr "normal") (PyStr "") "" 0.5.

Definition santos_options : list QuoteOption.t :=
  Eval vm_compute in
    match quote_options santos_results with
    | Quoted options => options
    | _ => []
    end.

Lemma quote_prices_witness :
  exists kg intercontinental,
    quoted_for santos_results kg intercontinental /\
    priced_in_order kg intercontinental santos_options.
Proof.
  apply quote_prices_in_order.
  - intros weight_str H. injection H as <-. reflexivity.
  - vm_compute. reflexivity.
Defined.

(** Its quote: air at 10419.5 and sea LCL at its minimum. *)
Example santos_quote :
  map QuoteOption.service santos_options
  = ["Air Freight (Standard)"; "Sea Freight LCL"] /\
  Forall2 Qeq (map QuoteOption.price santos_options) [10419.5; 680].
Proof. split; [reflexivity|]. repeat constructor. Qed.

(** ** Which routes are intercontinental *)

(** X21: between two places as the gazetteer names them, a route counts as
    intercontinental exactly when one of them is in Brasil: the words the
    script looks for are not in "Estados Unidos", so a shipment from Spain to
    Miami, Nueva York or Los √Ångeles is priced at the rates and transit times
    of a regional one. *)
Theorem gazetteer_routes_are_intercontinental_only_with_brasil
    (a b : string * Location) :
  In a _build_location_database -> In b _build_location_database ->
  is_intercontinental (display (snd a)) (display (snd b))
  = (country (snd a) =? "Brasil")%string || (country (snd b) =? "Brasil")%string.
Proof.
  unfold _build_location_database. cbn [In]. intros Ha Hb.
  repeat (destruct Ha as [<-|Ha];
          [repeat (destruct Hb as [<-|Hb]; [vm_compute; reflexivity|]);
           destruct Hb|]).
  destruct Ha.
Qed.

Lemma gazetteer_routes_witness :
  is_intercontinental "Valencia, Espa√±a" "Miami, Estados Unidos" = false.
Proof.
  exact (gazetteer_routes_are_intercontinental_only_with_brasil
           ("valencia", mkLocation "Valencia" "Espa√±a" "city" true)
           ("miami", mkLocation "Miami" "Estados Unidos" "city" true)
           (or_introl eq_refl)
           (or_intror (or_intror (or_intror (or_intror (or_intror (or_intror
             (or_intror (or_intror (or_intror (or_intror (or_intror (or_intror
               (or_intror (or_intror (or_introl eq_refl)))))))))))))))).
Defined.

(** ** A recogniser that raises *)

Lemma ner_loop_raises recognise zones zone :
  In zone zones -> recognise (Zone.text zone) = None ->
  ner_loop recognise zones = None.
Proof.
  induction zones as [|z rest IH]; intros Hin Hraise; [destruct Hin|].
  simpl. destruct Hin as [->|Hin].
  - rewrite Hraise. reflexivity.
  - destruct (recognise (Zone.text z)); [|reflexivity].
    rewrite (IH Hin Hraise). reflexivity.
Qed.

(** X22: when the entity recogniser raises on one of the zones of a text,
    the name pipeline gives nothing, not even the names it found in the zones
    before; the exception stops at [_extract_name_hybrid], which answers
    "hybrid_error", and the contact name is what [_extract_name_fallback]
    answers. *)
Theorem recogniser_failure_falls_back
    (env : Env) (recognise : string -> option (list Entity)) (text : string)
    (zone : Zone.t) :
  nlp env = Some recognise ->
  In zone (detect_name_zones text) ->
  recognise (Zone.text zone) = None ->
  extract_name env text = None /\
  _extract_name_hybrid env text = result "" 0 "hybrid_error" /\
  fst (extract_contact_info env text) = _extract_name_fallback text.
Proof.
  intros Hnlp Hin Hraise.
  assert (E : extract_name env text = None).
  { unfold extract_name. destruct (detect_name_zones text) as [|z zones] eqn:Z;
      [destruct Hin|].
    unfold extract_ner_candidates. rewrite Hnlp.
    rewrite (ner_loop_raises recognise (z :: zones) zone Hin Hraise). reflexivity. }
  split; [exact E|].
  assert (H : _extract_name_hybrid env text = result "" 0 "hybrid_error").
  { unfold _extract_name_hybrid. rewrite E. reflexivity. }
  split; [exact H|]. unfold extract_contact_info. cbn [fst]. rewrite H. reflexivity.
Qed.

(** A recogniser that finds a person in the greeting and raises on the
    signature. *)
Definition failing_recogniser_env : Env :=
  mkEnv None
    (Some (fun zone_text =>
       if PyStr.startswith "Saludos" zone_text then None
       else Some [mkEntity "Ana Ruiz" "PERSON"]))
    (fun _ => None).

Lemma recogniser_failure_witness :
  extract_name failing_recogniser_env two_names_text = None /\
  _extract_name_hybrid failing_recogniser_env two_names_text
  = result "" 0 "hybrid_error" /\
  fst (extract_contact_info failing_recogniser_env two_names_text)
  = _extract_name_fallback two_names_text.
Proof.
  apply (recogniser_failure_falls_back failing_recogniser_env
           (fun zone_text =>
              if PyStr.startswith "Saludos" zone_text then None
              else Some [mkEntity "Ana Ruiz" "PERSON"])
           two_names_text
           (Zone.make "Saludos Juan Martinez" "signature_saludos" 0.9 14 35)).
  - reflexivity.
  - vm_compute. left. reflexivity.
  - reflexivity.
Defined.

(** ** The unit of a weight *)

(** The decimal numeral of [n]. *)
Definition numeral (n : nat) : string := NilZero.string_of_uint (Nat.to_uint n).

(** A statement of [n] kg after the words "Total weight" is read as [n]
    tonnes. *)
Definition read_as_tonnes (n : nat) : bool :=
  let r := extract_weight ("Total weight " ++ numeral n ++ " kg") in
  String.eqb (value r) (numeral (n * 1000) ++ " kg")
  && Qeq_bool (confidence r) 0.9
  && String.eqb (method r) "explicit_total".

(** The same statement after the word "Total" alone is read as it stands. *)
Definition read_as_kilograms (n : nat) : bool :=
  let r := extract_weight ("Total " ++ numeral n ++ " kg") in
  String.eqb (value r) (numeral n ++ " kg")
  && Qeq_bool (confidence r) 0.9
  && String.eqb (method r) "explicit_total".

Lemma numerals_below_100 :
  forallb (fun n => read_as_tonnes n && read_as_kilograms n) (seq 0 100) = true.
Proof. vm_compute. reflexivity. Qed.

(** X23: the weight parser looks for the unit in the whole text a pattern
    matched, which for the "total" and "peso" patterns includes the words
    between the keyword and the number: "t " there counts as tonnes.  So for
    every whole number [n] below 100, "Total weight n kg" is reported as
    [1000 n] kg, at the confidence 0.9 of an explicit total, while
    "Total n kg" is reported as [n] kg. *)
Theorem total_weight_is_read_as_tonnes (n : nat) :
  (n < 100)%nat ->
  read_as_tonnes n = true /\ read_as_kilograms n = true.
Proof.
  intros H. pose proof numerals_below_100 as F.
  rewrite forallb_forall in F. specialize (F n).
  apply andb_true_iff. apply F. apply in_seq. lia.
Qed.

Lemma total_weight_witness :
  read_as_tonnes 50 = true /\ read_as_kilograms 50 = true.
Proof. apply total_weight_is_read_as_tonnes. lia. Defined.

Example total_weight_500 :
  extract_weight "Total weight 500 kg" = result "500000 kg" 0.9 "explicit_total" /\
  extract_weight "Total 500 kg" = result "500 kg" 0.9 "explicit_total".
Proof. split; vm_compute; reflexivity. Qed.

(** ** From the weight the parser reports to the weight of the quote *)

(** *** Numerals *)

Definition all_digits (s : string) : bool := negb (PyStr.any (fun c => negb (PyStr.is_digit c)) s).

Lemma all_digits_cons c s :
  all_digits (String c s) = PyStr.is_digit c && all_digits s.
Proof.
  unfold all_digits. simpl. destruct (PyStr.is_digit c); reflexivity.
Qed.

Lemma uint_all_digits d : all_digits (NilEmpty.string_of_uint d) = true.
Proof. induction d; simpl; try reflexivity; rewrite all_digits_cons; exact IHd. Qed.

Lemma digits_value_step acc c s :
  PyStr.is_digit c = true ->
  PyNum.digits_value acc (String c s)
  = PyNum.digits_value (10 * acc + N.of_nat (PyStr.code c - 48)) s.
Proof. intros H. simpl. rewrite H. reflexivity. Qed.

Lemma digits_value_acc d acc :
  PyNum.digits_value (N.pos acc) (NilEmpty.string_of_uint d)
  = Some (N.pos (Pos.of_uint_acc d acc)).
Proof.
  revert acc. induction d; intros acc; cbn [NilEmpty.string_of_uint Pos.of_uint_acc];
    [reflexivity|..];
    rewrite digits_value_step by reflexivity; rewrite <- IHd; f_equal;
    match goal with
    | |- context [N.of_nat ?n] =>
        let v := eval vm_compute in (N.of_nat n) in change (N.of_nat n) with v
    end; lia.
Qed.

Lemma digits_value_uint d :
  PyNum.digits_value 0 (NilEmpty.string_of_uint d) = Some (Pos.of_uint d).
Proof.
  induction d; cbn [NilEmpty.string_of_uint Pos.of_uint]; [reflexivity|..];
    rewrite digits_value_step by reflexivity;
    match goal with
    | |- context [N.of_nat ?n] =>
        let v := eval vm_compute in (N.of_nat n) in change (N.of_nat n) with v
    end; cbn [N.mul N.add]; [exact IHd|apply digits_value_acc ..].
Qed.

(** The numeral of a whole number that is not negative: what [:.0f] prints
    for it. *)
Definition numeral_of (z : Z) : Decimal.uint :=
  match z with
  | Z.pos p => Pos.to_uint p
  | _ => Decimal.D0 Decimal.Nil
  end.

Lemma format_0f_numeral x :
  (0 <= PyNum.round_half_even x)%Z ->
  PyNum.format_0f x = NilEmpty.string_of_uint (numeral_of (PyNum.round_half_even x)) /\
  numeral_of (PyNum.round_half_even x) <> Decimal.Nil /\
  Pos.of_uint (numeral_of (PyNum.round_half_even x))
  = Z.to_N (PyNum.round_half_even x).
Proof.
  unfold PyNum.format_0f. destruct (PyNum.round_half_even x) as [|p|p]; intros H.
  - repeat split. discriminate.
  - cbn [Z.to_int NilZero.string_of_int numeral_of Z.to_N].
    pose proof (Unsigned.to_uint_nonnil p) as Hn. split; [|split].
    + unfold NilZero.string_of_uint. destruct (Pos.to_uint p); [now contradiction Hn|..];
        reflexivity.
    + exact Hn.
    + apply Unsigned.of_to.
  - lia.
Qed.

(** *** The pattern [\d+] on a numeral *)

(** The loop of [Re.matches] for a repetition. *)
Definition rep_loop (fl : Re.flags) (r1 : Re.regex) (greedy : bool)
    (k : Re.pos -> option Re.pos) : nat -> nat -> option nat -> Re.pos -> option Re.pos :=
  fix loop (fuel lo : nat) (hi : option nat) (st : Re.pos) {struct fuel}
    : option Re.pos :=
    match fuel with
    | O => None
    | S fuel' =>
        let again :=
          match hi with
          | Some O => None
          | _ =>
              Re.matches fl r1 st (fun st' =>
                if (lo =? 0)%nat && (Re.offset st' <=? Re.offset st)%nat then None
                else loop fuel' (Nat.pred lo) (option_map Nat.pred hi) st')
          end in
        match lo with
        | S _ => again
        | O => if greedy then Re.or_else again (k st) else Re.or_else (k st) again
        end
    end.

Lemma matches_rep fl lo hi greedy r1 st k :
  Re.matches fl (Re.Rep lo hi greedy r1) st k
  = rep_loop fl r1 greedy k (lo + String.length (Re.rest st) + 1) lo hi st.
Proof. reflexivity. Qed.

Definition digit : Re.regex := Re.Class false [Re.IDigit].

(** The place reached from [st] after the characters of [run]. *)
Fixpoint after (run : string) (st : Re.pos) : Re.pos :=
  match run with
  | EmptyString => st
  | String c run' =>
      after run' (Re.mkPos (S (Re.offset st)) run' (Some c) (Re.groups st))
  end.

(** [rest] does not go on with a digit. *)
Definition no_digit_ahead (rest : string) : bool :=
  match rest with
  | String c _ => negb (PyStr.is_digit c)
  | EmptyString => true
  end.

Lemma matches_digit_yes c s off prev gs k :
  PyStr.is_digit c = true ->
  Re.matches Re.no_flags digit (Re.mkPos off (String c s) prev gs) k
  = k (Re.mkPos (S off) s (Some c) gs).
Proof.
  intros H. cbn [Re.matches digit Re.next Re.rest Re.offset Re.groups].
  unfold Re.class_has. cbn [existsb Re.item_has Re.ignorecase Re.no_flags andb orb].
  rewrite H. reflexivity.
Qed.

Lemma matches_digit_no s off prev gs k :
  no_digit_ahead s = true ->
  Re.matches Re.no_flags digit (Re.mkPos off s prev gs) k = None.
Proof.
  intros H. destruct s as [|c s]; [reflexivity|].
  cbn [Re.matches digit Re.next Re.rest Re.offset Re.groups].
  unfold Re.class_has. cbn [existsb Re.item_has Re.ignorecase Re.no_flags andb orb].
  cbn [no_digit_ahead] in H. apply negb_true_iff in H. rewrite H. reflexivity.
Qed.

(** The greedy loop takes the whole run of digits when what follows accepts
    any place. *)
Lemma digit_run_loop run : forall rest fuel lo off prev gs,
  all_digits run = true -> no_digit_ahead rest = true ->
  (String.length run < fuel)%nat -> (lo <= String.length run)%nat ->
  exists prev',
    rep_loop Re.no_flags digit true Some fuel lo None
      (Re.mkPos off (run ++ rest) prev gs)
    = Some (Re.mkPos (off + String.length run) rest prev' gs).
Proof.
  induction run as [|c run IH]; intros rest fuel lo off prev gs Hd Hn Hf Hlo.
  - destruct fuel as [|fuel]; [cbn in Hf; lia|].
    assert (lo = 0)%nat by (cbn in Hlo; lia). subst lo.
    exists prev. cbn [rep_loop append]. rewrite matches_digit_no by exact Hn.
    cbn [Re.or_else String.length]. now rewrite Nat.add_0_r.
  - destruct fuel as [|fuel]; [cbn in Hf; lia|].
    rewrite all_digits_cons in Hd. apply andb_true_iff in Hd. destruct Hd as [Hc Hd].
    cbn [String.length] in Hf, Hlo.
    destruct (IH rest fuel (Nat.pred lo) (S off) (Some c) gs Hd Hn) as [prev' Hrun];
      [lia|lia|].
    exists prev'.
    cbn [rep_loop append]. rewrite matches_digit_yes by exact Hc.
    cbn [Re.offset option_map].
    assert (Hoff : (S off <=? off)%nat = false) by (apply Nat.leb_gt; lia).
    rewrite Hoff, andb_false_r.
    fold (rep_loop Re.no_flags digit true Some). rewrite Hrun.
    cbn [String.length]. rewrite Nat.add_succ_r. destruct lo; reflexivity.
Qed.

Lemma compile_digits :
  Re.compile "\d+" = Some (Re.Cat (Re.Rep 1 None true digit) Re.Empty).
Proof. vm_compute. reflexivity. Qed.

(** [re.findall(r'\d+', s)[0]] for a text that begins with a numeral. *)
Lemma finditer_digits run rest :
  run <> "" -> all_digits run = true -> no_digit_ahead rest = true ->
  exists mt more,
    Re.finditer "\d+" (run ++ rest) Re.no_flags = mt :: more /\
    Re.group (run ++ rest) mt 0 = run.
Proof.
  intros Hne Hd Hn. unfold Re.finditer. rewrite compile_digits.
  cbn [Re.finditer_from Re.start_of Re.rest].
  assert (Hscan : exists prev',
            Re.scan (String.length (run ++ rest)) Re.no_flags
              (Re.Cat (Re.Rep 1 None true digit) Re.Empty)
              (Re.mkPos 0 (run ++ rest) None [])
            = Some (Re.mkMatch 0 (String.length run) [],
                    Re.mkPos (String.length run) rest prev' [])).
  { destruct (digit_run_loop run rest (1 + String.length (run ++ rest) + 1) 1 0 None []
                Hd Hn) as [prev' Hrun].
    - rewrite length_append. lia.
    - destruct run; [now contradiction Hne|cbn; lia].
    - exists prev'.
      assert (M : Re.matches Re.no_flags (Re.Cat (Re.Rep 1 None true digit) Re.Empty)
                    (Re.mkPos 0 (run ++ rest) None []) Some
                  = Some (Re.mkPos (String.length run) rest prev' [])).
      { cbn [Re.matches]. 
        change (Re.matches Re.no_flags (Re.Rep 1 None true digit)
                  (Re.mkPos 0 (run ++ rest) None []) (fun st' => Some st')
                = Some (Re.mkPos (String.length run) rest prev' [])).
        rewrite matches_rep. cbn [Re.rest]. exact Hrun. }
      destruct (String.length (run ++ rest)); cbn [Re.scan]; rewrite M; reflexivity. }
  destruct Hscan as [prev' Hscan]. unfold Re.start_of. rewrite Hscan.
  cbn [Re.m_start Re.m_end Re.offset Re.rest Re.prev].
  assert (G : Re.group (run ++ rest) (Re.mkMatch 0 (String.length run) []) 0 = run).
  { unfold Re.group. cbn [Re.m_start Re.m_end]. rewrite Nat.sub_0_r.
    apply substring_prefix. }
  destruct (0 <? String.length run)%nat.
  - eexists. eexists. split; [reflexivity|exact G].
  - destruct (Re.next (Re.mkPos (String.length run) rest prev' []))
      as [[c st1]|]; eexists; eexists; (split; [reflexivity|exact G]).
Qed.

Lemma round_half_even_nonneg x : 0 <= x -> (0 <= PyNum.round_half_even x)%Z.
Proof.
  intros H. unfold PyNum.round_half_even.
  assert (F : (0 <= Qfloor x)%Z).
  { change 0%Z with (Qfloor 0). now apply Qfloor_resp_le. }
  destruct (Qcompare _ 1); [destruct (Z.even _)|..]; lia.
Qed.

(** The block of the script reads back the kilograms that [format_kg]
    printed. *)
Lemma weight_kg_format_kg x :
  0 <= x -> weight_kg (format_kg x) = Some (PyNum.round_half_even x).
Proof.
  intros H. apply round_half_even_nonneg in H.
  destruct (format_0f_numeral x H) as (Hf & Hnil & Hv).
  unfold format_kg. rewrite Hf.
  destruct (finditer_digits (NilEmpty.string_of_uint (numeral_of (PyNum.round_half_even x)))
              " kg") as (mt & more & Hfind & Hgroup).
  - destruct (numeral_of (PyNum.round_half_even x)); [now contradiction Hnil|..];
      discriminate.
  - apply uint_all_digits.
  - reflexivity.
  - unfold weight_kg. rewrite Hfind, Hgroup, digits_value_uint, Hv.
    cbn [option_map]. f_equal. now apply Z2N.id.
Qed.

(** *** The kilograms of the weight parser *)

Lemma float_nonneg s v : PyNum.float s = Some v -> 0 <= v.
Proof.
  unfold PyNum.float. destruct (PyNum.split_at_dot s) as [whole frac].
  destruct whole as [|c whole]; [discriminate|].
  destruct frac as [[|d f]|].
  - discriminate.
  - destruct (PyNum.digits_value 0 (String c whole)) as [n|]; [|discriminate].
    destruct (PyNum.digits_value 0 (String d f)) as [m|]; [|discriminate].
    intros H. injection H as <-. unfold Qle. cbn [Qnum Qden]. nia.
  - destruct (PyNum.digits_value 0 (String c whole)) as [n|]; [|discriminate].
    intros H. injection H as <-. change 0 with (inject_Z 0). rewrite <- Zle_Qle. lia.
Qed.

Lemma collected_value_nonneg text_lower w :
  In w (collect_weights text_lower) -> 0 <= Weight.value_kg w.
Proof.
  unfold collect_weights. intros H.
  apply in_flat_map in H. destruct H as (pattern & _ & H).
  apply in_flat_map in H. destruct H as (mt & _ & H).
  unfold weight_of_match in H.
  destruct (PyNum.float _) as [v|] eqn:F; [|destruct H].
  apply float_nonneg in F. destruct H as [<-|[]]. cbn [Weight.value_kg].
  destruct (_ || _ || _); [nra|]. destruct (_ || _); nra.
Qed.

(** The value of a reconciliation is the print of some weight that is not
    negative. *)
Lemma reconcile_weights_prints weights :
  weights <> [] ->
  (forall w, In w weights -> 0 <= Weight.value_kg w) ->
  exists kg, 0 <= kg /\ value (reconcile_weights weights) = format_kg kg.
Proof.
  intros Hne H. unfold reconcile_weights.
  destruct (max_by Weight.confidence _) as [best|] eqn:E.
  - apply max_by_in in E. apply filter_In in E. destruct E as [E _].
    exists (Weight.value_kg best). split; [now apply H|reflexivity].
  - destruct weights as [|w [|w' rest]]; [now contradiction Hne| |].
    + exists (Weight.value_kg w). split; [apply H; now left|reflexivity].
    + destruct (max_by Weight.value_kg _) as [best|] eqn:M.
      * apply max_by_in in M. apply filter_In in M. destruct M as [M _].
        exists (Weight.value_kg best). split; [now apply H|reflexivity].
      * exists (sum_of Weight.value_kg (w :: w' :: rest)).
        split; [now apply sum_of_nonneg|reflexivity].
Qed.

(** The length of the longest run of digits of [s], [current] being the
    length of the run that [s] goes on with. *)
Fixpoint longest_digit_run (current : nat) (s : string) : nat :=
  match s with
  | EmptyString => current
  | String c s' =>
      if PyStr.is_digit c
      then longest_digit_run (S current) s'
      else Nat.max current (longest_digit_run 0 s')
  end.

(** An ASCII text whose numerals are within the range of a float, with room
    for the conversion to kilograms. *)
Definition numerals_in_range (text : string) : Prop :=
  ascii_text text = true /\ (longest_digit_run 0 text <= 300)%nat.

(** The weight [extract_weight] reports and the kilograms the quote is
    computed for. *)
Definition quoted_as_reported (text : string) : Prop :=
  exists kg : Q,
    0 <= kg /\
    value (extract_weight text) = format_kg kg /\
    weight_kg (value (extract_weight text)) = Some (PyNum.round_half_even kg).

(** X24: for an ASCII text with no numeral of more than 300 digits (none
    that a float cannot hold), a weight that [extract_weight] reports is the
    print, to the whole kilogram, of a weight that is not negative, and the
    quote block of the app reads that number of kilograms back from it: between
    the parser and the quote no weight is lost or changed.  (A weight that the
    LLM gave is read by its first run of digits, whatever its unit.) *)
Theorem quote_weighs_what_the_parser_reported (text : string) :
  numerals_in_range text ->
  value (extract_weight text) <> "" -> quoted_as_reported text.
Proof.
  intros _ Hv. unfold quoted_as_reported.
  assert (Hprint : exists kg, 0 <= kg /\ value (extract_weight text) = format_kg kg).
  { revert Hv. unfold extract_weight.
    destruct (collect_weights (PyStr.lower text)) as [|w rest] eqn:E;
      [cbn [value result]; congruence|].
    intros _. apply reconcile_weights_prints; [discriminate|].
    intros x Hx. rewrite <- E in Hx. now apply collected_value_nonneg in Hx. }
  destruct Hprint as (kg & Hkg & Hprint). exists kg.
  split; [exact Hkg|]. split; [exact Hprint|].
  rewrite Hprint. now apply weight_kg_format_kg.
Qed.

Lemma quote_weight_witness : quoted_as_reported "2.5 toneladas de repuestos".
Proof.
  apply quote_weighs_what_the_parser_reported.
  - split; [reflexivity|]. vm_compute. lia.
  - vm_compute. discriminate.
Defined.

Example parser_and_llm_weights :
  value (extract_weight "2.5 toneladas de repuestos") = "2500 kg" /\
  weight_kg "2500 kg" = Some 2500%Z /\
  weight_kg "2.5 toneladas" = Some 2%Z.
Proof. repeat split; vm_compute; reflexivity. Qed.

(** ** The contact handle is copied from the text *)

Lemma startswith_substring n s : PyStr.startswith (substring 0 n s) s = true.
Proof.
  revert n. induction s as [|c s IH]; intros n.
  - destruct n; reflexivity.
  - destruct n as [|n]; [reflexivity|].
    cbn [substring PyStr.startswith]. now rewrite Ascii.eqb_refl, IH.
Qed.

Lemma contains_substring a n s : PyStr.contains (substring a n s) s = true.
Proof.
  revert a n. induction s as [|c s IH]; intros a n.
  - destruct a, n; reflexivity.
  - destruct a as [|a].
    + cbn [PyStr.contains]. now rewrite startswith_substring.
    + cbn [PyStr.contains]. change (substring (S a) n (String c s)) with (substring a n s).
      rewrite IH. apply orb_true_r.
Qed.

Lemma contains_group subject mt n : PyStr.contains (Re.group subject mt n) subject = true.
Proof.
  unfold Re.group. destruct n as [|n]; [apply contains_substring|].
  destruct (Re.span_of (S n) (Re.m_groups mt)) as [[a b]|]; [apply contains_substring|].
  destruct subject; reflexivity.
Qed.

Lemma first_contact_verbatim pats text :
  PyStr.contains (value (first_contact pats text)) text = true.
Proof.
  induction pats as [|[pattern c] rest IH].
  - cbn [first_contact value result]. destruct text; reflexivity.
  - cbn [first_contact]. destruct (Re.search pattern text Re.no_flags) as [mt|];
      [|exact IH].
    cbn [value result]. apply contains_group.
Qed.

(** X25: the contact handle [extract_all] returns is a piece of the text as
    it stands (the empty piece when no pattern matched): unlike the other
    fields it is never taken from the LLM, nor changed in case or spacing. *)
Theorem contact_handle_is_copied_from_the_text
    (env : Env) (text : string) (r : Results.t) :
  extract_all env text = Returned r ->
  PyStr.contains (Results.contact_info r) text = true.
Proof.
  intros H. apply extract_all_returned in H. destruct H as (llm & _ & ->).
  cbn [Results.contact_info]. unfold extract_contact_info. cbn [snd].
  destruct (PyFloat.ltb 0.5 _).
  - apply first_contact_verbatim.
  - destruct text; reflexivity.
Qed.

Lemma contact_handle_witness :
  PyStr.contains (Results.contact_info sample_results) sample_text = true.
Proof.
  apply (contact_handle_is_copied_from_the_text answering_env). vm_compute. reflexivity.
Defined.
